(** * gdocs-cli: request batching and document-model translation

    A shallow embedding of the parts of gdocs-cli that turn editing
    intents into batchUpdate request descriptors
    ([utils/request_builder.py]), compose them per command
    ([cli/content.py], [cli/table.py]), project a document body to
    Markdown or plain text ([cli/content.py]) and resolve the account a
    command runs as ([services/auth.py]).

    Conventions of the embedding.
    - A Python [str] is a [string], one [ascii] per character; [len] is
      [String.length].  Characters above code point 255 are outside the
      model.
    - A Python [int] is a [Z]; [float] magnitudes are kept as exact
      rationals [Q] (only their zero test and identity are used).
    - [d.get(k)] on an API dictionary is an [option] field; where the
      code supplies a list or string default ([d.get(k, [])]) the field
      holds that default when the key is absent.
    - A raised exception is the left summand of a sum type. *)

From Stdlib Require Import String Ascii List ZArith QArith Bool Arith Lia.
From Stdlib Require Import DecimalString.
Import ListNotations.

Local Close Scope Q_scope.
Local Open Scope list_scope.
Local Open Scope string_scope.

Set Implicit Arguments.

(* ================================================================== *)
(** ** Python string primitives *)

Module PyStr.

Definition nl : string := String (ascii_of_nat 10) "".
Definition tab : string := String (ascii_of_nat 9) "".

(** [str.isspace] for one character, on code points below 256. *)
Definition isspace (c : ascii) : bool :=
  let n := nat_of_ascii c in
  (((9 <=? n) && (n <=? 13)) || ((28 <=? n) && (n <=? 32))
   || (n =? 133) || (n =? 160))%nat.

(** Membership of a character in a string of characters, as used by
    [s.lstrip(chars)] and [s.rstrip(chars)]. *)
Fixpoint mem (c : ascii) (chars : string) : bool :=
  match chars with
  | "" => false
  | String d chars' => Ascii.eqb c d || mem c chars'
  end.

Fixpoint lstrip_by (p : ascii -> bool) (s : string) : string :=
  match s with
  | "" => ""
  | String c s' => if p c then lstrip_by p s' else s
  end.

Fixpoint rstrip_by (p : ascii -> bool) (s : string) : string :=
  match s with
  | "" => ""
  | String c s' =>
      match rstrip_by p s' with
      | "" => if p c then "" else String c ""
      | r => String c r
      end
  end.

(** [s.strip()] *)
Definition strip (s : string) : string := rstrip_by isspace (lstrip_by isspace s).
(** [s.rstrip(chars)] *)
Definition rstrip (chars s : string) : string := rstrip_by (fun c => mem c chars) s.
(** [s.lstrip(chars)] *)
Definition lstrip (chars s : string) : string := lstrip_by (fun c => mem c chars) s.

(** [sep.join(parts)] *)
Fixpoint join (sep : string) (parts : list string) : string :=
  match parts with
  | [] => ""
  | [p] => p
  | p :: rest => p ++ sep ++ join sep rest
  end.

(** ["".join(parts)] *)
Definition concat (parts : list string) : string := String.concat "" parts.

(** [s[i:j]] for [0 <= i <= j]. *)
Definition slice (i j : nat) (s : string) : string := substring i (j - i) s.

(** [c.upper()] for one character.  [a]-[z] and the Latin-1 lower-case
    letters map to their capitals and sharp s maps to [SS]; the micro
    sign and y-diaeresis, whose capitals lie above code point 255, are
    left as they are (neither they nor their capitals are ASCII). *)
Definition upper_char (c : ascii) : string :=
  let n := nat_of_ascii c in
  if ((97 <=? n) && (n <=? 122))%nat then String (ascii_of_nat (n - 32)) ""
  else if (n =? 223)%nat then "SS"
  else if ((224 <=? n) && (n <=? 254) && negb (n =? 247))%nat
       then String (ascii_of_nat (n - 32)) ""
  else String c "".

(** [s.upper()] *)
Fixpoint upper (s : string) : string :=
  match s with
  | "" => ""
  | String c s' => upper_char c ++ upper s'
  end.

(** [str(n)] for an integer. *)
Definition of_int (n : Z) : string := NilEmpty.string_of_int (Z.to_int n).

(** [[s] * n] *)
Definition replicate (n : nat) (s : string) : list string := List.repeat s n.

(** Truthiness of a string: non-empty. *)
Definition truthy (s : string) : bool := negb (String.eqb s "").

(** Truthiness of [str | None]. *)
Definition truthy_opt (o : option string) : bool :=
  match o with
  | Some s => truthy s
  | None => false
  end.

End PyStr.

(** [l.append(x)] on a Python list. *)
Definition list_append (A : Type) (l : list A) (x : A) : list A := (l ++ [x])%list.

(* ================================================================== *)
(** ** Document tree as returned by documents.get *)

(** One entry of a paragraph's ["elements"] list. *)
Inductive ParagraphElement : Type :=
| textRun (content : option string)   (* {"textRun": {"content": ...}} *)
| noTextRun.                          (* any element without "textRun" *)

Record Paragraph : Type := mkParagraph {
  elements : list ParagraphElement;       (* paragraph.get("elements", []) *)
  namedStyleType : option string          (* paragraph.get("paragraphStyle", {}).get("namedStyleType") *)
}.

(** A structural element carries its index range and exactly one of
    the API's union members; only ["paragraph"] and ["table"] are
    inspected by the code. *)
Inductive StructuralElement : Type :=
| Element (startIndex endIndex : option Z) (kind : ElementKind)
with ElementKind : Type :=
| paragraph (p : Paragraph)
| table (t : Table)
| otherKind
with Table : Type :=
| mkTable (rows columns : option Z) (tableRows : list TableRow)
with TableRow : Type :=
| mkTableRow (tableCells : list TableCell)
with TableCell : Type :=
| mkTableCell (content : list StructuralElement).

Definition startIndex (e : StructuralElement) : option Z :=
  let '(Element s _ _) := e in s.
Definition endIndex (e : StructuralElement) : option Z :=
  let '(Element _ n _) := e in n.
Definition kind (e : StructuralElement) : ElementKind :=
  let '(Element _ _ k) := e in k.
Definition rows (t : Table) : option Z := let '(mkTable r _ _) := t in r.
Definition columns (t : Table) : option Z := let '(mkTable _ c _) := t in c.
Definition tableRows (t : Table) : list TableRow := let '(mkTable _ _ r) := t in r.
Definition tableCells (r : TableRow) : list TableCell := let '(mkTableRow c) := r in c.
Definition content (c : TableCell) : list StructuralElement := let '(mkTableCell c) := c in c.

(** The response of documents.get: [doc.get("title")] and
    [doc.get("body", {}).get("content", [])]. *)
Record DocContent : Type := mkDoc {
  title : option string;
  body_content : list StructuralElement
}.

(* ================================================================== *)
(** ** Document Tree Reader ([cli/content.py]) *)

Module Reader.
Import PyStr.

Definition _extract_text_from_paragraph (p : Paragraph) : string :=
  let text_parts :=
    fold_left (fun text_parts elem =>
                 match elem with
                 | textRun c => list_append text_parts (match c with Some s => s | None => "" end)
                 | noTextRun => text_parts
                 end)
              (elements p) [] in
  concat text_parts.

Definition _get_paragraph_style (p : Paragraph) : option string := namedStyleType p.

Definition _extract_cell_text (cell : TableCell) : string :=
  let text_parts :=
    fold_left (fun text_parts element =>
                 match kind element with
                 | paragraph p => list_append text_parts (_extract_text_from_paragraph p)
                 | _ => text_parts
                 end)
              (content cell) [] in
  strip (concat text_parts).

(** [enumerate(l)] *)
Definition enumerate (A : Type) (l : list A) : list (nat * A) :=
  combine (seq 0 (length l)) l.

(** The list [markdown_rows] built by the loop of [_table_to_markdown]. *)
Definition _table_to_markdown_rows (rows : list TableRow) : list string :=
  fold_left (fun markdown_rows '(row_idx, row) =>
               let cells := tableCells row in
               let cell_texts := map _extract_cell_text cells in
               let markdown_rows :=
                 list_append markdown_rows ("| " ++ join " | " cell_texts ++ " |") in
               if Nat.eqb row_idx 0 then
                 let separator :=
                   "| " ++ join " | " (replicate (length cells) "---") ++ " |" in
                 list_append markdown_rows (separator)
               else markdown_rows)
            (enumerate rows) [].

Definition _table_to_markdown (t : Table) : string :=
  let rows := tableRows t in
  match rows with
  | [] => ""
  | _ => join nl (_table_to_markdown_rows rows)
  end.

(** What one iteration of the loop of [_content_to_markdown] appends
    to [markdown_parts]. *)
Definition _content_to_markdown_step (markdown_parts : list string)
           (element : StructuralElement) : list string :=
  match kind element with
  | paragraph p =>
      let text := rstrip nl (_extract_text_from_paragraph p) in
      if negb (truthy text) then markdown_parts
      else
        let style := _get_paragraph_style p in
        let style_is s := match style with Some v => String.eqb v s | None => false end in
        if style_is "TITLE" then list_append markdown_parts ("# " ++ text ++ nl)
        else if style_is "SUBTITLE" then list_append markdown_parts ("*" ++ text ++ "*" ++ nl)
        else if style_is "HEADING_1" then list_append markdown_parts ("# " ++ text ++ nl)
        else if style_is "HEADING_2" then list_append markdown_parts ("## " ++ text ++ nl)
        else if style_is "HEADING_3" then list_append markdown_parts ("### " ++ text ++ nl)
        else if style_is "HEADING_4" then list_append markdown_parts ("#### " ++ text ++ nl)
        else if style_is "HEADING_5" then list_append markdown_parts ("##### " ++ text ++ nl)
        else if style_is "HEADING_6" then list_append markdown_parts ("###### " ++ text ++ nl)
        else list_append markdown_parts (text ++ nl)
  | table t => list_append markdown_parts (nl ++ _table_to_markdown t ++ nl)
  | otherKind => markdown_parts
  end.

Definition _content_to_markdown_parts (content : list StructuralElement) : list string :=
  fold_left _content_to_markdown_step content [].

Definition _content_to_markdown (content : list StructuralElement) : string :=
  join nl (_content_to_markdown_parts content).

Definition _extract_text_from_content (content : list StructuralElement) : string :=
  let text_parts :=
    fold_left (fun text_parts element =>
                 match kind element with
                 | paragraph p => list_append text_parts (_extract_text_from_paragraph p)
                 | table t =>
                     fold_left (fun text_parts row =>
                                  let text_parts :=
                                    fold_left (fun text_parts cell =>
                                                 list_append text_parts (_extract_cell_text cell ++ tab))
                                              (tableCells row) text_parts in
                                  list_append text_parts (nl))
                               (tableRows t) text_parts
                 | otherKind => text_parts
                 end)
              content [] in
  concat text_parts.

End Reader.

(* ================================================================== *)
(** ** Exceptions *)

Inductive Exn : Type :=
| ValueError
| IndexError
| AccountNotFoundError (account : string) (available : list string)
| NoAccountConfiguredError
| Exit (code : Z)                 (* typer.Exit(code) *)
| RemoteError (detail : string).  (* whatever a remote call raised *)

(** Computations that may raise. *)
Definition Raises (A : Type) : Type := (Exn + A)%type.

Definition rbind (A B : Type) (m : Raises A) (k : A -> Raises B) : Raises B :=
  match m with
  | inl e => inl e
  | inr a => k a
  end.

(** [l[i]] on a Python list: a negative index counts from the end, an
    index outside [-len(l) .. len(l)-1] raises IndexError. *)
Definition getitem (A : Type) (l : list A) (i : Z) : Raises A :=
  let n := Z.of_nat (length l) in
  let j := if (i <? 0)%Z then (i + n)%Z else i in
  if ((j <? 0) || (n <=? j))%Z then inl IndexError
  else match nth_error l (Z.to_nat j) with
       | Some x => inr x
       | None => inl IndexError
       end.

(** [len(s)] *)
Definition len (s : string) : Z := Z.of_nat (String.length s).

(* ================================================================== *)
(** ** Style model ([models/element.py]) *)

Inductive NamedStyleType : Type :=
| NORMAL_TEXT | TITLE | SUBTITLE
| HEADING_1 | HEADING_2 | HEADING_3 | HEADING_4 | HEADING_5 | HEADING_6.

(** Members in definition order, as iterating the enum yields them. *)
Definition NamedStyleType_members : list NamedStyleType :=
  [NORMAL_TEXT; TITLE; SUBTITLE;
   HEADING_1; HEADING_2; HEADING_3; HEADING_4; HEADING_5; HEADING_6].

Definition NamedStyleType_name (s : NamedStyleType) : string :=
  match s with
  | NORMAL_TEXT => "NORMAL_TEXT" | TITLE => "TITLE" | SUBTITLE => "SUBTITLE"
  | HEADING_1 => "HEADING_1" | HEADING_2 => "HEADING_2" | HEADING_3 => "HEADING_3"
  | HEADING_4 => "HEADING_4" | HEADING_5 => "HEADING_5" | HEADING_6 => "HEADING_6"
  end.

(** Every member's value is spelled as its name. *)
Definition NamedStyleType_value (s : NamedStyleType) : string := NamedStyleType_name s.

(** [NamedStyleType[key]]; [None] stands for the KeyError. *)
Definition NamedStyleType_getitem (key : string) : option NamedStyleType :=
  find (fun s => String.eqb (NamedStyleType_name s) key) NamedStyleType_members.

Record TextStyle : Type := mkTextStyle {
  bold : bool;
  italic : bool;
  underline : bool;
  strikethrough : bool;
  font_size : option Q;
  font_family : option string;
  foreground_color : option string;
  background_color : option string;
  link_url : option string
}.


(* ================================================================== *)
(** ** Edit operation descriptors ([utils/request_builder.py]) *)

Module RequestBuilder.
Import PyStr.

Record Range : Type := mkRange {
  range_startIndex : Z;
  range_endIndex : Z;
  range_segmentId : option string
}.

Inductive Location : Type :=
| location (index : Z) (segmentId : option string)
| endOfSegmentLocation (segmentId : option string).

(** Values stored under the keys of a [textStyle] object. *)
Inductive StyleValue : Type :=
| VTrue
| VDimension (magnitude : Q) (unit : string)
| VWeightedFontFamily (fontFamily : string)
| VLink (url : string)
| VRgbColor (red green blue : Q).

(** A dictionary literal built key by key, in insertion order. *)
Definition Dict : Type := list (string * StyleValue).

Record TableCellLocation : Type := mkTableCellLocation {
  tableStartLocation_index : option Z;
  rowIndex : Z;
  columnIndex : Z
}.

Inductive Request : Type :=
| insertText (loc : Location) (text : string)
| updateTextStyle (range : Range) (textStyle : Dict) (fields : string)
| updateParagraphStyle (range : Range) (paragraphStyle_namedStyleType : string)
                       (fields : string)
| insertTableRow (tableCellLocation : TableCellLocation) (insertBelow : bool)
| deleteTableRow (tableCellLocation : TableCellLocation)
| insertTableColumn (tableCellLocation : TableCellLocation) (insertRight : bool)
| deleteTableColumn (tableCellLocation : TableCellLocation).

(** [if segment_id: d["segmentId"] = segment_id] *)
Definition segment (segment_id : option string) : option string :=
  if truthy_opt segment_id then segment_id else None.

Definition insert_text_request (text : string) (index : Z)
           (segment_id : option string) : Request :=
  insertText (location index (segment segment_id)) text.

Definition insert_text_at_end_request (text : string)
           (segment_id : option string) : Request :=
  insertText (endOfSegmentLocation (segment segment_id)) text.

Definition hex_digit (c : ascii) : option Z :=
  let n := nat_of_ascii c in
  if ((48 <=? n) && (n <=? 57))%nat then Some (Z.of_nat (n - 48))
  else if ((97 <=? n) && (n <=? 102))%nat then Some (Z.of_nat (n - 87))
  else if ((65 <=? n) && (n <=? 70))%nat then Some (Z.of_nat (n - 55))
  else None.

Fixpoint hex_digits (acc : Z) (s : string) : option Z :=
  match s with
  | "" => Some acc
  | String c s' =>
      match hex_digit c with
      | Some d => hex_digits (16 * acc + d) s'
      | None => None
      end
  end.

(** The characters [int] skips around the digits of a string of at
    most two characters. *)
Definition int_space (c : ascii) : bool :=
  let n := nat_of_ascii c in
  (((9 <=? n) && (n <=? 13)) || (n =? 32) || (n =? 133) || (n =? 160))%nat.

(** [int(s, 16)] for the slices of at most two characters that
    [_parse_color] passes: surrounding whitespace is skipped, one sign
    is accepted, and at least one hexadecimal digit must follow.  (On
    longer strings Python also accepts a [0x] prefix and underscores
    between digits; neither fits in two characters.) *)
Definition int16 (s : string) : Raises Z :=
  let s := rstrip_by int_space (lstrip_by int_space s) in
  let '(negative, digits) :=
    match s with
    | String "-" d => (true, d)
    | String "+" d => (false, d)
    | _ => (false, s)
    end in
  match digits with
  | "" => inl ValueError
  | _ => match hex_digits 0 digits with
         | Some n => inr (if negative then (- n)%Z else n)
         | None => inl ValueError
         end
  end.

(** [_parse_color]: each channel is [int(..., 16) / 255.0]. *)
Definition _parse_color (hex_color : string) : Raises StyleValue :=
  let hex_color := lstrip "#" hex_color in
  rbind (int16 (slice 0 2 hex_color)) (fun r =>
  rbind (int16 (slice 2 4 hex_color)) (fun g =>
  rbind (int16 (slice 4 6 hex_color)) (fun b =>
  inr (VRgbColor (r # 255) (g # 255) (b # 255))))).

(** Truthiness of a number. *)
Definition truthy_num (q : Q) : bool := negb (Qeq_bool q 0).

(** The pair of locals [(text_style, fields)] of
    [update_text_style_request]. *)
Definition StyleAcc : Type := (Dict * list string)%type.

(** [text_style[key] = v; fields.append(key)] *)
Definition set_field (key : string) (v : StyleValue) (acc : StyleAcc) : StyleAcc :=
  (list_append (fst acc) (key, v), list_append (snd acc) key).

Definition update_text_style_request (start_index end_index : Z)
           (style : TextStyle) (segment_id : option string) : Raises Request :=
  let acc : StyleAcc := ([], []) in
  let acc := if bold style then set_field "bold" VTrue acc else acc in
  let acc := if italic style then set_field "italic" VTrue acc else acc in
  let acc := if underline style then set_field "underline" VTrue acc else acc in
  let acc := if strikethrough style then set_field "strikethrough" VTrue acc else acc in
  let acc := match font_size style with
             | Some size =>
                 if truthy_num size
                 then set_field "fontSize" (VDimension size "PT") acc else acc
             | None => acc
             end in
  let acc := match font_family style with
             | Some family =>
                 if truthy family
                 then set_field "weightedFontFamily" (VWeightedFontFamily family) acc
                 else acc
             | None => acc
             end in
  let acc := match link_url style with
             | Some url => if truthy url then set_field "link" (VLink url) acc else acc
             | None => acc
             end in
  rbind (match foreground_color style with
         | Some color =>
             if truthy color
             then rbind (_parse_color color)
                        (fun v => inr (set_field "foregroundColor" v acc))
             else inr acc
         | None => inr acc
         end) (fun acc =>
  rbind (match background_color style with
         | Some color =>
             if truthy color
             then rbind (_parse_color color)
                        (fun v => inr (set_field "backgroundColor" v acc))
             else inr acc
         | None => inr acc
         end) (fun acc =>
  let range_spec := mkRange start_index end_index (segment segment_id) in
  inr (updateTextStyle range_spec (fst acc) (join "," (snd acc))))).

Definition apply_named_style_request (start_index end_index : Z)
           (named_style : NamedStyleType) (segment_id : option string) : Request :=
  let range_spec := mkRange start_index end_index (segment segment_id) in
  updateParagraphStyle range_spec (NamedStyleType_value named_style) "namedStyleType".

Definition insert_table_row_request (table_start_index : option Z) (row_index : Z)
           (insert_below : bool) : Request :=
  insertTableRow (mkTableCellLocation table_start_index row_index 0) insert_below.

Definition delete_table_row_request (table_start_index : option Z)
           (row_index : Z) : Request :=
  deleteTableRow (mkTableCellLocation table_start_index row_index 0).

Definition insert_table_column_request (table_start_index : option Z)
           (column_index : Z) (insert_right : bool) : Request :=
  insertTableColumn (mkTableCellLocation table_start_index 0 column_index) insert_right.

Definition delete_table_column_request (table_start_index : option Z)
           (column_index : Z) : Request :=
  deleteTableColumn (mkTableCellLocation table_start_index 0 column_index).

End RequestBuilder.

(* ================================================================== *)
(** ** Account Resolver ([services/auth.py]) *)

Module Auth.
Import PyStr.

(** [x in accounts] *)
Definition contains (accounts : list string) (x : string) : bool :=
  existsb (String.eqb x) accounts.

(** [resolve_account]: the configured list is what [list_accounts()]
    returns, the default pointer what [get_default_account()] returns
    and the override what [os.environ.get("GDOCS_ACCOUNT")] returns. *)
Definition resolve_account (list_accounts : list string)
           (get_default_account : option string) (GDOCS_ACCOUNT : option string)
           (explicit_account : option string) : Raises string :=
  let accounts := list_accounts in
  match (if truthy_opt explicit_account then explicit_account else None) with
  | Some explicit_account =>
      if negb (contains accounts explicit_account)
      then inl (AccountNotFoundError explicit_account accounts)
      else inr explicit_account
  | None =>
      let env_account := GDOCS_ACCOUNT in
      match (if truthy_opt env_account then env_account else None) with
      | Some env_account =>
          if negb (contains accounts env_account)
          then inl (AccountNotFoundError env_account accounts)
          else inr env_account
      | None =>
          let default := get_default_account in
          let first_available :=
            match accounts with
            | first :: _ => inr first
            | [] => inl NoAccountConfiguredError
            end in
          match (if truthy_opt default then default else None) with
          | Some default =>
              if contains accounts default then inr default else first_available
          | None => first_available
          end
      end
  end.

End Auth.

(* ================================================================== *)
(** ** Commands and their effects

    A command is modelled as the body of its function, which the
    [require_auth] decorator runs once [is_authenticated()] holds; the
    decorator catches TokenExpiredError only, so every other exception
    of the body leaves the command as it was raised. *)

Module Cli.
Import PyStr RequestBuilder.

(** Values printed by [print_json]. *)
Inductive JsonValue : Type :=
| JBool (b : bool)
| JInt (n : Z)
| JStr (s : string).

(** What a command does to the outside world, in order. *)
Inductive Event : Type :=
| GetDocumentContent (document_id : string) (account : option string)
| BatchUpdate (document_id : string) (requests : list Request) (account : option string)
| Echo (message : string) (err : bool)          (* typer.echo(message, err=err) *)
| PrintJson (data : list (string * JsonValue))
| PrintSuccess (message : string).

Definition is_remote_call (e : Event) : bool :=
  match e with
  | GetDocumentContent _ _ | BatchUpdate _ _ _ => true
  | _ => false
  end.


(** The remote service as the command sees it: the [n]-th remote call
    of a run either raises or answers.  Nothing is assumed about how
    the answers relate to earlier calls. *)
Record Remote : Type := mkRemote {
  documents_get : nat -> string -> Raises DocContent;
  documents_batchUpdate : nat -> string -> list Request -> option Exn
}.

(** The process environment of one invocation. *)
Record Env : Type := mkEnv {
  remote : Remote;
  json_mode : bool          (* utils.output._json_mode *)
}.

(** A command threads the log of its events and may raise. *)
Definition Cmd (A : Type) : Type := list Event -> Raises A * list Event.

Definition ret (A : Type) (a : A) : Cmd A := fun log => (inr a, log).

Definition bind (A B : Type) (m : Cmd A) (k : A -> Cmd B) : Cmd B :=
  fun log =>
    match m log with
    | (inl e, log') => (inl e, log')
    | (inr a, log') => k a log'
    end.

Definition raise (A : Type) (e : Exn) : Cmd A := fun log => (inl e, log).
Arguments raise {A} e.

Definition lift (A : Type) (r : Raises A) : Cmd A := fun log => (r, log).

Definition emit (e : Event) : Cmd unit := fun log => (inr tt, list_append log e).

Definition remote_calls (log : list Event) : list Event := filter is_remote_call log.

Declare Scope cmd_scope.
Delimit Scope cmd_scope with cmd.
Notation "x <- m ;; k" := (bind m (fun x => k))
  (at level 61, m at next level, right associativity) : cmd_scope.
Notation "m ;; k" := (bind m (fun _ => k))
  (at level 61, right associativity) : cmd_scope.
Local Open Scope cmd_scope.
Local Open Scope Z_scope.

(** [services.docs.get_document_content] *)
Definition get_document_content (E : Env) (document_id : string)
           (account : option string) : Cmd DocContent :=
  fun log =>
    (documents_get (remote E) (length (remote_calls log)) document_id,
     list_append log (GetDocumentContent document_id account)).

(** [services.docs.batch_update]; its reply is not used by the
    commands below. *)
Definition batch_update (E : Env) (document_id : string) (requests : list Request)
           (account : option string) : Cmd unit :=
  fun log =>
    (match documents_batchUpdate (remote E) (length (remote_calls log))
                                 document_id requests with
     | Some e => inl e
     | None => inr tt
     end,
     list_append log (BatchUpdate document_id requests account)).

Definition echo (message : string) (err : bool) : Cmd unit := emit (Echo message err).
Definition print_json (data : list (string * JsonValue)) : Cmd unit := emit (PrintJson data).
Definition print_success (message : string) : Cmd unit := emit (PrintSuccess message).

(** Run a command from an empty log. *)
Definition run (A : Type) (c : Cmd A) : Raises A * list Event := c [].

(** *** [cli/content.py] *)

Definition invalid_heading_message (heading : string) : string :=
  let valid_styles := join ", " (map NamedStyleType_name NamedStyleType_members) in
  "Invalid heading: " ++ heading ++ ". Valid: " ++ valid_styles.

(** [body.get("content", [])[-1].get("endIndex", 1)], or 1 when the
    content is empty. *)
Definition last_end_index (content : list StructuralElement) : Z :=
  match content with
  | [] => 1
  | _ => match getitem content (-1) with
         | inr last_element =>
             match endIndex last_element with Some i => i | None => 1 end
         | inl _ => 1
         end
  end.

Definition insert_command (E : Env) (document_id text : string) (index : Z)
           (heading : option string) (bold italic : bool)
           (account : option string) : Cmd unit :=
  let requests : list Request := [] in
  let text_with_newline := text ++ nl in
  let requests := list_append requests (insert_text_request text_with_newline index None) in
  let end_index := index + len text_with_newline in
  requests <-
    match heading with
    | Some heading =>
        if truthy heading then
          match NamedStyleType_getitem (upper heading) with
          | Some style_type =>
              ret (list_append requests
                     (apply_named_style_request index end_index style_type None))
          | None =>
              echo (invalid_heading_message heading) true ;;
              raise (Exit 1)
          end
        else ret requests
    | None => ret requests
    end ;;
  requests <-
    (if bold || italic then
       let text_style :=
         mkTextStyle bold italic false false None None None None None in
       r <- lift (update_text_style_request index (index + len text) text_style None) ;;
       ret (list_append requests r)
     else ret requests) ;;
  batch_update E document_id requests account ;;
  if json_mode E then
    print_json [("inserted", JBool true); ("index", JInt index); ("length", JInt (len text))]
  else
    print_success ("Inserted " ++ of_int (len text) ++ " characters at index " ++ of_int index).

Definition append_command (E : Env) (document_id text : string)
           (heading : option string) (account : option string) : Cmd unit :=
  let requests : list Request := [] in
  let text_with_newline := text ++ nl in
  let requests := list_append requests (insert_text_at_end_request text_with_newline None) in
  match (if truthy_opt heading then heading else None) with
  | Some heading =>
      doc_content <- get_document_content E document_id account ;;
      let content := body_content doc_content in
      let end_index := last_end_index content in
      style_type <-
        match NamedStyleType_getitem (upper heading) with
        | Some style_type => ret style_type
        | None =>
            echo (invalid_heading_message heading) true ;;
            raise (Exit 1)
        end ;;
      batch_update E document_id requests account ;;
      new_doc_content <- get_document_content E document_id account ;;
      let new_content := body_content new_doc_content in
      match new_content with
      | [] => ret tt
      | _ =>
          let new_end := last_end_index new_content in
          let style_requests :=
            [apply_named_style_request end_index (new_end - 1) style_type None] in
          batch_update E document_id style_requests account
      end
  | None => batch_update E document_id requests account
  end ;;
  if json_mode E then
    print_json [("appended", JBool true); ("length", JInt (len text))]
  else
    print_success ("Appended " ++ of_int (len text) ++ " characters").

(** *** [cli/table.py] *)

(** One entry of the list [_find_tables] returns. *)
Record TableInfo : Type := mkTableInfo {
  start_index : option Z;
  end_index : option Z;
  info_rows : Z;
  info_columns : Z
}.

Definition _find_tables (doc_content : DocContent) : list TableInfo :=
  fold_left (fun tables element =>
               match kind element with
               | table t =>
                   list_append tables
                     (mkTableInfo (startIndex element) (endIndex element)
                        (match rows t with Some r => r | None => 0 end)
                        (match columns t with Some c => c | None => 0 end))
               | _ => tables
               end)
            (body_content doc_content) [].

Definition table_not_found_message (table_index : Z) (tables : list TableInfo) : string :=
  "Table index " ++ of_int table_index ++ " not found. Document has "
    ++ of_int (Z.of_nat (length tables)) ++ " table(s).".

(** The opening lines that the four table-relative commands repeat
    verbatim: read the document, locate its tables, check the bound,
    index the list. *)
Definition locate_table (E : Env) (document_id : string) (table_index : Z)
           (account : option string) : Cmd TableInfo :=
  doc_content <- get_document_content E document_id account ;;
  let tables := _find_tables doc_content in
  (if table_index >=? Z.of_nat (length tables) then
     echo (table_not_found_message table_index tables) false ;;
     raise (Exit 1)
   else ret tt) ;;
  lift (getitem tables table_index).

Definition add_row_command (E : Env) (document_id : string) (table_index row : Z)
           (above : bool) (account : option string) : Cmd unit :=
  table <- locate_table E document_id table_index account ;;
  let requests := [insert_table_row_request (start_index table) row (negb above)] in
  batch_update E document_id requests account ;;
  let position := if above then "above" else "below" in
  if json_mode E then
    print_json [("added_row", JBool true); ("table_index", JInt table_index);
                ("position", JStr position)]
  else
    print_success ("Added row " ++ position ++ " row " ++ of_int row
                     ++ " in table " ++ of_int table_index).

Definition delete_row_command (E : Env) (document_id : string) (table_index row : Z)
           (account : option string) : Cmd unit :=
  table <- locate_table E document_id table_index account ;;
  let requests := [delete_table_row_request (start_index table) row] in
  batch_update E document_id requests account ;;
  if json_mode E then
    print_json [("deleted_row", JBool true); ("table_index", JInt table_index);
                ("row", JInt row)]
  else
    print_success ("Deleted row " ++ of_int row ++ " from table " ++ of_int table_index).

Definition add_column_command (E : Env) (document_id : string) (table_index column : Z)
           (left : bool) (account : option string) : Cmd unit :=
  table <- locate_table E document_id table_index account ;;
  let requests := [insert_table_column_request (start_index table) column (negb left)] in
  batch_update E document_id requests account ;;
  let position := if left then "left of" else "right of" in
  if json_mode E then
    print_json [("added_column", JBool true); ("table_index", JInt table_index);
                ("position", JStr position)]
  else
    print_success ("Added column " ++ position ++ " column " ++ of_int column
                     ++ " in table " ++ of_int table_index).

Definition delete_column_command (E : Env) (document_id : string) (table_index column : Z)
           (account : option string) : Cmd unit :=
  table <- locate_table E document_id table_index account ;;
  let requests := [delete_table_column_request (start_index table) column] in
  batch_update E document_id requests account ;;
  if json_mode E then
    print_json [("deleted_column", JBool true); ("table_index", JInt table_index);
                ("column", JInt column)]
  else
    print_success ("Deleted column " ++ of_int column ++ " from table "
                     ++ of_int table_index).

End Cli.

(* ================================================================== *)
(** ** The projections in the words of the specification *)

Module Spec.
Import PyStr.

(** The literal text of one run. *)
Definition run_content (elem : ParagraphElement) : string :=
  match elem with
  | textRun (Some s) => s
  | _ => ""
  end.

(** Run contents of a paragraph, concatenated in document order. *)
Definition paragraph_text (p : Paragraph) : string :=
  concat (map run_content (elements p)).

(** The text of the paragraphs directly inside a cell. *)
Definition cell_paragraphs_text (cell : TableCell) : string :=
  concat (map (fun e => match kind e with
                        | paragraph p => paragraph_text p
                        | _ => ""
                        end) (content cell)).

(** A pipe-delimited Markdown line. *)
Definition pipe_line (cells : list string) : string :=
  "| " ++ join " | " cells ++ " |".

(** [n] hash signs. *)
Definition hashes (n : nat) : string := concat (repeat "#" n).

(** Plain-text mode as the specification words it: each cell with its
    trailing newline group removed, a tab between the cells of a row,
    a newline between rows. *)
Definition claimed_cell_text (cell : TableCell) : string :=
  rstrip nl (cell_paragraphs_text cell).

Definition claimed_table_text (t : Table) : string :=
  join nl (map (fun row => join tab (map claimed_cell_text (tableCells row)))
               (tableRows t)).

(** Plain-text mode as the code has it: every cell trimmed on both
    sides and followed by a tab, every row followed by a newline. *)
Definition row_text (row : TableRow) : string :=
  concat (map (fun cell => strip (cell_paragraphs_text cell) ++ tab) (tableCells row)) ++ nl.

Definition element_text (e : StructuralElement) : string :=
  match kind e with
  | paragraph p => paragraph_text p
  | table t => concat (map row_text (tableRows t))
  | otherKind => ""
  end.

(** All characters of [s] satisfy [p]. *)
Fixpoint all_chars (p : ascii -> bool) (s : string) : bool :=
  match s with
  | "" => true
  | String c s' => p c && all_chars p s'
  end.

(** All characters of [s] are whitespace. *)
Definition all_space (s : string) : bool := all_chars isspace s.

(** The first and the last character of a string, if any. *)
Definition first_char (s : string) : option ascii :=
  match s with
  | "" => None
  | String c _ => Some c
  end.

Fixpoint last_char (s : string) : option ascii :=
  match s with
  | "" => None
  | String c "" => Some c
  | String _ s' => last_char s'
  end.

(** Whether a name counts as supplied: Python truthiness of
    [str | None]. *)
Definition supplied (o : option string) (name : string) : Prop :=
  o = Some name /\ name <> "".

Definition not_supplied (o : option string) : Prop :=
  o = None \/ o = Some "".

(** Truthiness of an optional attribute. *)
Definition opt_truthy (A : Type) (t : A -> bool) (o : option A) : bool :=
  match o with
  | Some a => t a
  | None => false
  end.

Definition name_if (cond : bool) (name : string) : list string :=
  if cond then [name] else [].

(** Wire names of the attributes of a style whose value is truthy: a
    set flag, a non-zero size, a non-empty string. *)
Definition truthy_fields (style : TextStyle) : list string :=
  (name_if (bold style) "bold"
   ++ name_if (italic style) "italic"
   ++ name_if (underline style) "underline"
   ++ name_if (strikethrough style) "strikethrough"
   ++ name_if (opt_truthy RequestBuilder.truthy_num (font_size style)) "fontSize"
   ++ name_if (opt_truthy truthy (font_family style)) "weightedFontFamily"
   ++ name_if (opt_truthy truthy (link_url style)) "link"
   ++ name_if (opt_truthy truthy (foreground_color style)) "foregroundColor"
   ++ name_if (opt_truthy truthy (background_color style)) "backgroundColor")%list.

Definition is_some (A : Type) (o : option A) : bool :=
  match o with
  | Some _ => true
  | None => false
  end.

(** Wire names of the attributes of a style that were given a value
    other than the declared default ([False] for the flags, [None] for
    the rest). *)
Definition nondefault_fields (style : TextStyle) : list string :=
  (name_if (bold style) "bold"
   ++ name_if (italic style) "italic"
   ++ name_if (underline style) "underline"
   ++ name_if (strikethrough style) "strikethrough"
   ++ name_if (is_some (font_size style)) "fontSize"
   ++ name_if (is_some (font_family style)) "weightedFontFamily"
   ++ name_if (is_some (link_url style)) "link"
   ++ name_if (is_some (foreground_color style)) "foregroundColor"
   ++ name_if (is_some (background_color style)) "backgroundColor")%list.

(** A colour attribute does not stop the builder: it is absent, empty,
    or a string [_parse_color] accepts. *)
Definition color_parses (o : option string) : Prop :=
  forall color, supplied o color -> exists v, RequestBuilder._parse_color color = inr v.

(** The number of tables among the top-level elements of a body. *)
Definition table_count (doc : DocContent) : nat :=
  length (filter (fun e => match kind e with table _ => true | _ => false end)
                 (body_content doc)).

(** The end index of a body: the [endIndex] of its last element (1
    when that element carries none), or 1 when the body is empty. *)
Definition end_of_body (doc : DocContent) : Z :=
  match rev (body_content doc) with
  | [] => 1%Z
  | last_element :: _ =>
      match endIndex last_element with
      | Some i => i
      | None => 1%Z
      end
  end.

End Spec.

(* ================================================================== *)
(** ** The stages of [update_text_style_request] *)

Module Stages.
Import PyStr RequestBuilder.

(** The accumulator before the colour stages. *)
Definition plain_stages (style : TextStyle) : StyleAcc :=
  let acc : StyleAcc := ([], []) in
  let acc := if bold style then set_field "bold" VTrue acc else acc in
  let acc := if italic style then set_field "italic" VTrue acc else acc in
  let acc := if underline style then set_field "underline" VTrue acc else acc in
  let acc := if strikethrough style then set_field "strikethrough" VTrue acc else acc in
  let acc := match font_size style with
             | Some size =>
                 if truthy_num size
                 then set_field "fontSize" (VDimension size "PT") acc else acc
             | None => acc
             end in
  let acc := match font_family style with
             | Some family =>
                 if truthy family
                 then set_field "weightedFontFamily" (VWeightedFontFamily family) acc
                 else acc
             | None => acc
             end in
  match link_url style with
  | Some url => if truthy url then set_field "link" (VLink url) acc else acc
  | None => acc
  end.

(** The colour stage of the builder, for either colour attribute. *)
Definition color_stage (key : string) (o : option string) (acc : StyleAcc)
  : Raises StyleAcc :=
  match o with
  | Some color =>
      if truthy color
      then rbind (_parse_color color) (fun v => inr (set_field key v acc))
      else inr acc
  | None => inr acc
  end.

End Stages.

(* ================================================================== *)
(** ** Concrete documents used by the examples *)

Module Examples.
Import PyStr.

(** A paragraph of one run. *)
Definition para (style : option string) (text : string) : StructuralElement :=
  Element None None (paragraph (mkParagraph [textRun (Some text)] style)).

(** A cell holding one unstyled paragraph. *)
Definition cell (text : string) : TableCell := mkTableCell [para None text].

(** The table of [test_content_read_with_table]: A, B over 1, 2. *)
Definition table_2x2 : Table :=
  mkTable None None
    [mkTableRow [cell ("A" ++ nl); cell ("B" ++ nl)];
     mkTableRow [cell ("1" ++ nl); cell ("2" ++ nl)]].

(** One row whose first cell starts with a blank. *)
Definition table_blank_A_B : Table :=
  mkTable None None [mkTableRow [cell (" A" ++ nl); cell ("B" ++ nl)]].

(** A body with a paragraph and two tables, starting at 5 and 40. *)
Definition two_table_doc : DocContent :=
  mkDoc (Some "Doc")
    [Element (Some 1%Z) (Some 5%Z)
             (paragraph (mkParagraph [textRun (Some ("Hi" ++ nl))] None));
     Element (Some 5%Z) (Some 40%Z) (table table_2x2);
     Element (Some 40%Z) (Some 75%Z) (table table_blank_A_B)].

(** A remote service that answers every read with [doc] and accepts
    every batch. *)
Definition steady (doc : DocContent) : Cli.Remote :=
  Cli.mkRemote (fun _ _ => inr doc) (fun _ _ _ => None).

(** A remote service whose first read answers [before] and whose later
    reads answer [after]. *)
Definition changing (before after : DocContent) : Cli.Remote :=
  Cli.mkRemote (fun n _ => match n with O => inr before | _ => inr after end)
               (fun _ _ _ => None).

(** A body of one paragraph that ends at [n]. *)
Definition doc_ending_at (n : Z) : DocContent :=
  mkDoc (Some "Doc")
    [Element (Some 1%Z) (Some n) (paragraph (mkParagraph [textRun (Some "text")] None))].

End Examples.

(* ================================================================== *)
(** ** The remaining descriptors of [utils/request_builder.py] *)

Module Builders.
Import PyStr RequestBuilder.

(** [models/element.py], [Alignment]. *)
Inductive Alignment : Type := START | CENTER | END | JUSTIFIED.

Definition Alignment_value (a : Alignment) : string :=
  match a with
  | START => "START"
  | CENTER => "CENTER"
  | END => "END"
  | JUSTIFIED => "JUSTIFIED"
  end.

(** [models/element.py], [ParagraphStyle]; the declared defaults are
    NORMAL_TEXT, START, 1.0, 0, 0 and 0. *)
Record ParagraphStyle : Type := mkParagraphStyle {
  named_style : NamedStyleType;
  alignment : Alignment;
  line_spacing : Q;
  space_above_pt : Q;
  space_below_pt : Q;
  indent_first_line_pt : Q
}.

(** [x > 0] on a number. *)
Definition positive (x : Q) : bool := negb (Qle_bool x 0).

(** Values stored under the keys of a [paragraphStyle] object. *)
Inductive ParagraphValue : Type :=
| PString (s : string)
| PDimension (magnitude : Q) (unit : string).

(** The locals [(paragraph_style, fields)] of
    [update_paragraph_style_request]. *)
Definition ParagraphAcc : Type := (list (string * ParagraphValue) * list string)%type.

(** [paragraph_style[key] = v; fields.append(key)] *)
Definition set_paragraph_field (key : string) (v : ParagraphValue)
           (acc : ParagraphAcc) : ParagraphAcc :=
  (list_append (fst acc) (key, v), list_append (snd acc) key).

(** A [{"magnitude": m, "unit": "PT"}] entry of an [objectSize]. *)
Definition ObjectSize : Type := list (string * (Q * string)).

Inductive Descriptor : Type :=
| updateParagraphStyle_full (range : Range)
                            (paragraphStyle : list (string * ParagraphValue))
                            (fields : string)
| insertTable (rows columns : Z) (loc : Location)
| deleteContentRange (range : Range)
| replaceAllText (containsText_text : string) (containsText_matchCase : bool)
                 (replaceText : string)
| insertInlineImage (loc : Location) (uri : string) (objectSize : option ObjectSize)
| createParagraphBullets (range : Range) (bulletPreset : string)
| deleteParagraphBullets (range : Range).

Definition update_paragraph_style_request (start_index end_index : Z)
           (style : ParagraphStyle) (segment_id : option string) : Descriptor :=
  let acc : ParagraphAcc :=
    ([("namedStyleType", PString (NamedStyleType_value (named_style style)))],
     ["namedStyleType"]) in
  let acc := if negb (String.eqb (Alignment_value (alignment style)) "START")
             then set_paragraph_field "alignment"
                    (PString (Alignment_value (alignment style))) acc
             else acc in
  let acc := if positive (space_above_pt style)
             then set_paragraph_field "spaceAbove"
                    (PDimension (space_above_pt style) "PT") acc
             else acc in
  let acc := if positive (space_below_pt style)
             then set_paragraph_field "spaceBelow"
                    (PDimension (space_below_pt style) "PT") acc
             else acc in
  let acc := if positive (indent_first_line_pt style)
             then set_paragraph_field "indentFirstLine"
                    (PDimension (indent_first_line_pt style) "PT") acc
             else acc in
  let range_spec := mkRange start_index end_index (segment segment_id) in
  updateParagraphStyle_full range_spec (fst acc) (join "," (snd acc)).

Definition insert_table_request (rows columns index : Z)
           (segment_id : option string) : Descriptor :=
  insertTable rows columns (location index (segment segment_id)).

Definition delete_content_range_request (start_index end_index : Z)
           (segment_id : option string) : Descriptor :=
  deleteContentRange (mkRange start_index end_index (segment segment_id)).

Definition replace_all_text_request (find_text replace_text : string)
           (match_case : bool) : Descriptor :=
  replaceAllText find_text match_case replace_text.

(** Truthiness of [float | None]. *)
Definition truthy_size (o : option Q) : bool :=
  match o with
  | Some q => truthy_num q
  | None => false
  end.

Definition insert_inline_image_request (uri : string) (index : Z)
           (width_pt height_pt : option Q) (segment_id : option string) : Descriptor :=
  let loc := location index (segment segment_id) in
  if truthy_size width_pt || truthy_size height_pt then
    let object_size : ObjectSize := [] in
    let object_size :=
      match width_pt with
      | Some w => if truthy_num w then list_append object_size ("width", (w, "PT"))
                  else object_size
      | None => object_size
      end in
    let object_size :=
      match height_pt with
      | Some h => if truthy_num h then list_append object_size ("height", (h, "PT"))
                  else object_size
      | None => object_size
      end in
    insertInlineImage loc uri (Some object_size)
  else insertInlineImage loc uri None.

Definition create_paragraph_bullets_request (start_index end_index : Z)
           (bullet_preset : string) (segment_id : option string) : Descriptor :=
  createParagraphBullets (mkRange start_index end_index (segment segment_id))
                         bullet_preset.

Definition delete_paragraph_bullets_request (start_index end_index : Z)
           (segment_id : option string) : Descriptor :=
  deleteParagraphBullets (mkRange start_index end_index (segment segment_id)).

End Builders.

(* ================================================================== *)
(** ** The retry wrapper of [services/docs.py] *)

Module Retry.

Definition MAX_RETRIES : nat := 3.
Definition BASE_DELAY : Z := 1.

(** What one [request.execute()] does. *)
Inductive Outcome (R : Type) : Type :=
| Response (r : R)
| HttpError (status : Z)
| OtherException (detail : string).
Arguments Response {R} r.
Arguments HttpError {R} status.
Arguments OtherException {R} detail.

(** What [_execute_with_retry] raises. *)
Inductive Raised : Type :=
| TokenExpiredError (account : option string)
| RaisedHttpError (status : Z)
| RaisedOther (detail : string).

(** A run of the wrapper: what it returns or raises, how many times it
    executed the request, and the delays it slept, in order. *)
Record Run (R : Type) : Type := mkRun {
  result : Raised + R;
  executions : nat;
  slept : list Z
}.

(** [request.execute()] outside the [try]: every failure leaves as it is. *)
Definition unguarded (R : Type) (o : Outcome R) : Raised + R :=
  match o with
  | Response r => inr r
  | HttpError status => inl (RaisedHttpError status)
  | OtherException detail => inl (RaisedOther detail)
  end.

(** The loop [for attempt in range(MAX_RETRIES)] from [attempt] on, with
    [remaining] iterations left, followed by the final attempt.  The
    [n]-th execution of the request has outcome [execute n]. *)
Fixpoint attempts (R : Type) (execute : nat -> Outcome R) (account : option string)
         (attempt remaining : nat) (slept : list Z) : Run R :=
  match remaining with
  | O => mkRun (unguarded (execute attempt)) (S attempt) slept
  | S remaining' =>
      match execute attempt with
      | Response r => mkRun (inr r) (S attempt) slept
      | HttpError status =>
          if (status =? 401)%Z then
            mkRun (inl (TokenExpiredError account)) (S attempt) slept
          else if (status =? 429)%Z then
            let delay := (BASE_DELAY * 2 ^ Z.of_nat attempt)%Z in
            attempts execute account (S attempt) remaining' (list_append slept delay)
          else mkRun (inl (RaisedHttpError status)) (S attempt) slept
      | OtherException detail => mkRun (inl (RaisedOther detail)) (S attempt) slept
      end
  end.

Definition _execute_with_retry (R : Type) (execute : nat -> Outcome R)
           (account : option string) : Run R :=
  attempts execute account 0 MAX_RETRIES [].

End Retry.

(* ================================================================== *)
(** ** Credentials and logout ([services/auth.py]) *)

Module AuthService.
Import PyStr Auth.

(** The attributes of a Credentials object that the code reads. *)
Record Credentials : Type := mkCredentials {
  expired : bool;
  refresh_token : option string;
  valid : bool
}.

(** Writes to the credential store of [services/credentials.py]; a
    write is taken to succeed. *)
Inductive StoreOp : Type :=
| save_credentials (credentials : Credentials) (account : string)
| delete_credentials (account : string)
| clear_all_accounts.

(** What the functions read: the account list, the default pointer, the
    environment override, the stored credentials of an account, and
    what [credentials.refresh(Request())] leaves in the object ([None]
    when it raises). *)
Record Store : Type := mkStore {
  list_accounts : list string;
  get_default_account : option string;
  GDOCS_ACCOUNT : option string;
  load_credentials : string -> option Credentials;
  refresh : Credentials -> option Credentials
}.

(** [resolve_account(explicit_account)] against a store. *)
Definition resolve (S : Store) (explicit_account : option string) : Raises string :=
  resolve_account (list_accounts S) (get_default_account S) (GDOCS_ACCOUNT S)
                  explicit_account.

(** The part of [get_credentials] after the account is known. *)
Definition credentials_of (S : Store) (account : string)
  : option Credentials * list StoreOp :=
  match load_credentials S account with
  | None => (None, [])
  | Some credentials =>
      if expired credentials && truthy_opt (refresh_token credentials) then
        match refresh S credentials with
        | Some credentials => (Some credentials, [save_credentials credentials account])
        | None => (None, [delete_credentials account])
        end
      else (Some credentials, [])
  end.

Definition get_credentials (S : Store) (account : option string)
  : option Credentials * list StoreOp :=
  match account with
  | None =>
      match resolve S None with
      | inr account => credentials_of S account
      | inl _ => (None, [])
      end
  | Some account => credentials_of S account
  end.

(** [credentials is not None and credentials.valid] *)
Definition is_valid (c : option Credentials) : bool :=
  match c with
  | Some credentials => valid credentials
  | None => false
  end.

Definition is_authenticated (S : Store) (account : option string)
  : bool * list StoreOp :=
  if truthy_opt account then
    let '(credentials, ops) := get_credentials S account in
    (is_valid credentials, ops)
  else
    match list_accounts S with
    | [] => (false, [])
    | first :: _ =>
        let '(credentials, ops) := get_credentials S (Some first) in
        (is_valid credentials, ops)
    end.

Definition refresh_credentials (S : Store) (account : option string)
  : bool * list StoreOp :=
  let resolved :=
    match account with
    | None => match resolve S None with
              | inr account => Some account
              | inl _ => None
              end
    | Some account => Some account
    end in
  match resolved with
  | None => (false, [])
  | Some account =>
      match load_credentials S account with
      | None => (false, [])
      | Some credentials =>
          if negb (truthy_opt (refresh_token credentials)) then (false, [])
          else match refresh S credentials with
               | Some credentials => (true, [save_credentials credentials account])
               | None => (false, [])
               end
      end
  end.

Definition get_user_email (S : Store) (account : option string) : option string :=
  if truthy_opt account then account
  else match resolve S None with
       | inr account => Some account
       | inl _ => None
       end.

Definition logout (S : Store) (account : option string) (all_accounts : bool)
  : list string * list StoreOp :=
  if all_accounts then (list_accounts S, [clear_all_accounts])
  else
    match (if truthy_opt account then account else None) with
    | Some account => ([account], [delete_credentials account])
    | None =>
        match resolve S None with
        | inr default => ([default], [delete_credentials default])
        | inl _ => ([], [])
        end
    end.

End AuthService.

(* ================================================================== *)
(** ** The remaining commands of [cli/content.py] and [cli/table.py],
       and the [require_auth] decorator of [cli/auth.py] *)

Module MoreCommands.
Import PyStr RequestBuilder Builders Reader.

(** The exceptions of these commands: those of the first layer, the
    token failure of the services, and a failed file read. *)
Inductive Exc : Type :=
| Core (e : Exn)
| TokenExpiredError (account : option string)
| OSError (detail : string).

(** Any request descriptor. *)
Inductive AnyRequest : Type :=
| basic (r : Request)
| extended (d : Descriptor).

(** One entry of the ["replies"] of a batchUpdate response:
    [reply.get("replaceAllText")] and, inside it,
    [.get("occurrencesChanged")]. *)
Record ReplaceAllTextReply : Type := mkReplaceAllTextReply {
  occurrencesChanged : option Z
}.

Record Reply : Type := mkReply {
  reply_replaceAllText : option ReplaceAllTextReply
}.

(** A batchUpdate response: [result.get("replies", [])]. *)
Record BatchResponse : Type := mkBatchResponse {
  replies : list Reply
}.

(** Values handed to [print_json]; [JDocument] is a documents.get
    response printed as it was received. *)
#[local] Unset Elimination Schemes.
Inductive Json : Type :=
| JNone
| JBool (b : bool)
| JInt (n : Z)
| JStr (s : string)
| JList (items : list Json)
| JObject (members : list (string * Json))
| JDocument (doc : DocContent).
#[local] Set Elimination Schemes.

Inductive Event : Type :=
| GetDocumentContent (document_id : string) (account : option string)
| BatchUpdate (document_id : string) (requests : list AnyRequest)
              (account : option string)
| Echo (message : string) (err : bool)
| PrintJson (data : Json)
| PrintSuccess (message : string)
| PrintError (message : string) (tip : option string)
| PrintTable (title : string) (columns : list string) (rows : list (list string))
| DeleteCredentials (account : string).

Definition is_remote_call (e : Event) : bool :=
  match e with
  | GetDocumentContent _ _ | BatchUpdate _ _ _ => true
  | _ => false
  end.

Definition remote_calls (log : list Event) : list Event := filter is_remote_call log.

(** The remote service: the outcome of the [n]-th remote call of a run. *)
Record Remote : Type := mkRemote {
  documents_get : nat -> string -> Exc + DocContent;
  documents_batchUpdate : nat -> string -> list AnyRequest -> Exc + BatchResponse
}.

(** The process environment: the remote service, the JSON flag, and
    the file system as [Path.exists] and [Path.read_text] see it
    ([None]: no such path; [Some (inl e)]: the read raises). *)
Record Env : Type := mkEnv {
  remote : Remote;
  json_mode : bool;
  files : string -> option (Exc + string)
}.

Definition Cmd (A : Type) : Type := list Event -> (Exc + A) * list Event.

Definition ret (A : Type) (a : A) : Cmd A := fun log => (inr a, log).

Definition bind (A B : Type) (m : Cmd A) (k : A -> Cmd B) : Cmd B :=
  fun log =>
    match m log with
    | (inl e, log') => (inl e, log')
    | (inr a, log') => k a log'
    end.

Definition raise (A : Type) (e : Exc) : Cmd A := fun log => (inl e, log).
Arguments raise {A} e.

Definition emit (e : Event) : Cmd unit := fun log => (inr tt, list_append log e).

Declare Scope more_scope.
Delimit Scope more_scope with more.
Notation "x <- m ;; k" := (bind m (fun x => k))
  (at level 61, m at next level, right associativity) : more_scope.
Notation "m ;; k" := (bind m (fun _ => k))
  (at level 61, right associativity) : more_scope.
Local Open Scope more_scope.
Local Open Scope Z_scope.

Definition get_document_content (E : Env) (document_id : string)
           (account : option string) : Cmd DocContent :=
  fun log =>
    (documents_get (remote E) (length (remote_calls log)) document_id,
     list_append log (GetDocumentContent document_id account)).

Definition batch_update (E : Env) (document_id : string) (requests : list AnyRequest)
           (account : option string) : Cmd BatchResponse :=
  fun log =>
    (documents_batchUpdate (remote E) (length (remote_calls log)) document_id requests,
     list_append log (BatchUpdate document_id requests account)).

Definition echo (message : string) (err : bool) : Cmd unit := emit (Echo message err).
Definition print_json (data : Json) : Cmd unit := emit (PrintJson data).
Definition print_success (message : string) : Cmd unit := emit (PrintSuccess message).


Definition run (A : Type) (c : Cmd A) : (Exc + A) * list Event := c [].

(** *** [cli/content.py] *)

Definition read_command (E : Env) (document_id : string) (plain raw : bool)
           (account : option string) : Cmd unit :=
  doc_content <- get_document_content E document_id account ;;
  if raw || json_mode E then print_json (JDocument doc_content)
  else
    let title := match title doc_content with Some t => t | None => "Untitled" end in
    let content := body_content doc_content in
    if plain then
      let text := _extract_text_from_content content in
      echo ("# " ++ title ++ nl) false ;;
      echo text false
    else
      let text := _content_to_markdown content in
      echo ("# " ++ title ++ nl) false ;;
      echo text false.

Definition from_file_command (E : Env) (document_id file_path : string)
           (account : option string) : Cmd unit :=
  match files E file_path with
  | None =>
      echo ("File not found: " ++ file_path) true ;;
      raise (Core (Exit 1))
  | Some read_text =>
      match read_text with
      | inl e => raise e
      | inr content =>
          let requests := [basic (insert_text_at_end_request content None)] in
          batch_update E document_id requests account ;;
          if json_mode E then
            print_json (JObject [("imported", JBool true); ("file", JStr file_path);
                                 ("length", JInt (len content))])
          else
            print_success ("Imported " ++ of_int (len content) ++ " characters from "
                             ++ file_path)
      end
  end.

(** [replies[0].get("replaceAllText", {}).get("occurrencesChanged", 0)]
    when [replies] is not empty, else 0. *)
Definition occurrences_of (result : BatchResponse) : Z :=
  match replies result with
  | [] => 0
  | first :: _ =>
      match reply_replaceAllText first with
      | Some r => match occurrencesChanged r with Some n => n | None => 0 end
      | None => 0
      end
  end.

Definition replace_command (E : Env) (document_id find replace : string)
           (match_case : bool) (account : option string) : Cmd unit :=
  let requests := [extended (replace_all_text_request find replace match_case)] in
  result <- batch_update E document_id requests account ;;
  let occurrences := occurrences_of result in
  if json_mode E then
    print_json (JObject [("replaced", JBool true); ("occurrences", JInt occurrences)])
  else
    print_success ("Replaced " ++ of_int occurrences ++ " occurrence(s)").

Definition bullets_command (E : Env) (document_id : string) (start_index end_index : Z)
           (preset : string) (account : option string) : Cmd unit :=
  let requests :=
    [extended (create_paragraph_bullets_request start_index end_index preset None)] in
  batch_update E document_id requests account ;;
  if json_mode E then
    print_json (JObject [("bullets_applied", JBool true); ("start", JInt start_index);
                         ("end", JInt end_index)])
  else
    print_success ("Applied bullets to range " ++ of_int start_index ++ "-"
                     ++ of_int end_index).

(** *** [cli/table.py] *)

Definition create_table_command (E : Env) (document_id : string) (rows columns index : Z)
           (account : option string) : Cmd unit :=
  let requests := [extended (insert_table_request rows columns index None)] in
  batch_update E document_id requests account ;;
  if json_mode E then
    print_json (JObject [("created", JBool true); ("rows", JInt rows);
                         ("columns", JInt columns); ("index", JInt index)])
  else
    print_success ("Created " ++ of_int rows ++ "x" ++ of_int columns
                     ++ " table at index " ++ of_int index).

(** [str(x)] for [int | None]. *)
Definition str_of_optional_int (o : option Z) : string :=
  match o with
  | Some n => of_int n
  | None => "None"
  end.

Definition optional_int_json (o : option Z) : Json :=
  match o with
  | Some n => JInt n
  | None => JNone
  end.

(** One dictionary of the list [_find_tables] returns, as JSON. *)
Definition table_info_json (t : Cli.TableInfo) : Json :=
  JObject [("start_index", optional_int_json (Cli.start_index t));
           ("end_index", optional_int_json (Cli.end_index t));
           ("rows", JInt (Cli.info_rows t));
           ("columns", JInt (Cli.info_columns t))].

(** The list [rows] built by the loop of [list_tables_command]. *)
Definition list_tables_rows (tables : list Cli.TableInfo) : list (list string) :=
  fold_left (fun rows '(i, t) =>
               list_append rows
                 [of_int (Z.of_nat i);
                  str_of_optional_int (Cli.start_index t);
                  of_int (Cli.info_rows t) ++ "x" ++ of_int (Cli.info_columns t)])
            (enumerate tables) [].

Definition list_tables_command (E : Env) (document_id : string)
           (account : option string) : Cmd unit :=
  doc_content <- get_document_content E document_id account ;;
  let tables := Cli._find_tables doc_content in
  if json_mode E then
    print_json (JObject [("tables", JList (map table_info_json tables))])
  else
    match tables with
    | [] => echo "No tables found in document." false
    | _ =>
        let rows := list_tables_rows tables in
        emit (PrintTable "Tables" ["Index"; "Start Position"; "Size (RxC)"] rows)
    end.

(** *** [cli/auth.py] *)


End MoreCommands.

(* ================================================================== *)
(** ** Further vocabulary for the properties below *)

Module Vocabulary.
Import PyStr.

(** The character [#]. *)
Definition is_hash (c : ascii) : bool := Ascii.eqb c "#".

(** Wire names of the attributes of a paragraph style that
    [update_paragraph_style_request] writes besides the named style. *)
Definition optional_paragraph_fields (style : Builders.ParagraphStyle) : list string :=
  (Spec.name_if (negb (String.eqb (Builders.Alignment_value (Builders.alignment style))
                                  "START")) "alignment"
   ++ Spec.name_if (Builders.positive (Builders.space_above_pt style)) "spaceAbove"
   ++ Spec.name_if (Builders.positive (Builders.space_below_pt style)) "spaceBelow"
   ++ Spec.name_if (Builders.positive (Builders.indent_first_line_pt style))
                   "indentFirstLine")%list.

(** A paragraph style with another line spacing. *)
Definition with_line_spacing (spacing : Q) (style : Builders.ParagraphStyle)
  : Builders.ParagraphStyle :=
  Builders.mkParagraphStyle (Builders.named_style style) (Builders.alignment style)
                            spacing (Builders.space_above_pt style)
                            (Builders.space_below_pt style)
                            (Builders.indent_first_line_pt style).

(** What the [try] of [_execute_with_retry] makes of an outcome other
    than a rate limit: a 401 becomes TokenExpiredError. *)
Definition guarded (R : Type) (account : option string) (o : Retry.Outcome R)
  : Retry.Raised + R :=
  match o with
  | Retry.Response r => inr r
  | Retry.HttpError status =>
      if (status =? 401)%Z then inl (Retry.TokenExpiredError account)
      else inl (Retry.RaisedHttpError status)
  | Retry.OtherException detail => inl (Retry.RaisedOther detail)
  end.

(** Total of a list of delays. *)
Definition total (delays : list Z) : Z := fold_right Z.add 0%Z delays.

(** The top-level elements of a body that are tables. *)
Definition is_table_element (e : StructuralElement) : bool :=
  match kind e with
  | table _ => true
  | _ => false
  end.

Definition table_elements (doc : DocContent) : list StructuralElement :=
  filter is_table_element (body_content doc).

Definition is_paragraph_kind (k : ElementKind) : bool :=
  match k with
  | paragraph _ => true
  | _ => false
  end.

(** The entry [_find_tables] makes for one table element. *)
Definition table_info_of (e : StructuralElement) (t : Table) : Cli.TableInfo :=
  Cli.mkTableInfo (startIndex e) (endIndex e)
                  (match rows t with Some r => r | None => 0%Z end)
                  (match columns t with Some c => c | None => 0%Z end).

(** The store writes of a run that are deletions. *)
Definition is_delete (op : AuthService.StoreOp) : bool :=
  match op with
  | AuthService.delete_credentials _ => true
  | _ => false
  end.

(** The line a command prints on success: JSON in JSON mode, else a
    success message. *)
Definition is_output (e : Cli.Event) : bool :=
  match e with
  | Cli.PrintJson _ | Cli.PrintSuccess _ => true
  | _ => false
  end.

End Vocabulary.

(* ================================================================== *)
(** ** Further concrete inputs *)

Module MoreExamples.

(** A request that is rate limited twice and then answers. *)
Definition limited_twice : nat -> Retry.Outcome string :=
  fun n => match n with
           | 0%nat | 1%nat => Retry.HttpError 429
           | _ => Retry.Response "ok"
           end.

(** A request that is always rate limited. *)
Definition always_limited : nat -> Retry.Outcome string :=
  fun _ => Retry.HttpError 429.

(** A store of two accounts whose second one is the default; the
    credentials of the first have expired and cannot be refreshed. *)
Definition two_accounts : AuthService.Store :=
  AuthService.mkStore
    ["first@example.com"; "second@example.com"] (Some "second@example.com") None
    (fun account =>
       if String.eqb account "first@example.com"
       then Some (AuthService.mkCredentials true (Some "r1") false)
       else if String.eqb account "second@example.com"
            then Some (AuthService.mkCredentials false (Some "r2") true)
            else None)
    (fun _ => None).

(** A remote service for the second layer that answers every read with
    [doc] and every batch with [response]. *)
Definition steady (doc : DocContent) (response : MoreCommands.BatchResponse)
  : MoreCommands.Remote :=
  MoreCommands.mkRemote (fun _ _ => inr doc) (fun _ _ _ => inr response).

(** A file system holding one file. *)
Definition one_file (path content : string) : string -> option (MoreCommands.Exc + string) :=
  fun p => if String.eqb p path then Some (inr content) else None.


End MoreExamples.

(* ================================================================== *)
(** ** Lines of an output *)

Module Lines.
Import PyStr.

(** The newline character. *)
Definition newline : ascii := ascii_of_nat 10.

(** Whether a string contains a newline. *)
Fixpoint has_newline (s : string) : bool :=
  match s with
  | "" => false
  | String c s' => Ascii.eqb c newline || has_newline s'
  end.

(** The physical lines of a string: what lies between its newlines. *)
Fixpoint split_lines (s : string) : list string :=
  match s with
  | "" => [""]
  | String c s' =>
      if Ascii.eqb c newline then "" :: split_lines s'
      else match split_lines s' with
           | [] => [String c ""]
           | line :: lines => String c line :: lines
           end
  end.

(** A table of one row and one cell that holds the two paragraphs
    [a] and [b]. *)
Definition two_paragraph_cell : Table :=
  mkTable None None
    [mkTableRow [mkTableCell [Examples.para None ("a" ++ nl);
                              Examples.para None ("b" ++ nl)]]].

(** A string with no newline in it. *)
Definition single_line (s : string) : bool := negb (has_newline s).

(** No cell text of the rows holds a newline. *)
Definition single_line_cells (rows : list TableRow) : bool :=
  forallb (fun row =>
             forallb (fun cell => single_line (Reader._extract_cell_text cell))
                     (tableCells row))
          rows.

End Lines.

(** A credential store with no account and no credentials. *)
Module StoreExamples.

Definition empty_store : AuthService.Store :=
  AuthService.mkStore [] None None (fun _ => None) (fun _ => None).

End StoreExamples.

(* ================================================================== *)
(** * Properties *)

(** ** Lists and strings *)

Lemma fold_left_list_append (A B : Type) (f : list B -> A -> list B) (g : A -> list B) :
  (forall acc a, f acc a = (acc ++ g a)%list) ->
  forall l acc, fold_left f l acc = (acc ++ flat_map g l)%list.
Proof.
  intros Hf l; induction l as [|a l IH]; intros acc; simpl.
  - now rewrite app_nil_r.
  - rewrite IH, Hf, <- app_assoc. reflexivity.
Qed.

Lemma string_app_nil_r (s : string) : s ++ "" = s.
Proof. induction s; simpl; congruence. Qed.

Lemma string_app_assoc (a b c : string) : (a ++ b) ++ c = a ++ (b ++ c).
Proof. induction a; simpl; congruence. Qed.

Lemma concat_cons (s : string) (l : list string) :
  PyStr.concat (s :: l) = s ++ PyStr.concat l.
Proof.
  unfold PyStr.concat. destruct l; simpl.
  - now rewrite string_app_nil_r.
  - reflexivity.
Qed.

Lemma concat_app (l1 l2 : list string) :
  PyStr.concat (l1 ++ l2) = PyStr.concat l1 ++ PyStr.concat l2.
Proof.
  induction l1 as [|s l1 IH]; [reflexivity|].
  change ((s :: l1) ++ l2)%list with (s :: (l1 ++ l2))%list.
  now rewrite !concat_cons, IH, string_app_assoc.
Qed.

Lemma concat_flat_map (A : Type) (g : A -> list string) (l : list A) :
  PyStr.concat (flat_map g l) = PyStr.concat (map (fun a => PyStr.concat (g a)) l).
Proof.
  induction l as [|a l IH]; [reflexivity|].
  simpl. now rewrite concat_app, concat_cons, IH.
Qed.

Lemma truthy_false_iff (s : string) : PyStr.truthy s = false <-> s = "".
Proof.
  unfold PyStr.truthy. destruct (String.eqb_spec s ""); simpl; split; congruence.
Qed.

Lemma truthy_true_iff (s : string) : PyStr.truthy s = true <-> s <> "".
Proof.
  unfold PyStr.truthy. destruct (String.eqb_spec s ""); simpl; split; congruence.
Qed.

(** ** Document Tree Reader *)

Module ReaderFacts.
Import PyStr Reader Spec.

Lemma extract_text_from_paragraph_spec (p : Paragraph) :
  _extract_text_from_paragraph p = paragraph_text p.
Proof.
  unfold _extract_text_from_paragraph, paragraph_text.
  rewrite (fold_left_list_append
             (fun text_parts elem =>
                match elem with
                | textRun c => list_append text_parts (match c with Some s => s | None => "" end)
                | noTextRun => text_parts
                end)
             (fun elem => match elem with
                          | textRun c => [match c with Some s => s | None => "" end]
                          | noTextRun => []
                          end)).
  - simpl. rewrite concat_flat_map. f_equal. apply map_ext.
    intros [[s|]|]; reflexivity.
  - intros acc [c|]; [reflexivity | now rewrite app_nil_r].
Qed.

Lemma extract_cell_text_spec (cell : TableCell) :
  _extract_cell_text cell = strip (cell_paragraphs_text cell).
Proof.
  unfold _extract_cell_text, cell_paragraphs_text. f_equal.
  rewrite (fold_left_list_append
             (fun text_parts element =>
                match kind element with
                | paragraph p => list_append text_parts (_extract_text_from_paragraph p)
                | _ => text_parts
                end)
             (fun element => match kind element with
                             | paragraph p => [_extract_text_from_paragraph p]
                             | _ => []
                             end)).
  - simpl. rewrite concat_flat_map. f_equal. apply map_ext.
    intros e. destruct (kind e); try reflexivity.
    now rewrite concat_cons, string_app_nil_r, extract_text_from_paragraph_spec.
  - intros acc e. destruct (kind e); try reflexivity; now rewrite app_nil_r.
Qed.

(** The loop of [_content_to_markdown] only ever appends. *)
Lemma content_to_markdown_step_app (acc : list string) (e : StructuralElement) :
  _content_to_markdown_step acc e = (acc ++ _content_to_markdown_step [] e)%list.
Proof.
  unfold _content_to_markdown_step, list_append.
  destruct (kind e) as [p|t|]; simpl; try now rewrite ?app_nil_r.
  repeat match goal with
         | |- context [if ?b then _ else _] => destruct b
         end; simpl; now rewrite ?app_nil_r.
Qed.

Lemma content_to_markdown_parts_flat_map (content : list StructuralElement) :
  _content_to_markdown_parts content = flat_map (_content_to_markdown_step []) content.
Proof.
  unfold _content_to_markdown_parts.
  now rewrite (fold_left_list_append _ _ content_to_markdown_step_app).
Qed.

Lemma content_to_markdown_parts_app (a b : list StructuralElement) :
  _content_to_markdown_parts (a ++ b)
  = (_content_to_markdown_parts a ++ _content_to_markdown_parts b)%list.
Proof. rewrite !content_to_markdown_parts_flat_map. apply flat_map_app. Qed.

Lemma content_to_markdown_parts_cons (e : StructuralElement) (b : list StructuralElement) :
  _content_to_markdown_parts (e :: b)
  = (_content_to_markdown_step [] e ++ _content_to_markdown_parts b)%list.
Proof. rewrite !content_to_markdown_parts_flat_map. reflexivity. Qed.

End ReaderFacts.

Module MarkdownProjection.
Import PyStr Reader Spec ReaderFacts.

Lemma step_paragraph_empty (si ei : option Z) (p : Paragraph) :
  rstrip nl (_extract_text_from_paragraph p) = "" ->
  _content_to_markdown_step [] (Element si ei (paragraph p)) = [].
Proof.
  intros H. unfold _content_to_markdown_step. simpl kind. cbv beta iota zeta.
  rewrite H. reflexivity.
Qed.

(** C7. For every paragraph of a body, wherever it stands: when its
    text is empty once the trailing newlines are removed it adds
    nothing to the Markdown output, which is the output of the body
    without it; otherwise it adds exactly one part, which is [# text]
    for TITLE and HEADING_1, [*text*] for SUBTITLE, [n] hash signs, a
    blank and the text for HEADING_n with n from 2 to 6, and the bare
    text when the paragraph has no named style or NORMAL_TEXT.  The
    output of the body is its parts joined by newlines, so that the
    output of the paragraph alone is that one line. *)
Theorem markdown_paragraph_projection :
  forall (pre post : list StructuralElement) (si ei : option Z) (p : Paragraph),
    let text := rstrip nl (_extract_text_from_paragraph p) in
    let style := _get_paragraph_style p in
    let element := Element si ei (paragraph p) in
    let emits (lines : list string) :=
      _content_to_markdown_parts (pre ++ element :: post)
      = (_content_to_markdown_parts pre ++ lines ++ _content_to_markdown_parts post)%list
      /\ _content_to_markdown (pre ++ element :: post)
         = join nl (_content_to_markdown_parts pre ++ lines
                      ++ _content_to_markdown_parts post) in
    let alone (output : string) := _content_to_markdown [element] = output in
    (text = "" ->
     emits [] /\ alone ""
     /\ _content_to_markdown (pre ++ element :: post)
        = _content_to_markdown (pre ++ post))
    /\ (text <> "" ->
        (style = Some "TITLE" \/ style = Some "HEADING_1" ->
         emits ["# " ++ text ++ nl] /\ alone ("# " ++ text ++ nl))
        /\ (style = Some "SUBTITLE" ->
            emits ["*" ++ text ++ "*" ++ nl] /\ alone ("*" ++ text ++ "*" ++ nl))
        /\ (forall n : nat,
               (2 <= n <= 6)%nat ->
               style = Some ("HEADING_" ++ of_int (Z.of_nat n)) ->
               emits [hashes n ++ " " ++ text ++ nl]
               /\ alone (hashes n ++ " " ++ text ++ nl))
        /\ (style = None \/ style = Some "NORMAL_TEXT" ->
            emits [text ++ nl] /\ alone (text ++ nl))).
Proof.
  intros pre post si ei p text style element emits alone.
  assert (Hsplit : forall lines,
             _content_to_markdown_step [] element = lines ->
             emits lines /\ alone (join nl lines)).
  { intros lines Hl. unfold emits, alone, _content_to_markdown.
    rewrite content_to_markdown_parts_app, content_to_markdown_parts_cons, Hl.
    split; [split; reflexivity|].
    unfold _content_to_markdown_parts. simpl fold_left. now rewrite Hl. }
  split.
  - intros Hempty.
    destruct (Hsplit [] (step_paragraph_empty si ei p Hempty)) as [[Hparts Hout] Halone].
    split; [split; assumption|]. split; [exact Halone|].
    rewrite Hout. unfold _content_to_markdown.
    now rewrite content_to_markdown_parts_app.
  - intros Htext.
    assert (Hstep : forall s line,
               style = s ->
               (let style_is v := match s with Some w => String.eqb w v | None => false end in
                if style_is "TITLE" then ["# " ++ text ++ nl]
                else if style_is "SUBTITLE" then ["*" ++ text ++ "*" ++ nl]
                else if style_is "HEADING_1" then ["# " ++ text ++ nl]
                else if style_is "HEADING_2" then ["## " ++ text ++ nl]
                else if style_is "HEADING_3" then ["### " ++ text ++ nl]
                else if style_is "HEADING_4" then ["#### " ++ text ++ nl]
                else if style_is "HEADING_5" then ["##### " ++ text ++ nl]
                else if style_is "HEADING_6" then ["###### " ++ text ++ nl]
                else [text ++ nl]) = [line] ->
               emits [line] /\ alone line).
    { intros s line Hs Hline. apply (Hsplit [line]). rewrite <- Hline, <- Hs.
      unfold element, _content_to_markdown_step. simpl kind. cbv beta iota zeta.
      fold text. fold style.
      apply truthy_true_iff in Htext. rewrite Htext. simpl negb. cbv iota.
      unfold list_append.
      repeat match goal with
             | |- context [if ?b then _ else _] => destruct b
             end; reflexivity. }
    split; [|split; [|split]].
    + intros [H|H]; apply (Hstep _ _ H); reflexivity.
    + intros H; apply (Hstep _ _ H); reflexivity.
    + intros n Hn H.
      destruct n as [|[|[|[|[|[|[|n]]]]]]]; try lia;
        apply (Hstep _ _ H); reflexivity.
    + intros [H|H]; apply (Hstep _ _ H); reflexivity.
Qed.

(** A HEADING_2 paragraph between two others, and an empty paragraph. *)
Lemma markdown_paragraph_projection_witness :
  _content_to_markdown
    [Examples.para (Some "TITLE") "T"; Examples.para (Some "HEADING_2") ("Hello" ++ nl);
     Examples.para None "x"]
  = "# T" ++ nl ++ nl ++ "## Hello" ++ nl ++ nl ++ "x" ++ nl
  /\ _content_to_markdown [Examples.para (Some "HEADING_2") ("Hello" ++ nl)]
     = "## Hello" ++ nl
  /\ _content_to_markdown [Examples.para (Some "NORMAL_TEXT") nl] = "".
Proof.
  pose proof (markdown_paragraph_projection
                [Examples.para (Some "TITLE") "T"] [Examples.para None "x"] None None
                (mkParagraph [textRun (Some ("Hello" ++ nl))] (Some "HEADING_2"))) as H.
  pose proof (markdown_paragraph_projection
                [] [] None None
                (mkParagraph [textRun (Some nl)] (Some "NORMAL_TEXT"))) as H0.
  cbv zeta in H, H0.
  destruct H as [_ H]. destruct H0 as [H0 _].
  assert (Hne : rstrip nl (_extract_text_from_paragraph
                             (mkParagraph [textRun (Some ("Hello" ++ nl))]
                                          (Some "HEADING_2")))
                <> "") by (vm_compute; discriminate).
  destruct (H Hne) as (_ & _ & Hn & _).
  destruct (Hn 2%nat (conj (le_n 2) (le_S _ _ (le_S _ _ (le_S _ _ (le_S _ _ (le_n 2))))))
               eq_refl) as [[_ Hout] Halone].
  split; [exact Hout|]. split; [exact Halone|].
  exact (proj1 (proj2 (H0 eq_refl))).
Defined.

(** The body of the loop of [_table_to_markdown] for a row that is not
    the first. *)
Lemma table_rows_tail (rest : list TableRow) :
  forall (start : nat) (acc : list string),
    (1 <= start)%nat ->
    fold_left (fun markdown_rows '(row_idx, row) =>
                 let cells := tableCells row in
                 let cell_texts := map _extract_cell_text cells in
                 let markdown_rows :=
                   list_append markdown_rows ("| " ++ join " | " cell_texts ++ " |") in
                 if Nat.eqb row_idx 0 then
                   let separator :=
                     "| " ++ join " | " (replicate (length cells) "---") ++ " |" in
                   list_append markdown_rows (separator)
                 else markdown_rows)
              (combine (seq start (length rest)) rest) acc
    = (acc ++ map (fun row => pipe_line (map _extract_cell_text (tableCells row))) rest)%list.
Proof.
  induction rest as [|row rest IH]; intros start acc Hs; simpl.
  - now rewrite app_nil_r.
  - rewrite IH by lia.
    destruct start as [|start]; [lia|]. simpl.
    unfold list_append. now rewrite <- app_assoc.
Qed.

Lemma has_newline_app (a b : string) :
  Lines.has_newline (a ++ b) = Lines.has_newline a || Lines.has_newline b.
Proof.
  induction a as [|c a IH]; simpl; [reflexivity|].
  now rewrite IH, orb_assoc.
Qed.

Lemma split_lines_single (s : string) :
  Lines.has_newline s = false -> Lines.split_lines s = [s].
Proof.
  induction s as [|c s IH]; simpl; [reflexivity|].
  destruct (Ascii.eqb c Lines.newline); simpl; [discriminate|].
  intros H. now rewrite IH.
Qed.

Lemma split_lines_app (a b : string) :
  Lines.has_newline a = false ->
  Lines.split_lines (a ++ nl ++ b) = a :: Lines.split_lines b.
Proof.
  induction a as [|c a IH]; [reflexivity|].
  change (String c a ++ nl ++ b) with (String c (a ++ nl ++ b)).
  cbn [Lines.split_lines Lines.has_newline].
  destruct (Ascii.eqb c Lines.newline); [discriminate|].
  intros H. now rewrite IH.
Qed.

Lemma split_lines_join (entries : list string) :
  entries <> [] ->
  forallb Lines.single_line entries = true ->
  Lines.split_lines (join nl entries) = entries.
Proof.
  induction entries as [|e rest IH]; [congruence|].
  intros _ H. simpl in H. apply andb_true_iff in H as [He Hrest].
  apply negb_true_iff in He.
  destruct rest as [|e' rest].
  - now apply split_lines_single.
  - change (join nl (e :: e' :: rest)) with (e ++ nl ++ join nl (e' :: rest)).
    rewrite split_lines_app by assumption.
    now rewrite IH.
Qed.

Lemma has_newline_join (sep : string) (parts : list string) :
  Lines.has_newline sep = false ->
  forallb Lines.single_line parts = true ->
  Lines.has_newline (join sep parts) = false.
Proof.
  intros Hsep. induction parts as [|e rest IH]; [reflexivity|].
  intros H. simpl in H. apply andb_true_iff in H as [He Hrest].
  apply negb_true_iff in He.
  destruct rest as [|e' rest]; [exact He|].
  change (join sep (e :: e' :: rest)) with (e ++ sep ++ join sep (e' :: rest)).
  now rewrite !has_newline_app, He, Hsep, IH.
Qed.

Lemma single_line_pipe_line (cells : list string) :
  forallb Lines.single_line cells = true ->
  Lines.single_line (pipe_line cells) = true.
Proof.
  intros H. unfold Lines.single_line, pipe_line.
  rewrite !has_newline_app, (has_newline_join " | " cells eq_refl H). reflexivity.
Qed.

Lemma single_line_separator (n : nat) :
  forallb Lines.single_line (replicate n "---") = true.
Proof. induction n as [|n IH]; simpl; [reflexivity|exact IH]. Qed.

(** A cell of two paragraphs keeps the newline between them, so the
    table of one such cell is printed on three lines, the second of
    which is not the separator. *)
Lemma table_markdown_multiline_cell_counterexample :
  _extract_cell_text
    (mkTableCell [Examples.para None ("a" ++ nl); Examples.para None ("b" ++ nl)])
  = "a" ++ nl ++ "b"
  /\ _table_to_markdown Lines.two_paragraph_cell = "| a" ++ nl ++ "b |" ++ nl ++ "| --- |"
  /\ Lines.split_lines (_table_to_markdown Lines.two_paragraph_cell)
     = ["| a"; "b |"; "| --- |"]
  /\ ~ (exists row_line : string,
          Lines.split_lines (_table_to_markdown Lines.two_paragraph_cell)
          = [row_line; pipe_line (replicate 1 "---")]).
Proof.
  split; [reflexivity|]. split; [reflexivity|]. split; [reflexivity|].
  intros [row_line H]. vm_compute in H. discriminate H.
Qed.

(** C8, amended. A table with at least one row renders as the
    newline-joined list of one pipe-delimited entry per row, in row
    order, with a separator entry of as many [---] cells as the first
    row has cells right after the first row's entry; when no cell text
    holds a newline, these entries are exactly the lines of the
    output; the 2x2 table A, B / 1, 2 renders as exactly the three
    lines [| A | B |], [| --- | --- |], [| 1 | 2 |]. *)
Theorem table_markdown_rendering :
  (forall (r c : option Z) (first : TableRow) (rest : list TableRow),
      _table_to_markdown (mkTable r c (first :: rest))
      = join nl
          (pipe_line (map _extract_cell_text (tableCells first))
           :: pipe_line (replicate (length (tableCells first)) "---")
           :: map (fun row => pipe_line (map _extract_cell_text (tableCells row))) rest))
  /\ (forall (first : TableRow) (rest : list TableRow),
         length (_table_to_markdown_rows (first :: rest)) = S (length (first :: rest)))
  /\ (forall (r c : option Z) (first : TableRow) (rest : list TableRow),
         Lines.single_line_cells (first :: rest) = true ->
         Lines.split_lines (_table_to_markdown (mkTable r c (first :: rest)))
         = pipe_line (map _extract_cell_text (tableCells first))
           :: pipe_line (replicate (length (tableCells first)) "---")
           :: map (fun row => pipe_line (map _extract_cell_text (tableCells row))) rest)
  /\ _table_to_markdown_rows (tableRows Examples.table_2x2)
     = ["| A | B |"; "| --- | --- |"; "| 1 | 2 |"]
  /\ _table_to_markdown Examples.table_2x2
     = "| A | B |" ++ nl ++ "| --- | --- |" ++ nl ++ "| 1 | 2 |"
  /\ Lines.split_lines (_table_to_markdown Examples.table_2x2)
     = ["| A | B |"; "| --- | --- |"; "| 1 | 2 |"].
Proof.
  assert (Hrows : forall first rest,
             _table_to_markdown_rows (first :: rest)
             = pipe_line (map _extract_cell_text (tableCells first))
               :: pipe_line (replicate (length (tableCells first)) "---")
               :: map (fun row => pipe_line (map _extract_cell_text (tableCells row))) rest).
  { intros first rest. unfold _table_to_markdown_rows, enumerate. simpl.
    rewrite table_rows_tail by lia. reflexivity. }
  assert (Hout : forall r c first rest,
             _table_to_markdown (mkTable r c (first :: rest))
             = join nl
                 (pipe_line (map _extract_cell_text (tableCells first))
                  :: pipe_line (replicate (length (tableCells first)) "---")
                  :: map (fun row => pipe_line (map _extract_cell_text (tableCells row)))
                       rest)).
  { intros r c first rest.
    unfold _table_to_markdown. simpl tableRows. cbv iota. now rewrite Hrows. }
  assert (Hrow : forall row,
             forallb (fun cell => Lines.single_line (_extract_cell_text cell))
                     (tableCells row) = true ->
             Lines.single_line (pipe_line (map _extract_cell_text (tableCells row))) = true).
  { intros row H. apply single_line_pipe_line.
    induction (tableCells row) as [|cell cells IH]; [reflexivity|].
    simpl in *. apply andb_true_iff in H as [H1 H2]. now rewrite H1, IH. }
  split; [exact Hout|]. split; [|split; [|split; [|split]; reflexivity]].
  - intros first rest. rewrite Hrows. simpl. now rewrite length_map.
  - intros r c first rest Hcells. rewrite Hout.
    apply split_lines_join; [discriminate|].
    unfold Lines.single_line_cells in Hcells. simpl in Hcells.
    apply andb_true_iff in Hcells as [Hfirst Hrest].
    cbn [forallb]. rewrite (Hrow first Hfirst).
    rewrite (single_line_pipe_line _ (single_line_separator _)). simpl.
    induction rest as [|row rest IH]; [reflexivity|].
    simpl in Hrest. apply andb_true_iff in Hrest as [H1 H2].
    cbn [map forallb]. now rewrite (Hrow row H1), IH.
Qed.

(** The 2x2 table has single-line cells, and is printed on three lines. *)
Lemma table_markdown_rendering_witness :
  Lines.single_line_cells (tableRows Examples.table_2x2) = true
  /\ Lines.split_lines (_table_to_markdown Examples.table_2x2)
     = ["| A | B |"; "| --- | --- |"; "| 1 | 2 |"].
Proof.
  split; [reflexivity|].
  exact (proj1 (proj2 (proj2 table_markdown_rendering))
           None None
           (mkTableRow [Examples.cell ("A" ++ nl); Examples.cell ("B" ++ nl)])
           [mkTableRow [Examples.cell ("1" ++ nl); Examples.cell ("2" ++ nl)]]
           eq_refl).
Defined.

End MarkdownProjection.

(** ** Stripping *)

Module StripFacts.
Import PyStr Spec.

Lemma lstrip_by_split (p : ascii -> bool) (s : string) :
  exists l, s = l ++ lstrip_by p s /\ all_chars p l = true.
Proof.
  induction s as [|c s (l & Hl & Hp)]; simpl.
  - exists "". split; reflexivity.
  - destruct (p c) eqn:Hc.
    + exists (String c l). simpl. rewrite Hc, Hp. split; [congruence | reflexivity].
    + exists "". split; reflexivity.
Qed.

Lemma lstrip_by_first (p : ascii -> bool) (s : string) (c : ascii) :
  first_char (lstrip_by p s) = Some c -> p c = false.
Proof.
  induction s as [|d s IH]; simpl; [discriminate|].
  destruct (p d) eqn:Hd; [exact IH|].
  simpl. intros [= <-]. exact Hd.
Qed.

Lemma rstrip_by_split (p : ascii -> bool) (s : string) :
  exists r, s = rstrip_by p s ++ r /\ all_chars p r = true.
Proof.
  induction s as [|c s (r & Hr & Hp)]; simpl.
  - exists "". split; reflexivity.
  - destruct (rstrip_by p s) as [|d t] eqn:Hs.
    + destruct (p c) eqn:Hc.
      * exists (String c r). simpl in *. rewrite Hc, Hp. split; [congruence | reflexivity].
      * exists r. simpl in *. split; [congruence | assumption].
    + exists r. simpl in *. split; [congruence | assumption].
Qed.

Lemma rstrip_by_last (p : ascii -> bool) (s : string) (c : ascii) :
  last_char (rstrip_by p s) = Some c -> p c = false.
Proof.
  induction s as [|d s IH]; simpl; [discriminate|].
  destruct (rstrip_by p s) as [|e t] eqn:Hs.
  - destruct (p d) eqn:Hd; simpl; [discriminate|]. intros [= <-]. exact Hd.
  - intros H. apply IH. exact H.
Qed.

Lemma rstrip_by_first (p : ascii -> bool) (s : string) (c : ascii) :
  first_char (rstrip_by p s) = Some c -> first_char s = Some c.
Proof.
  destruct s as [|d s]; simpl; [discriminate|].
  destruct (rstrip_by p s); [destruct (p d)|]; simpl; congruence.
Qed.

(** [strip] removes a run of whitespace on each side and nothing
    else, and what is left neither starts nor ends with whitespace. *)
Lemma strip_spec (s : string) :
  exists l r,
    s = l ++ strip s ++ r
    /\ all_space l = true /\ all_space r = true
    /\ (forall c, first_char (strip s) = Some c -> isspace c = false)
    /\ (forall c, last_char (strip s) = Some c -> isspace c = false).
Proof.
  unfold strip, all_space.
  destruct (lstrip_by_split isspace s) as (l & Hl & Hlp).
  destruct (rstrip_by_split isspace (lstrip_by isspace s)) as (r & Hr & Hrp).
  exists l, r. repeat split; try assumption.
  - rewrite <- Hr. exact Hl.
  - intros c Hc. apply rstrip_by_first in Hc. now apply lstrip_by_first in Hc.
  - intros c. apply rstrip_by_last.
Qed.

End StripFacts.

Module PlainText.
Import PyStr Reader Spec ReaderFacts.

(** C9 as stated fails: a one-row table whose cells read [" A\n"] and
    ["B\n"] is extracted as ["A\tB\t\n"], with the leading blank
    gone, a tab after the last cell and a newline after the last row,
    where the claim gives [" A\tB"]. *)
Lemma plain_text_table_counterexample :
  _extract_text_from_content [Element None None (table Examples.table_blank_A_B)]
  = "A" ++ tab ++ "B" ++ tab ++ nl
  /\ claimed_table_text Examples.table_blank_A_B = " A" ++ tab ++ "B"
  /\ _extract_text_from_content [Element None None (table Examples.table_blank_A_B)]
     <> claimed_table_text Examples.table_blank_A_B.
Proof.
  split; [reflexivity|]. split; [reflexivity|].
  vm_compute. discriminate.
Qed.

Lemma row_fold (cells : list TableCell) (acc : list string) :
  fold_left (fun text_parts cell => list_append text_parts (_extract_cell_text cell ++ tab))
            cells acc
  = (acc ++ map (fun cell => (_extract_cell_text cell ++ tab)%string) cells)%list.
Proof.
  rewrite (fold_left_list_append _ (fun cell => [_extract_cell_text cell ++ tab]))
    by reflexivity.
  f_equal; try (induction cells; simpl; congruence).
Qed.

Lemma table_fold (rows : list TableRow) (acc : list string) :
  fold_left (fun text_parts row =>
               let text_parts :=
                 fold_left (fun text_parts cell =>
                              list_append text_parts (_extract_cell_text cell ++ tab))
                           (tableCells row) text_parts in
               list_append text_parts (nl))
            rows acc
  = (acc ++ flat_map (fun row =>
                        map (fun cell => (_extract_cell_text cell ++ tab)%string)
                            (tableCells row) ++ [nl]) rows)%list.
Proof.
  apply fold_left_list_append. intros a row. cbv zeta.
  rewrite row_fold. unfold list_append. symmetry. apply app_assoc.
Qed.

(** C9, amended. Plain-text extraction concatenates, in document
    order, the run contents of every paragraph and, for every table,
    row by row, each cell's text followed by a tab (the last cell of a
    row included) and then a newline after the row (the last row
    included); a cell's text is the text of its paragraphs with the
    whitespace at both ends removed (the trailing newlines among it)
    and everything between kept. *)
Theorem plain_text_extraction :
  (forall content : list StructuralElement,
      _extract_text_from_content content = concat (map element_text content))
  /\ (forall cell : TableCell,
         exists l r : string,
           cell_paragraphs_text cell = l ++ _extract_cell_text cell ++ r
           /\ all_space l = true /\ all_space r = true
           /\ (forall c, first_char (_extract_cell_text cell) = Some c -> isspace c = false)
           /\ (forall c, last_char (_extract_cell_text cell) = Some c -> isspace c = false)).
Proof.
  split.
  - intros content. unfold _extract_text_from_content.
    rewrite (fold_left_list_append _
               (fun element =>
                  match kind element with
                  | paragraph p => [_extract_text_from_paragraph p]
                  | table t =>
                      flat_map (fun row =>
                                  (map (fun cell => (_extract_cell_text cell ++ tab)%string)
                                       (tableCells row) ++ [nl])%list) (tableRows t)
                  | otherKind => []
                  end)).
    + simpl. rewrite concat_flat_map. f_equal. apply map_ext. intros e.
      unfold element_text. destruct (kind e) as [p|t|].
      * now rewrite concat_cons, string_app_nil_r, extract_text_from_paragraph_spec.
      * rewrite concat_flat_map. f_equal. apply map_ext. intros row.
        unfold row_text. rewrite concat_app, concat_cons, string_app_nil_r.
        f_equal. f_equal. apply map_ext. intros cell.
        now rewrite extract_cell_text_spec.
      * reflexivity.
    + intros acc e. destruct (kind e) as [p|t|].
      * reflexivity.
      * apply table_fold.
      * now rewrite app_nil_r.
  - intros cell. rewrite extract_cell_text_spec. apply StripFacts.strip_spec.
Qed.

(** The two-table document in plain text. *)
Lemma plain_text_extraction_witness :
  _extract_text_from_content (body_content Examples.two_table_doc)
  = "Hi" ++ nl
    ++ "A" ++ tab ++ "B" ++ tab ++ nl ++ "1" ++ tab ++ "2" ++ tab ++ nl
    ++ "A" ++ tab ++ "B" ++ tab ++ nl.
Proof.
  rewrite (proj1 plain_text_extraction (body_content Examples.two_table_doc)).
  reflexivity.
Defined.

End PlainText.

(** ** Account Resolver *)

Module AccountResolution.
Import PyStr Auth Spec.

Lemma contains_In (accounts : list string) (x : string) :
  contains accounts x = true <-> In x accounts.
Proof.
  unfold contains. rewrite existsb_exists. split.
  - intros (y & Hy & He). apply String.eqb_eq in He. now subst.
  - intros H. exists x. split; [assumption | apply String.eqb_refl].
Qed.

Lemma contains_not_In (accounts : list string) (x : string) :
  contains accounts x = false <-> ~ In x accounts.
Proof.
  rewrite <- contains_In. destruct (contains accounts x); split; congruence.
Qed.

Lemma supplied_truthy (o : option string) (name : string) :
  supplied o name -> (if truthy_opt o then o else None) = Some name.
Proof.
  intros [-> Hne]. simpl. apply truthy_true_iff in Hne. now rewrite Hne.
Qed.

Lemma not_supplied_falsy (o : option string) :
  not_supplied o -> (if truthy_opt o then o else None) = None.
Proof. intros [-> | ->]; reflexivity. Qed.

(** C4. Account resolution returns the first match of: the explicit
    name, which must be in the configured list or AccountNotFound is
    raised; else the name from the environment, under the same rule;
    else the configured default if it is still in the list; else the
    first configured account; and NoAccountConfigured is raised when
    the list is empty and no name was supplied.  A name is supplied
    when it is a non-empty string, which is what the code tests. *)
Theorem resolve_account_order :
  forall (accounts : list string) (default env explicit : option string),
    let result := resolve_account accounts default env explicit in
    (forall a, supplied explicit a ->
               (In a accounts -> result = inr a)
               /\ (~ In a accounts -> result = inl (AccountNotFoundError a accounts)))
    /\ (not_supplied explicit ->
        (forall a, supplied env a ->
                   (In a accounts -> result = inr a)
                   /\ (~ In a accounts -> result = inl (AccountNotFoundError a accounts)))
        /\ (not_supplied env ->
            (forall d, supplied default d -> In d accounts -> result = inr d)
            /\ (not_supplied default
                \/ (exists d, default = Some d /\ ~ In d accounts) ->
                (forall first rest, accounts = first :: rest -> result = inr first)
                /\ (accounts = [] -> result = inl NoAccountConfiguredError))
            /\ (accounts = [] -> result = inl NoAccountConfiguredError))).
Proof.
  intros accounts default env explicit result.
  split.
  { intros a Ha. unfold result, resolve_account.
    rewrite (supplied_truthy Ha).
    split; intros Hin.
    - apply contains_In in Hin. now rewrite Hin.
    - apply contains_not_In in Hin. now rewrite Hin. }
  intros Hex. split.
  { intros a Ha. unfold result, resolve_account.
    rewrite (not_supplied_falsy Hex), (supplied_truthy Ha).
    split; intros Hin.
    - apply contains_In in Hin. now rewrite Hin.
    - apply contains_not_In in Hin. now rewrite Hin. }
  intros Henv.
  assert (Hres : result =
                 let first_available :=
                   match accounts with
                   | first :: _ => inr first
                   | [] => inl NoAccountConfiguredError
                   end in
                 match (if truthy_opt default then default else None) with
                 | Some d => if contains accounts d then inr d else first_available
                 | None => first_available
                 end).
  { unfold result, resolve_account.
    now rewrite (not_supplied_falsy Hex), (not_supplied_falsy Henv). }
  cbv zeta in Hres.
  split; [|split].
  - intros d Hd Hin. rewrite Hres, (supplied_truthy Hd).
    apply contains_In in Hin. now rewrite Hin.
  - intros Hno.
    assert (Hfirst : result = match accounts with
                              | first :: _ => inr first
                              | [] => inl NoAccountConfiguredError
                              end).
    { rewrite Hres. destruct Hno as [Hno | (d & -> & Hnin)].
      - now rewrite (not_supplied_falsy Hno).
      - apply contains_not_In in Hnin. simpl.
        destruct (truthy d); [now rewrite Hnin | reflexivity]. }
    split.
    + intros first rest ->. exact Hfirst.
    + intros ->. exact Hfirst.
  - intros ->. rewrite Hres.
    destruct (if truthy_opt default then default else None); reflexivity.
Qed.

(** Two accounts, the second one the default, nothing named. *)
Lemma resolve_account_order_witness :
  resolve_account ["first@example.com"; "second@example.com"]
                  (Some "second@example.com") None None
  = inr "second@example.com".
Proof.
  pose proof (resolve_account_order
                ["first@example.com"; "second@example.com"]
                (Some "second@example.com") None None) as H.
  cbv zeta in H. destruct H as [_ H].
  destruct (H (or_introl eq_refl)) as [_ H1].
  destruct (H1 (or_introl eq_refl)) as [Hd _].
  apply (Hd "second@example.com").
  - split; [reflexivity | discriminate].
  - simpl. right. left. reflexivity.
Defined.

End AccountResolution.

(** ** Field masks of text-style updates *)

Module FieldMask.
Import PyStr RequestBuilder Spec Stages.

(** The style [TextStyle(bold=True)] of [test_bold_style]. *)
Lemma bold_only_request :
  update_text_style_request 0 10
    (mkTextStyle true false false false None None None None None) None
  = inr (updateTextStyle (mkRange 0 10 None) [("bold", VTrue)] "bold").
Proof. reflexivity. Qed.

(** C5 as stated fails: [TextStyle(font_size=0.0)] supplies a font
    size other than the default [None], yet the descriptor names no
    field and its [textStyle] object is empty. *)
Lemma zero_font_size_counterexample :
  update_text_style_request 0 10
    (mkTextStyle false false false false (Some (0 # 1)%Q) None None None None) None
  = inr (updateTextStyle (mkRange 0 10 None) [] "")
  /\ nondefault_fields
       (mkTextStyle false false false false (Some (0 # 1)%Q) None None None None)
     = ["fontSize"]
  /\ join "," (nondefault_fields
                 (mkTextStyle false false false false (Some (0 # 1)%Q) None None None None))
     <> "".
Proof. repeat split. vm_compute. discriminate. Qed.

Lemma snd_step (c : bool) (key : string) (v : StyleValue) (acc : StyleAcc) :
  snd (if c then set_field key v acc else acc) = (snd acc ++ name_if c key)%list.
Proof. destruct c; simpl; [reflexivity | now rewrite app_nil_r]. Qed.

Lemma keys_step (c : bool) (key : string) (v : StyleValue) (acc : StyleAcc) :
  map fst (fst (if c then set_field key v acc else acc))
  = (map fst (fst acc) ++ name_if c key)%list.
Proof.
  destruct c; simpl; [|now rewrite app_nil_r].
  unfold list_append. now rewrite map_app.
Qed.

Lemma snd_set (key : string) (v : StyleValue) (acc : StyleAcc) :
  snd (set_field key v acc) = (snd acc ++ [key])%list.
Proof. reflexivity. Qed.

Lemma keys_set (key : string) (v : StyleValue) (acc : StyleAcc) :
  map fst (fst (set_field key v acc)) = (map fst (fst acc) ++ [key])%list.
Proof. simpl. unfold list_append. now rewrite map_app. Qed.

Lemma color_stage_ok (key : string) (o : option string) (acc acc' : StyleAcc) :
  color_stage key o acc = inr acc' ->
  snd acc' = (snd acc ++ name_if (opt_truthy truthy o) key)%list
  /\ map fst (fst acc') = (map fst (fst acc) ++ name_if (opt_truthy truthy o) key)%list.
Proof.
  unfold color_stage. destruct o as [color|]; simpl.
  - destruct (truthy color); simpl.
    + destruct (_parse_color color) as [e|v]; simpl; [discriminate|].
      intros [= <-]. split; [apply snd_set | apply keys_set].
    + intros [= <-]. now rewrite !app_nil_r.
  - intros [= <-]. now rewrite !app_nil_r.
Qed.

Lemma color_stage_returns (key : string) (o : option string) (acc : StyleAcc) :
  (exists acc', color_stage key o acc = inr acc') <-> color_parses o.
Proof.
  unfold color_stage, color_parses, supplied. split.
  - intros (acc' & H) color [-> Hne].
    apply truthy_true_iff in Hne. rewrite Hne in H.
    destruct (_parse_color color) as [e|v]; [discriminate | now exists v].
  - intros H. destruct o as [color|]; [|now exists acc].
    destruct (truthy color) eqn:Ht; [|now exists acc].
    destruct (H color) as (v & Hv).
    + split; [reflexivity | now apply truthy_true_iff].
    + rewrite Hv. simpl. eauto.
Qed.

Lemma update_text_style_request_stages
      (start_index end_index : Z) (style : TextStyle) (segment_id : option string) :
  update_text_style_request start_index end_index style segment_id
  = rbind (color_stage "foregroundColor" (foreground_color style) (plain_stages style))
      (fun acc =>
         rbind (color_stage "backgroundColor" (background_color style) acc)
           (fun acc =>
              inr (updateTextStyle (mkRange start_index end_index (segment segment_id))
                                   (fst acc) (join "," (snd acc))))).
Proof. reflexivity. Qed.

Lemma plain_stages_ok (style : TextStyle) :
  let names :=
    (name_if (bold style) "bold"
     ++ name_if (italic style) "italic"
     ++ name_if (underline style) "underline"
     ++ name_if (strikethrough style) "strikethrough"
     ++ name_if (opt_truthy truthy_num (font_size style)) "fontSize"
     ++ name_if (opt_truthy truthy (font_family style)) "weightedFontFamily"
     ++ name_if (opt_truthy truthy (link_url style)) "link")%list in
  snd (plain_stages style) = names /\ map fst (fst (plain_stages style)) = names.
Proof.
  unfold plain_stages.
  destruct (font_size style) as [size|], (font_family style) as [family|],
           (link_url style) as [url|];
    cbv zeta; simpl opt_truthy;
    rewrite ?snd_step, ?keys_step; simpl snd; simpl fst; simpl map;
    unfold name_if at 5 6 7 12 13 14; simpl app at 1;
    rewrite ?app_nil_r, <- ?app_assoc; split; reflexivity.
Qed.

(** The builder fails only through [int], and so only with a
    ValueError. *)
Lemma int16_error_kind (s : string) (e : Exn) :
  int16 s = inl e -> e = ValueError.
Proof.
  unfold int16.
  destruct (match rstrip_by int_space (lstrip_by int_space s) with
            | String "-" d => (true, d)
            | String "+" d => (false, d)
            | _ => (false, rstrip_by int_space (lstrip_by int_space s))
            end) as [negative digits].
  destruct digits; [congruence|].
  destruct (hex_digits 0 (String a digits)); congruence.
Qed.

Lemma parse_color_error_kind (color : string) (e : Exn) :
  _parse_color color = inl e -> e = ValueError.
Proof.
  unfold _parse_color. cbv zeta.
  destruct (int16 (slice 0 2 (lstrip "#" color))) as [e1|r] eqn:H1; simpl.
  { intros [= <-]. exact (int16_error_kind _ H1). }
  destruct (int16 (slice 2 4 (lstrip "#" color))) as [e2|g] eqn:H2; simpl.
  { intros [= <-]. exact (int16_error_kind _ H2). }
  destruct (int16 (slice 4 6 (lstrip "#" color))) as [e3|b] eqn:H3; simpl.
  { intros [= <-]. exact (int16_error_kind _ H3). }
  discriminate.
Qed.

Lemma color_stage_error_kind (key : string) (o : option string) (acc : StyleAcc) (e : Exn) :
  color_stage key o acc = inl e -> e = ValueError.
Proof.
  unfold color_stage. destruct o as [color|]; [|discriminate].
  destruct (truthy color); [|discriminate].
  destruct (_parse_color color) as [e'|v] eqn:H; simpl; [|discriminate].
  intros [= <-]. exact (parse_color_error_kind _ H).
Qed.

(** C5, amended. Whenever the builder returns a descriptor, its
    comma-joined field list is exactly the wire names of the
    attributes whose value is truthy (a set flag, a non-zero font
    size, a non-empty string), in the order the code visits them,
    and the [textStyle] object has exactly those keys in the same
    order, so an attribute left out appears in neither; the builder
    returns a descriptor exactly when each non-empty colour string is
    one [_parse_color] accepts, and raises ValueError, and no other
    exception, exactly when one is not; and [TextStyle(bold=True)]
    yields fields ["bold"] and textStyle [{bold: True}]. *)
Theorem text_style_field_mask :
  forall (start_index end_index : Z) (style : TextStyle) (segment_id : option string),
    (forall req,
        update_text_style_request start_index end_index style segment_id = inr req ->
        exists text_style,
          req = updateTextStyle (mkRange start_index end_index (segment segment_id))
                                text_style (join "," (truthy_fields style))
          /\ map fst text_style = truthy_fields style)
    /\ ((exists req,
           update_text_style_request start_index end_index style segment_id = inr req)
        <-> color_parses (foreground_color style) /\ color_parses (background_color style))
    /\ (update_text_style_request start_index end_index style segment_id = inl ValueError
        <-> ~ (color_parses (foreground_color style)
               /\ color_parses (background_color style)))
    /\ (forall e,
           update_text_style_request start_index end_index style segment_id = inl e ->
           e = ValueError)
    /\ update_text_style_request start_index end_index
         (mkTextStyle true false false false None None None None None) segment_id
       = inr (updateTextStyle (mkRange start_index end_index (segment segment_id))
                              [("bold", VTrue)] "bold").
Proof.
  intros start_index end_index style segment_id.
  rewrite update_text_style_request_stages.
  destruct (plain_stages_ok style) as [Hs Hk]. cbv zeta in Hs, Hk.
  assert (Hreturns :
            (exists req,
                rbind (color_stage "foregroundColor" (foreground_color style)
                                   (plain_stages style))
                  (fun acc =>
                     rbind (color_stage "backgroundColor" (background_color style) acc)
                       (fun acc =>
                          inr (updateTextStyle
                                 (mkRange start_index end_index (segment segment_id))
                                 (fst acc) (join "," (snd acc))))) = inr req)
            <-> color_parses (foreground_color style)
                /\ color_parses (background_color style)).
  { rewrite <- (color_stage_returns "foregroundColor" (foreground_color style)
                                    (plain_stages style)).
    split.
    + intros (req & H).
      destruct (color_stage "foregroundColor" (foreground_color style) (plain_stages style))
        as [e|acc1] eqn:H1; simpl in H; [discriminate|].
      split; [now exists acc1|].
      apply (color_stage_returns "backgroundColor" (background_color style) acc1).
      destruct (color_stage "backgroundColor" (background_color style) acc1)
        as [e|acc2]; simpl in H; [discriminate | now exists acc2].
    + intros [(acc1 & H1) H2].
      apply (color_stage_returns "backgroundColor" (background_color style) acc1) in H2.
      destruct H2 as (acc2 & H2).
      rewrite H1. simpl. rewrite H2. simpl. eauto. }
  assert (Herror :
            forall e,
              rbind (color_stage "foregroundColor" (foreground_color style)
                                 (plain_stages style))
                (fun acc =>
                   rbind (color_stage "backgroundColor" (background_color style) acc)
                     (fun acc =>
                        inr (updateTextStyle
                               (mkRange start_index end_index (segment segment_id))
                               (fst acc) (join "," (snd acc))))) = inl e ->
              e = ValueError).
  { intros e.
    destruct (color_stage "foregroundColor" (foreground_color style) (plain_stages style))
      as [e1|acc1] eqn:H1; simpl.
    { intros [= <-]. exact (color_stage_error_kind _ _ _ H1). }
    destruct (color_stage "backgroundColor" (background_color style) acc1)
      as [e2|acc2] eqn:H2; simpl; [|discriminate].
    intros [= <-]. exact (color_stage_error_kind _ _ _ H2). }
  split; [|split; [exact Hreturns|split; [|split; [exact Herror|reflexivity]]]].
  - intros req.
    destruct (color_stage "foregroundColor" (foreground_color style) (plain_stages style))
      as [e|acc1] eqn:H1; simpl; [discriminate|].
    destruct (color_stage "backgroundColor" (background_color style) acc1)
      as [e|acc2] eqn:H2; simpl; [discriminate|].
    intros [= <-].
    apply color_stage_ok in H1, H2.
    destruct H1 as [H1s H1k], H2 as [H2s H2k].
    exists (fst acc2). split.
    + f_equal. f_equal. rewrite H2s, H1s, Hs. unfold truthy_fields.
      now rewrite <- !app_assoc.
    + rewrite H2k, H1k, Hk. unfold truthy_fields. now rewrite <- !app_assoc.
  - rewrite <- Hreturns. split.
    + intros H (req & Hreq). rewrite H in Hreq. discriminate.
    + intros Hnone.
      destruct (rbind (color_stage "foregroundColor" (foreground_color style)
                                   (plain_stages style)) _) as [e|req] eqn:Hresult.
      * now rewrite (Herror e eq_refl).
      * exfalso. apply Hnone. now exists req.
Qed.

(** Bold, 12pt, red foreground; and a colour that is no hexadecimal
    number. *)
Lemma text_style_field_mask_witness :
  (exists text_style,
      update_text_style_request 1 6
        (mkTextStyle true false false false (Some (12 # 1)%Q) None (Some "#FF0000") None None)
        None
      = inr (updateTextStyle (mkRange 1 6 None) text_style "bold,fontSize,foregroundColor")
      /\ map fst text_style = ["bold"; "fontSize"; "foregroundColor"])
  /\ update_text_style_request 1 6
       (mkTextStyle true false false false None None (Some "red") None None) None
     = inl ValueError.
Proof.
  split.
  - destruct (text_style_field_mask 1 6
                (mkTextStyle true false false false (Some (12 # 1)%Q) None
                             (Some "#FF0000") None None) None) as (H & _).
    destruct (H _ eq_refl) as (ts & Heq & Hkeys).
    exists ts. split; [|exact Hkeys].
    change (inr (B:=Request) (A:=Exn)
                (updateTextStyle (mkRange 1 6 None)
                   [("bold", VTrue); ("fontSize", VDimension (12 # 1) "PT");
                    ("foregroundColor", VRgbColor (255 # 255) (0 # 255) (0 # 255))]
                   "bold,fontSize,foregroundColor")
            = inr (updateTextStyle (mkRange 1 6 None) ts "bold,fontSize,foregroundColor")).
    injection Heq as <-. reflexivity.
  - destruct (text_style_field_mask 1 6
                (mkTextStyle true false false false None None (Some "red") None None) None)
      as (_ & _ & _ & H & _).
    exact (f_equal inl (H ValueError eq_refl)).
Defined.

End FieldMask.

(** ** Python list indexing *)

Module Indexing.

Lemma getitem_nonneg (A : Type) (l : list A) (i : Z) :
  (0 <= i < Z.of_nat (length l))%Z ->
  exists x, getitem l i = inr x /\ nth_error l (Z.to_nat i) = Some x.
Proof.
  intros Hi. unfold getitem.
  destruct (i <? 0)%Z eqn:H0; [apply Z.ltb_lt in H0; lia|].
  replace ((i <? 0) || (Z.of_nat (length l) <=? i))%Z with false
    by (symmetry; apply orb_false_iff; split; [assumption | apply Z.leb_gt; lia]).
  destruct (nth_error l (Z.to_nat i)) as [x|] eqn:Hn; [now exists x|].
  apply nth_error_None in Hn. lia.
Qed.

(** A negative index within range counts from the end. *)
Lemma getitem_negative (A : Type) (l : list A) (i : Z) :
  (- Z.of_nat (length l) <= i < 0)%Z ->
  exists x, getitem l i = inr x
            /\ nth_error l (Z.to_nat (Z.of_nat (length l) + i)) = Some x.
Proof.
  intros Hi. unfold getitem.
  destruct (i <? 0)%Z eqn:H0; [|apply Z.ltb_ge in H0; lia].
  replace ((i + Z.of_nat (length l) <? 0)
           || (Z.of_nat (length l) <=? i + Z.of_nat (length l)))%Z with false
    by (symmetry; apply orb_false_iff; split; [apply Z.ltb_ge | apply Z.leb_gt]; lia).
  rewrite (Z.add_comm i).
  destruct (nth_error l (Z.to_nat (Z.of_nat (length l) + i))) as [x|] eqn:Hn;
    [now exists x|].
  apply nth_error_None in Hn. lia.
Qed.


Lemma getitem_minus_one (A : Type) (l : list A) (x : A) :
  getitem (l ++ [x]) (-1) = inr x.
Proof.
  destruct (@getitem_negative A (l ++ [x]) (-1)) as (y & Hy & Hn).
  - rewrite length_app. simpl. lia.
  - rewrite Hy. f_equal.
    rewrite length_app in Hn. simpl in Hn.
    replace (Z.to_nat (Z.of_nat (length l + 1) + -1)) with (length l) in Hn by lia.
    rewrite nth_error_app2, Nat.sub_diag in Hn by lia. simpl in Hn. congruence.
Qed.

End Indexing.

(** ** Table-relative commands *)

Module TableCommands.
Import PyStr RequestBuilder Cli Spec.
Local Open Scope Z_scope.

Lemma find_tables_count (doc : DocContent) :
  length (_find_tables doc) = table_count doc.
Proof.
  unfold _find_tables, table_count.
  rewrite (fold_left_list_append _
             (fun element =>
                match kind element with
                | table t =>
                    [mkTableInfo (startIndex element) (endIndex element)
                       (match rows t with Some r => r | None => 0 end)
                       (match columns t with Some c => c | None => 0 end)]
                | _ => []
                end)).
  - simpl. induction (body_content doc) as [|e l IH]; [reflexivity|].
    simpl. destruct (kind e); simpl; congruence.
  - intros acc e. destruct (kind e); try reflexivity; now rewrite app_nil_r.
Qed.

(** What the shared opening does once the read has answered. *)
Lemma locate_table_run (E : Env) (document_id : string) (table_index : Z)
      (account : option string) (doc : DocContent) :
  documents_get (remote E) 0 document_id = inr doc ->
  run (locate_table E document_id table_index account)
  = if table_index >=? Z.of_nat (length (_find_tables doc))
    then (inl (Exit 1),
          [GetDocumentContent document_id account;
           Echo (table_not_found_message table_index (_find_tables doc)) false])
    else (getitem (_find_tables doc) table_index,
          [GetDocumentContent document_id account]).
Proof.
  intros Hget. unfold run, locate_table, bind, get_document_content. simpl.
  rewrite Hget.
  destruct (table_index >=? Z.of_nat (length (_find_tables doc))); reflexivity.
Qed.

(** Each command is its shared opening followed by one batch. *)
Ltac open_command :=
  unfold run, add_row_command, delete_row_command, add_column_command,
    delete_column_command;
  unfold bind at 1;
  match goal with
  | |- context [locate_table ?E ?d ?i ?a []] =>
      change (locate_table E d i a []) with (run (locate_table E d i a))
  end.

(** C6. For each of add-row, delete-row, add-column and delete-column:
    when the read has answered and the table index is at least the
    number of tables in the body read, the command prints the
    table-not-found message, which names that number, and exits with
    status 1; the read is its only remote call, so no batch update is
    submitted, and no IndexError is raised. *)
Theorem table_index_out_of_range :
  forall (E : Env) (document_id : string) (table_index row column : Z)
         (flag : bool) (account : option string) (doc : DocContent),
    documents_get (remote E) 0 document_id = inr doc ->
    table_index >= Z.of_nat (table_count doc) ->
    let outcome : Raises unit * list Event :=
      (inl (Exit 1),
       [GetDocumentContent document_id account;
        Echo ("Table index " ++ of_int table_index ++ " not found. Document has "
                ++ of_int (Z.of_nat (table_count doc)) ++ " table(s).") false]) in
    run (add_row_command E document_id table_index row flag account) = outcome
    /\ run (delete_row_command E document_id table_index row account) = outcome
    /\ run (add_column_command E document_id table_index column flag account) = outcome
    /\ run (delete_column_command E document_id table_index column account) = outcome.
Proof.
  intros E document_id table_index row column flag account doc Hget Hge outcome.
  assert (Hloc : run (locate_table E document_id table_index account)
                 = (inl (Exit 1), snd outcome)).
  { rewrite (@locate_table_run E document_id table_index account doc Hget).
    rewrite find_tables_count.
    replace (table_index >=? Z.of_nat (table_count doc)) with true
      by (symmetry; apply Z.geb_le; lia).
    unfold outcome, table_not_found_message. simpl snd.
    now rewrite find_tables_count. }
  repeat split; open_command; rewrite Hloc; reflexivity.
Qed.

(** Ordinal 2 on the two-table document. *)
Lemma table_index_out_of_range_witness :
  run (add_row_command (mkEnv (Examples.steady Examples.two_table_doc) false)
                       "doc123" 2 0 false None)
  = (inl (Exit 1),
     [GetDocumentContent "doc123" None;
      Echo "Table index 2 not found. Document has 2 table(s)." false]).
Proof.
  refine (proj1 (@table_index_out_of_range
                   (mkEnv (Examples.steady Examples.two_table_doc) false)
                   "doc123" 2 0 0 false None Examples.two_table_doc _ _)).
  - reflexivity.
  - vm_compute. discriminate.
Defined.


(** An index from 0 to count - 1 selects the table at that position. *)
Lemma table_index_in_range
      (E : Env) (document_id : string) (table_index row : Z) (above : bool)
      (account : option string) (doc : DocContent) :
  documents_get (remote E) 0 document_id = inr doc ->
  0 <= table_index < Z.of_nat (table_count doc) ->
  exists t : TableInfo,
    nth_error (_find_tables doc) (Z.to_nat table_index) = Some t
    /\ remote_calls
         (snd (run (add_row_command E document_id table_index row above account)))
       = [GetDocumentContent document_id account;
          BatchUpdate document_id
            [insert_table_row_request (start_index t) row (negb above)] account].
Proof.
  intros Hget Hin. rewrite <- find_tables_count in Hin.
  destruct (Indexing.getitem_nonneg (_find_tables doc) Hin) as (t & Ht & Hn).
  exists t. split; [exact Hn|].
  open_command.
  rewrite (@locate_table_run E document_id table_index account doc Hget).
  replace (table_index >=? Z.of_nat (length (_find_tables doc))) with false
    by (symmetry; destruct (table_index >=? _) eqn:Hc;
        [apply Z.geb_le in Hc; lia | reflexivity]).
  rewrite Ht. cbv beta iota.
  unfold bind, batch_update, print_json, print_success, emit, list_append; simpl.
  destruct (documents_batchUpdate _ _ _ _); try destruct (json_mode E); reflexivity.
Qed.


End TableCommands.

(** ** Content commands *)

Module ContentCommands.
Import PyStr RequestBuilder Cli Spec.
Local Open Scope Z_scope.

Lemma length_append (a b : string) :
  String.length (a ++ b) = (String.length a + String.length b)%nat.
Proof. induction a; simpl; congruence. Qed.

Lemma len_with_newline (text : string) : len (text ++ nl) = len text + 1.
Proof. unfold len. rewrite length_append. simpl. lia. Qed.

(** A name the enum knows is not empty. *)
Lemma valid_heading_truthy (heading : string) (style_type : NamedStyleType) :
  NamedStyleType_getitem (upper heading) = Some style_type -> truthy heading = true.
Proof. destruct heading; [discriminate | reflexivity]. Qed.

Lemma last_end_index_spec (doc : DocContent) :
  last_end_index (body_content doc) = end_of_body doc.
Proof.
  unfold last_end_index, end_of_body.
  destruct (body_content doc) as [|e l] eqn:Hc; [reflexivity|].
  destruct (exists_last (l := e :: l)) as (front & x & Hx); [discriminate|].
  rewrite Hx, Indexing.getitem_minus_one, rev_app_distr. reflexivity.
Qed.

(** The text-style descriptor [insert_command] adds for its flags. *)
Lemma flags_request (start_index end_index : Z) (b i : bool) :
  update_text_style_request start_index end_index
    (mkTextStyle b i false false None None None None None) None
  = inr (updateTextStyle (mkRange start_index end_index None)
           (map (fun key => (key, VTrue)) (name_if b "bold" ++ name_if i "italic"))
           (join "," (name_if b "bold" ++ name_if i "italic"))).
Proof. destruct b, i; reflexivity. Qed.

(** C3 as stated fails: with the bold flag the batch of an insert with
    a heading holds three descriptors, not two. *)
Lemma insert_with_heading_bold_counterexample :
  let calls :=
    remote_calls
      (snd (run (insert_command (mkEnv (Examples.steady (Examples.doc_ending_at 12)) false)
                                "doc123" "Title" 1 (Some "HEADING_1") true false None))) in
  calls
  = [BatchUpdate "doc123"
       [insertText (location 1 None) ("Title" ++ nl);
        updateParagraphStyle (mkRange 1 7 None) "HEADING_1" "namedStyleType";
        updateTextStyle (mkRange 1 6 None) [("bold", VTrue)] "bold"] None]
  /\ calls
     <> [BatchUpdate "doc123"
           [insertText (location 1 None) ("Title" ++ nl);
            updateParagraphStyle (mkRange 1 7 None) "HEADING_1" "namedStyleType"] None]
  /\ ~ (exists first second : Request, calls = [BatchUpdate "doc123" [first; second] None]).
Proof.
  cbv zeta. split; [reflexivity|]. split.
  - intros H. vm_compute in H. discriminate H.
  - intros (first & second & H). vm_compute in H. discriminate H.
Qed.

(** C3, amended. An insert with text [T], index [I] and a valid heading submits
    one batch that starts with the insert-text descriptor for [T]
    plus a newline at [I], followed by the heading-style descriptor
    over [[I, I + len(T) + 1)]; these two are the whole batch unless
    the bold or italic flag is set, in which case one text-style
    descriptor over [[I, I + len(T))] follows them.  Inserting "Title"
    at index 1 with heading HEADING_1 submits the single batch
    insertText("Title\n", index 1), updateParagraphStyle over [1,7)
    with namedStyleType HEADING_1. *)
Theorem insert_with_heading_batch :
  forall (E : Env) (document_id T : string) (I : Z) (heading : string)
         (style_type : NamedStyleType) (bold italic : bool) (account : option string),
    NamedStyleType_getitem (upper heading) = Some style_type ->
    let insertion := insertText (location I None) (T ++ nl) in
    let styling :=
      updateParagraphStyle (mkRange I (I + len T + 1) None)
                           (NamedStyleType_value style_type) "namedStyleType" in
    let flags := (name_if bold "bold" ++ name_if italic "italic")%list in
    let inline :=
      match flags with
      | [] => []
      | _ => [updateTextStyle (mkRange I (I + len T) None)
                              (map (fun key => (key, VTrue)) flags) (join "," flags)]
      end in
    remote_calls (snd (run (insert_command E document_id T I (Some heading)
                                           bold italic account)))
    = [BatchUpdate document_id (insertion :: styling :: inline) account]
    /\ remote_calls (snd (run (insert_command E document_id T I (Some heading)
                                              false false account)))
       = [BatchUpdate document_id [insertion; styling] account]
    /\ remote_calls (snd (run (insert_command E document_id "Title" 1 (Some "HEADING_1")
                                              false false account)))
       = [BatchUpdate document_id
            [insertText (location 1 None) ("Title" ++ nl);
             updateParagraphStyle (mkRange 1 7 None) "HEADING_1" "namedStyleType"]
            account].
Proof.
  intros E document_id T I heading style_type bold italic account Hvalid
         insertion styling flags inline.
  assert (Hgen : forall b i,
             remote_calls (snd (run (insert_command E document_id T I (Some heading)
                                                    b i account)))
             = [BatchUpdate document_id
                  (insertion :: styling
                     :: match (name_if b "bold" ++ name_if i "italic")%list with
                        | [] => []
                        | _ => [updateTextStyle (mkRange I (I + len T) None)
                                  (map (fun key => (key, VTrue))
                                       (name_if b "bold" ++ name_if i "italic"))
                                  (join "," (name_if b "bold" ++ name_if i "italic"))]
                        end) account]).
  { intros b i. unfold run, insert_command.
    rewrite (valid_heading_truthy _ Hvalid), Hvalid, flags_request, len_with_newline.
    unfold bind, ret, lift, batch_update, print_json, print_success, emit, list_append.
    replace (I + (len T + 1)) with (I + len T + 1) by lia.
    destruct b, i; simpl;
      destruct (documents_batchUpdate _ _ _ _); try destruct (json_mode E);
      reflexivity. }
  split; [apply Hgen|]. split; [apply (Hgen false false)|].
  unfold run, insert_command, bind, ret, lift, batch_update, print_json,
    print_success, emit, list_append. simpl.
  destruct (documents_batchUpdate _ _ _ _); try destruct (json_mode E); reflexivity.
Qed.

(** A lower-case heading name, in plain and in bold italic. *)
Lemma insert_with_heading_batch_witness :
  remote_calls
    (snd (run (insert_command (mkEnv (Examples.steady (Examples.doc_ending_at 12)) false)
                              "doc123" "Intro" 5 (Some "subtitle") false false None)))
  = [BatchUpdate "doc123"
       [insertText (location 5 None) ("Intro" ++ nl);
        updateParagraphStyle (mkRange 5 11 None) "SUBTITLE" "namedStyleType"] None]
  /\ remote_calls
       (snd (run (insert_command (mkEnv (Examples.steady (Examples.doc_ending_at 12)) false)
                                 "doc123" "Intro" 5 (Some "subtitle") true true None)))
     = [BatchUpdate "doc123"
          [insertText (location 5 None) ("Intro" ++ nl);
           updateParagraphStyle (mkRange 5 11 None) "SUBTITLE" "namedStyleType";
           updateTextStyle (mkRange 5 10 None) [("bold", VTrue); ("italic", VTrue)]
                           "bold,italic"] None].
Proof.
  split.
  - exact (proj1 (proj2 (@insert_with_heading_batch
                           (mkEnv (Examples.steady (Examples.doc_ending_at 12)) false)
                           "doc123" "Intro" 5 "subtitle" SUBTITLE false false None
                           eq_refl))).
  - exact (proj1 (@insert_with_heading_batch
                    (mkEnv (Examples.steady (Examples.doc_ending_at 12)) false)
                    "doc123" "Intro" 5 "subtitle" SUBTITLE true true None
                    eq_refl)).
Defined.

(** An invalid heading stops [insert_command] before any remote call. *)
Lemma insert_invalid_heading (E : Env) (document_id text : string) (index : Z)
      (heading : string) (bold italic : bool) (account : option string) :
  heading <> "" ->
  NamedStyleType_getitem (upper heading) = None ->
  run (insert_command E document_id text index (Some heading) bold italic account)
  = (inl (Exit 1), [Echo (invalid_heading_message heading) true]).
Proof.
  intros Hne Hinv. apply truthy_true_iff in Hne.
  unfold run, insert_command. rewrite Hne, Hinv. reflexivity.
Qed.

(** An invalid heading stops [append_command] before any batch, but
    only after the document has been read. *)
Lemma append_invalid_heading (E : Env) (document_id text : string)
      (heading : string) (account : option string) :
  heading <> "" ->
  NamedStyleType_getitem (upper heading) = None ->
  remote_calls (snd (run (append_command E document_id text (Some heading) account)))
  = [GetDocumentContent document_id account]
  /\ (forall doc,
         documents_get (remote E) 0 document_id = inr doc ->
         run (append_command E document_id text (Some heading) account)
         = (inl (Exit 1),
            [GetDocumentContent document_id account;
             Echo (invalid_heading_message heading) true])).
Proof.
  intros Hne Hinv. apply truthy_true_iff in Hne.
  unfold run, append_command. simpl truthy_opt. rewrite Hne, Hinv.
  unfold bind, get_document_content. simpl.
  split.
  - destruct (documents_get (remote E) 0 document_id); reflexivity.
  - intros doc ->. reflexivity.
Qed.

(** C2 at its failing input: appending with the heading INVALID reads
    the document from the remote service and only then reports the
    invalid heading and exits with status 1, whereas inserting with
    the same heading reports it without any remote call. *)
Theorem append_invalid_heading_reads_first :
  run (append_command (mkEnv (Examples.steady (Examples.doc_ending_at 12)) false)
                      "doc123" "x" (Some "INVALID") None)
  = (inl (Exit 1),
     [GetDocumentContent "doc123" None;
      Echo ("Invalid heading: INVALID. Valid: NORMAL_TEXT, TITLE, SUBTITLE, "
              ++ "HEADING_1, HEADING_2, HEADING_3, HEADING_4, HEADING_5, HEADING_6")
           true])
  /\ run (insert_command (mkEnv (Examples.steady (Examples.doc_ending_at 12)) false)
                         "doc123" "Title" 1 (Some "INVALID") false false None)
     = (inl (Exit 1),
        [Echo ("Invalid heading: INVALID. Valid: NORMAL_TEXT, TITLE, SUBTITLE, "
                 ++ "HEADING_1, HEADING_2, HEADING_3, HEADING_4, HEADING_5, HEADING_6")
              true]).
Proof. split; reflexivity. Qed.

(** C1. An append with a valid heading, against a remote service whose
    calls succeed and whose second read shows a non-empty body, makes
    exactly four remote calls: a read; a batch of one end-of-segment
    insert of the text plus a newline; a second read; and a batch of
    one heading-style descriptor over the range from the end index of
    the first read to the end index of the second read minus one,
    where the end index of a read is the endIndex of the last body
    element, or 1 for an empty body. *)
Theorem append_with_heading_four_steps :
  forall (E : Env) (document_id T heading : string) (style_type : NamedStyleType)
         (account : option string) (before after : DocContent),
    NamedStyleType_getitem (upper heading) = Some style_type ->
    documents_get (remote E) 0 document_id = inr before ->
    documents_batchUpdate (remote E) 1 document_id
                          [insertText (endOfSegmentLocation None) (T ++ nl)] = None ->
    documents_get (remote E) 2 document_id = inr after ->
    body_content after <> [] ->
    remote_calls (snd (run (append_command E document_id T (Some heading) account)))
    = [GetDocumentContent document_id account;
       BatchUpdate document_id
         [insertText (endOfSegmentLocation None) (T ++ nl)] account;
       GetDocumentContent document_id account;
       BatchUpdate document_id
         [updateParagraphStyle (mkRange (end_of_body before) (end_of_body after - 1) None)
                               (NamedStyleType_value style_type) "namedStyleType"]
         account].
Proof.
  intros E document_id T heading style_type account before after
         Hvalid Hread1 Hbatch Hread2 Hbody.
  unfold run, append_command. simpl truthy_opt.
  rewrite (valid_heading_truthy _ Hvalid), Hvalid.
  unfold bind, ret, get_document_content, batch_update, list_append,
    insert_text_at_end_request, apply_named_style_request, segment.
  simpl. rewrite Hread1. simpl. rewrite Hbatch. simpl. rewrite Hread2.
  rewrite !last_end_index_spec.
  destruct (body_content after) as [|e l] eqn:Hafter; [contradiction|].
  simpl.
  destruct (documents_batchUpdate (remote E) 3 _ _);
    unfold print_json, print_success, emit, list_append;
    try destruct (json_mode E); reflexivity.
Qed.

(** A body ending at 12 that ends at 18 after the append. *)
Lemma append_with_heading_four_steps_witness :
  remote_calls
    (snd (run (append_command
                 (mkEnv (Examples.changing (Examples.doc_ending_at 12)
                                           (Examples.doc_ending_at 18)) false)
                 "doc123" "Hello" (Some "heading_2") None)))
  = [GetDocumentContent "doc123" None;
     BatchUpdate "doc123" [insertText (endOfSegmentLocation None) ("Hello" ++ nl)] None;
     GetDocumentContent "doc123" None;
     BatchUpdate "doc123"
       [updateParagraphStyle (mkRange 12 17 None) "HEADING_2" "namedStyleType"] None].
Proof.
  refine (@append_with_heading_four_steps
            (mkEnv (Examples.changing (Examples.doc_ending_at 12)
                                      (Examples.doc_ending_at 18)) false)
            "doc123" "Hello" "heading_2" HEADING_2 None
            (Examples.doc_ending_at 12) (Examples.doc_ending_at 18)
            eq_refl eq_refl eq_refl eq_refl _).
  discriminate.
Defined.

(** When the second read shows an empty body the command stops after
    three remote calls and applies no style. *)
Lemma append_with_heading_empty_reread
      (E : Env) (document_id T heading : string) (style_type : NamedStyleType)
      (account : option string) (before after : DocContent) :
  NamedStyleType_getitem (upper heading) = Some style_type ->
  documents_get (remote E) 0 document_id = inr before ->
  documents_batchUpdate (remote E) 1 document_id
                        [insertText (endOfSegmentLocation None) (T ++ nl)] = None ->
  documents_get (remote E) 2 document_id = inr after ->
  body_content after = [] ->
  remote_calls (snd (run (append_command E document_id T (Some heading) account)))
  = [GetDocumentContent document_id account;
     BatchUpdate document_id [insertText (endOfSegmentLocation None) (T ++ nl)] account;
     GetDocumentContent document_id account].
Proof.
  intros Hvalid Hread1 Hbatch Hread2 Hbody.
  unfold run, append_command. simpl truthy_opt.
  rewrite (valid_heading_truthy _ Hvalid), Hvalid.
  unfold bind, ret, get_document_content, batch_update, list_append,
    insert_text_at_end_request, segment.
  simpl. rewrite Hread1. simpl. rewrite Hbatch. simpl. rewrite Hread2, Hbody.
  unfold print_json, print_success, emit, list_append.
  destruct (json_mode E); reflexivity.
Qed.

End ContentCommands.

(* ================================================================== *)
(** * Further properties of the code *)

(** ** Colours *)

Module ColorFacts.
Import PyStr RequestBuilder Spec Vocabulary.

(** A hexadecimal digit is neither blank, nor a sign, nor a hash, and
    its value is below 16. *)
Lemma hex_digit_facts (c : ascii) (d : Z) :
  hex_digit c = Some d ->
  int_space c = false /\ is_hash c = false
  /\ c <> "-"%char /\ c <> "+"%char /\ (0 <= d <= 15)%Z.
Proof.
  destruct c as [b0 b1 b2 b3 b4 b5 b6 b7].
  destruct b0, b1, b2, b3, b4, b5, b6, b7; vm_compute; intros H;
    try discriminate H; injection H as <-;
    repeat split; try discriminate; intros ?; discriminate.
Qed.

Lemma sign_of_unsigned (c : ascii) (t : string) :
  c <> "-"%char -> c <> "+"%char ->
  match String c t with
  | String "-" d => (true, d)
  | String "+" d => (false, d)
  | _ => (false, String c t)
  end = (false, String c t).
Proof.
  intros Hm Hp.
  destruct c as [b0 b1 b2 b3 b4 b5 b6 b7].
  destruct b0, b1, b2, b3, b4, b5, b6, b7; try reflexivity; congruence.
Qed.

(** [int] of two hexadecimal digits. *)
Lemma int16_pair (c1 c2 : ascii) (d1 d2 : Z) :
  hex_digit c1 = Some d1 -> hex_digit c2 = Some d2 ->
  int16 (String c1 (String c2 "")) = inr (16 * d1 + d2)%Z.
Proof.
  intros H1 H2.
  destruct (@hex_digit_facts c1 d1 H1) as (Hs1 & _ & Hm1 & Hp1 & _).
  destruct (@hex_digit_facts c2 d2 H2) as (Hs2 & _ & _ & _ & _).
  unfold int16. simpl lstrip_by. rewrite Hs1. simpl rstrip_by. rewrite Hs2.
  rewrite (@sign_of_unsigned c1 _ Hm1 Hp1).
  simpl. rewrite H1, H2. f_equal; try lia.
Qed.

(** Every failure of [int] is a ValueError. *)
Lemma int16_raises_ValueError (s : string) (e : Exn) :
  int16 s = inl e -> e = ValueError.
Proof.
  unfold int16.
  destruct (match rstrip_by int_space (lstrip_by int_space s) with
            | String "-" d => (true, d)
            | String "+" d => (false, d)
            | _ => (false, rstrip_by int_space (lstrip_by int_space s))
            end) as [negative digits].
  destruct digits; [congruence|].
  destruct (hex_digits 0 (String a digits)); congruence.
Qed.

Lemma lstrip_by_prefix (p : ascii -> bool) (prefix rest : string) (c : ascii) :
  all_chars p prefix = true -> p c = false ->
  lstrip_by p (prefix ++ String c rest) = String c rest.
Proof.
  intros Hp Hc. induction prefix as [|x prefix IH]; simpl.
  - now rewrite Hc.
  - simpl in Hp. apply andb_true_iff in Hp as [Hx Hp]. rewrite Hx. now apply IH.
Qed.

Lemma all_chars_ext (p q : ascii -> bool) (s : string) :
  (forall c, p c = q c) -> all_chars p s = all_chars q s.
Proof. intros H. induction s as [|c s IH]; simpl; [reflexivity | now rewrite H, IH]. Qed.

Lemma mem_hash (c : ascii) : mem c "#" = is_hash c.
Proof. unfold is_hash. simpl. apply orb_false_r. Qed.

Lemma lstrip_hashes (prefix rest : string) (c : ascii) :
  all_chars is_hash prefix = true -> is_hash c = false ->
  lstrip "#" (prefix ++ String c rest) = String c rest.
Proof.
  intros Hp Hc. unfold lstrip. apply lstrip_by_prefix.
  - now rewrite (all_chars_ext _ is_hash prefix mem_hash).
  - now rewrite mem_hash.
Qed.

(** X1. A colour written as any number of hash signs followed by six
    hexadecimal digits parses to the three byte values over 255, each
    between 0 and 255, and whatever follows the sixth digit is
    ignored. *)
Theorem parse_color_six_digits :
  forall (prefix rest : string) (c1 c2 c3 c4 c5 c6 : ascii) (d1 d2 d3 d4 d5 d6 : Z),
    all_chars is_hash prefix = true ->
    hex_digit c1 = Some d1 -> hex_digit c2 = Some d2 -> hex_digit c3 = Some d3 ->
    hex_digit c4 = Some d4 -> hex_digit c5 = Some d5 -> hex_digit c6 = Some d6 ->
    _parse_color (prefix ++ String c1 (String c2 (String c3 (String c4
                                (String c5 (String c6 rest))))))
    = inr (VRgbColor ((16 * d1 + d2) # 255) ((16 * d3 + d4) # 255)
                     ((16 * d5 + d6) # 255))
    /\ (0 <= 16 * d1 + d2 <= 255)%Z
    /\ (0 <= 16 * d3 + d4 <= 255)%Z
    /\ (0 <= 16 * d5 + d6 <= 255)%Z.
Proof.
  intros prefix rest c1 c2 c3 c4 c5 c6 d1 d2 d3 d4 d5 d6 Hp H1 H2 H3 H4 H5 H6.
  split.
  - unfold _parse_color.
    rewrite (@lstrip_hashes prefix _ c1 Hp (proj1 (proj2 (@hex_digit_facts c1 d1 H1)))).
    unfold slice. simpl Nat.sub. simpl substring.
    replace (substring 0 0 rest) with "" by (destruct rest; reflexivity).
    rewrite (@int16_pair c1 c2 d1 d2 H1 H2), (@int16_pair c3 c4 d3 d4 H3 H4),
      (@int16_pair c5 c6 d5 d6 H5 H6).
    reflexivity.
  - pose proof (@hex_digit_facts c1 d1 H1). pose proof (@hex_digit_facts c2 d2 H2).
    pose proof (@hex_digit_facts c3 d3 H3). pose proof (@hex_digit_facts c4 d4 H4).
    pose proof (@hex_digit_facts c5 d5 H5). pose proof (@hex_digit_facts c6 d6 H6).
    lia.
Qed.

(** Red with an alpha byte behind it. *)
Lemma parse_color_six_digits_witness :
  _parse_color "#FF0000AA" = inr (VRgbColor (255 # 255) (0 # 255) (0 # 255)).
Proof.
  exact (proj1 (@parse_color_six_digits "#" "AA" "F" "F" "0" "0" "0" "0"
                  15 15 0 0 0 0 eq_refl eq_refl eq_refl eq_refl eq_refl eq_refl
                  eq_refl)).
Defined.

Lemma substring_past_end (n m : nat) (s : string) :
  (String.length s <= n)%nat -> substring n m s = "".
Proof.
  revert n. induction s as [|c s IH]; intros n Hn.
  - destruct n, m; reflexivity.
  - destruct n as [|n]; [simpl in Hn; lia|]. simpl. apply IH. simpl in Hn. lia.
Qed.

(** X2. The only exception [_parse_color] raises is ValueError, and it
    raises it for every colour that has fewer than five characters
    after its leading hash signs, such as the short form [#F00]. *)
Theorem parse_color_failures :
  forall hex_color : string,
    (forall e, _parse_color hex_color = inl e -> e = ValueError)
    /\ ((String.length (lstrip "#" hex_color) <= 4)%nat ->
        _parse_color hex_color = inl ValueError).
Proof.
  intros hex_color.
  assert (Honly : forall e, _parse_color hex_color = inl e -> e = ValueError).
  { intros e. unfold _parse_color, rbind.
    destruct (int16 (slice 0 2 (lstrip "#" hex_color))) eqn:H1;
      [intros [= <-]; exact (@int16_raises_ValueError _ _ H1)|].
    destruct (int16 (slice 2 4 (lstrip "#" hex_color))) eqn:H2;
      [intros [= <-]; exact (@int16_raises_ValueError _ _ H2)|].
    destruct (int16 (slice 4 6 (lstrip "#" hex_color))) eqn:H3;
      [intros [= <-]; exact (@int16_raises_ValueError _ _ H3)|].
    discriminate. }
  split; [exact Honly|].
  intros Hlen.
  destruct (_parse_color hex_color) as [e|v] eqn:Hp.
  - f_equal. now apply Honly.
  - exfalso. unfold _parse_color, rbind in Hp.
    destruct (int16 (slice 0 2 (lstrip "#" hex_color))); [discriminate|].
    destruct (int16 (slice 2 4 (lstrip "#" hex_color))); [discriminate|].
    unfold slice in Hp. rewrite (@substring_past_end 4 _ _ Hlen) in Hp.
    discriminate.
Qed.

(** The short form of red. *)
Lemma parse_color_failures_witness : _parse_color "#F00" = inl ValueError.
Proof.
  apply (proj2 (parse_color_failures "#F00")). simpl. lia.
Defined.

End ColorFacts.

(** ** Paragraph styles and inline images *)

Module BuilderFacts.
Import PyStr RequestBuilder Builders Spec Vocabulary.

Lemma snd_paragraph_step (c : bool) (key : string) (v : ParagraphValue)
      (acc : ParagraphAcc) :
  snd (if c then set_paragraph_field key v acc else acc)
  = (snd acc ++ name_if c key)%list.
Proof. destruct c; simpl; [reflexivity | now rewrite app_nil_r]. Qed.

Lemma keys_paragraph_step (c : bool) (key : string) (v : ParagraphValue)
      (acc : ParagraphAcc) :
  map fst (fst (if c then set_paragraph_field key v acc else acc))
  = (map fst (fst acc) ++ name_if c key)%list.
Proof.
  destruct c; simpl; [|now rewrite app_nil_r].
  unfold list_append. now rewrite map_app.
Qed.

(** X3. The paragraph-style descriptor always names namedStyleType
    first, then alignment unless it is START, then each of spaceAbove,
    spaceBelow and indentFirstLine whose value is above zero; its
    paragraphStyle object has exactly the named keys in the same
    order, the named style being stored under the first; and the
    line spacing of the style never reaches the descriptor. *)
Theorem paragraph_style_field_mask :
  forall (start_index end_index : Z) (style : ParagraphStyle)
         (segment_id : option string),
    (exists paragraph_style,
        update_paragraph_style_request start_index end_index style segment_id
        = updateParagraphStyle_full
            (mkRange start_index end_index (segment segment_id)) paragraph_style
            (join "," ("namedStyleType" :: optional_paragraph_fields style))
        /\ map fst paragraph_style = "namedStyleType" :: optional_paragraph_fields style
        /\ hd_error paragraph_style
           = Some ("namedStyleType", PString (NamedStyleType_value (named_style style))))
    /\ (forall spacing : Q,
           update_paragraph_style_request start_index end_index
             (with_line_spacing spacing style) segment_id
           = update_paragraph_style_request start_index end_index style segment_id).
Proof.
  intros start_index end_index style segment_id. split; [|reflexivity].
  unfold update_paragraph_style_request. cbv zeta.
  match goal with
  | |- context [updateParagraphStyle_full _ (fst ?acc) _] => exists (fst acc)
  end.
  split; [|split].
  - f_equal. f_equal. rewrite !snd_paragraph_step. unfold optional_paragraph_fields.
    simpl. now rewrite <- !app_assoc.
  - rewrite !keys_paragraph_step. unfold optional_paragraph_fields. simpl.
    now rewrite <- !app_assoc.
  - destruct (negb (Alignment_value (alignment style) =? "START")%string),
             (positive (space_above_pt style)),
             (positive (space_below_pt style)),
             (positive (indent_first_line_pt style)); reflexivity.
Qed.

(** X4. For a style that sets nothing but its named style (alignment
    START, no positive spacing or indent) the general builder and
    [apply_named_style_request] describe the same update: the same
    range, the one key namedStyleType with the same value, and the
    same field mask. *)
Theorem named_style_builders_agree :
  forall (start_index end_index : Z) (style : ParagraphStyle)
         (segment_id : option string),
    alignment style = START ->
    positive (space_above_pt style) = false ->
    positive (space_below_pt style) = false ->
    positive (indent_first_line_pt style) = false ->
    exists (range : Range) (value fields : string),
      apply_named_style_request start_index end_index (named_style style) segment_id
      = updateParagraphStyle range value fields
      /\ update_paragraph_style_request start_index end_index style segment_id
         = updateParagraphStyle_full range [("namedStyleType", PString value)] fields.
Proof.
  intros start_index end_index style segment_id Ha H1 H2 H3.
  exists (mkRange start_index end_index (segment segment_id)),
         (NamedStyleType_value (named_style style)), "namedStyleType".
  split; [reflexivity|].
  unfold update_paragraph_style_request. rewrite Ha, H1, H2, H3. reflexivity.
Qed.

(** The default style with HEADING_1. *)
Lemma named_style_builders_agree_witness :
  update_paragraph_style_request 0 20
    (mkParagraphStyle HEADING_1 START (1 # 1) (0 # 1) (0 # 1) (0 # 1)) None
  = updateParagraphStyle_full (mkRange 0 20 None)
      [("namedStyleType", PString "HEADING_1")] "namedStyleType".
Proof.
  destruct (@named_style_builders_agree 0 20
              (mkParagraphStyle HEADING_1 START (1 # 1) (0 # 1) (0 # 1) (0 # 1)) None
              eq_refl eq_refl eq_refl eq_refl) as (range & value & fields & Happly & Hfull).
  injection Happly as <- <- <-. exact Hfull.
Defined.

(** X5. An inline-image descriptor carries an objectSize exactly when
    the width or the height is given and not zero, and the objectSize
    then holds a width entry exactly when the width is so and a height
    entry exactly when the height is so, each in points. *)
Theorem inline_image_object_size :
  forall (uri : string) (index : Z) (width_pt height_pt : option Q)
         (segment_id : option string),
    exists object_size : option ObjectSize,
      insert_inline_image_request uri index width_pt height_pt segment_id
      = insertInlineImage (location index (segment segment_id)) uri object_size
      /\ (object_size = None
          <-> truthy_size width_pt = false /\ truthy_size height_pt = false)
      /\ (forall entries,
             object_size = Some entries ->
             map fst entries
             = (name_if (truthy_size width_pt) "width"
                ++ name_if (truthy_size height_pt) "height")%list
             /\ (forall key size, In (key, size) entries ->
                                  snd size = "PT"
                                  /\ (key = "width" -> width_pt = Some (fst size))
                                  /\ (key = "height" -> height_pt = Some (fst size)))).
Proof.
  intros uri index width_pt height_pt segment_id.
  unfold insert_inline_image_request.
  destruct width_pt as [w|], height_pt as [h|]; simpl truthy_size;
    try destruct (truthy_num w) eqn:Hw; try destruct (truthy_num h) eqn:Hh;
    simpl; eexists; (split; [reflexivity|]); split.
  all: try (split; [intros H; try discriminate H; split; reflexivity
                   | intros [H1 H2]; try discriminate H1; try discriminate H2;
                     reflexivity]).
  all: intros entries He; try discriminate He; injection He as <-;
    (split; [reflexivity|]);
    intros key size Hin; simpl in Hin;
    repeat (destruct Hin as [Hin|Hin]; [injection Hin as <- <-|]);
    try contradiction; simpl; repeat split; intros Hkey; try discriminate Hkey;
    reflexivity.
Qed.

(** An image 100 points wide with no height given. *)
Lemma inline_image_object_size_witness :
  insert_inline_image_request "https://example.com/i.png" 1 (Some (100 # 1)%Q) None None
  = insertInlineImage (location 1 None) "https://example.com/i.png"
                      (Some [("width", ((100 # 1)%Q, "PT"))]).
Proof.
  destruct (inline_image_object_size "https://example.com/i.png" 1
                                     (Some (100 # 1)%Q) None None)
    as (object_size & Hrequest & _ & _).
  rewrite Hrequest. injection Hrequest as <-. reflexivity.
Defined.

End BuilderFacts.

(** ** The retry wrapper *)

Module RetryFacts.
Import Retry Vocabulary.

Ltac step_outcome execute n :=
  let s := fresh "status" in
  destruct (execute n) as [? | s | ?];
  [ | destruct (Z.eqb_spec s 401); [ | destruct (Z.eqb_spec s 429)] | ].

(** X6. Whatever the request does, the wrapper executes it at least
    once and at most four times, sleeps once between two executions,
    with delays of 1, 2 and 4 seconds in that order, and so never
    sleeps more than 7 seconds in all. *)
Theorem retry_is_bounded :
  forall (R : Type) (execute : nat -> Outcome R) (account : option string),
    let run := _execute_with_retry execute account in
    (1 <= executions run <= 4)%nat
    /\ slept run = firstn (executions run - 1) [1; 2; 4]%Z
    /\ (total (slept run) <= 7)%Z.
Proof.
  intros R execute account. unfold _execute_with_retry, MAX_RETRIES. simpl.
  step_outcome execute 0%nat; simpl; try (repeat split; lia).
  step_outcome execute 1%nat; simpl; try (repeat split; lia).
  step_outcome execute 2%nat; simpl; try (repeat split; lia).
Qed.

(** X7. If one of the first three executions is not rate limited, the
    wrapper stops at the first such execution: it returns its response,
    raises TokenExpiredError for the account on status 401, and raises
    any other error as it is; it has then executed the request once
    more than it was rate limited. *)
Theorem retry_stops_at_first_answer :
  forall (R : Type) (execute : nat -> Outcome R) (account : option string) (k : nat),
    (k < 3)%nat ->
    (forall j, (j < k)%nat -> execute j = HttpError 429) ->
    execute k <> HttpError 429 ->
    let run := _execute_with_retry execute account in
    result run = guarded account (execute k)
    /\ executions run = S k
    /\ length (slept run) = k.
Proof.
  intros R execute account k Hk Hlimited Hanswer.
  assert (Hstep : forall n slept remaining,
             execute n <> HttpError 429 ->
             attempts execute account n (S remaining) slept
             = mkRun (guarded account (execute n)) (S n) slept).
  { intros n slept remaining Hn. simpl. unfold guarded.
    destruct (execute n) as [r | status | detail]; try reflexivity.
    destruct (Z.eqb_spec status 401); [reflexivity|].
    destruct (Z.eqb_spec status 429); [subst; contradiction | reflexivity]. }
  assert (Hlimit : forall n slept remaining,
             execute n = HttpError 429 ->
             attempts execute account n (S remaining) slept
             = attempts execute account (S n) remaining
                        (list_append slept (BASE_DELAY * 2 ^ Z.of_nat n)%Z)).
  { intros n slept remaining Hn. simpl. rewrite Hn. reflexivity. }
  unfold _execute_with_retry, MAX_RETRIES.
  destruct k as [|[|[|k]]]; try lia.
  - rewrite Hstep by assumption. repeat split.
  - rewrite Hlimit by (apply Hlimited; lia).
    rewrite Hstep by assumption. repeat split.
  - rewrite Hlimit by (apply Hlimited; lia).
    rewrite Hlimit by (apply Hlimited; lia).
    rewrite Hstep by assumption. repeat split.
Qed.

(** Rate limited twice, then answered. *)
Lemma retry_stops_at_first_answer_witness :
  result (_execute_with_retry MoreExamples.limited_twice None) = inr "ok"%string
  /\ executions (_execute_with_retry MoreExamples.limited_twice None) = 3%nat.
Proof.
  destruct (@retry_stops_at_first_answer string MoreExamples.limited_twice None 2%nat)
    as (Hr & He & _).
  - lia.
  - intros [|[|j]] Hj; try reflexivity. lia.
  - discriminate.
  - split; [exact Hr | exact He].
Defined.

(** X8. If the first three executions are all rate limited, the wrapper
    has slept 1, 2 and 4 seconds and executes the request a fourth
    time outside its error handling: a response is returned, and every
    error of that execution is raised as it is, so that a 401 there is
    an HttpError and not a TokenExpiredError, and a fourth rate limit
    is raised as HttpError 429. *)
Theorem retry_last_attempt_is_unguarded :
  forall (R : Type) (execute : nat -> Outcome R) (account : option string),
    (forall j, (j < 3)%nat -> execute j = HttpError 429) ->
    let run := _execute_with_retry execute account in
    result run = unguarded (execute 3%nat)
    /\ executions run = 4%nat
    /\ slept run = [1; 2; 4]%Z
    /\ (execute 3%nat = HttpError 401 -> result run = inl (RaisedHttpError 401))
    /\ (execute 3%nat = HttpError 429 -> result run = inl (RaisedHttpError 429)).
Proof.
  intros R execute account Hlimited.
  unfold _execute_with_retry, MAX_RETRIES. simpl.
  rewrite (Hlimited 0%nat), (Hlimited 1%nat), (Hlimited 2%nat) by lia. simpl.
  repeat split; intros ->; reflexivity.
Qed.

(** Rate limited every time. *)
Lemma retry_last_attempt_is_unguarded_witness :
  result (_execute_with_retry MoreExamples.always_limited (Some "a@example.com"%string))
  = inl (RaisedHttpError 429)
  /\ slept (_execute_with_retry MoreExamples.always_limited (Some "a@example.com"%string))
     = [1; 2; 4]%Z.
Proof.
  destruct (@retry_last_attempt_is_unguarded string MoreExamples.always_limited
              (Some "a@example.com"%string) (fun _ _ => eq_refl))
    as (_ & _ & Hs & _ & H429).
  split; [exact (H429 eq_refl) | exact Hs].
Defined.

End RetryFacts.

(** ** More on the Document Tree Reader *)

Module ReaderMore.
Import PyStr Reader Spec Vocabulary ReaderFacts.

(** What one top-level element adds to the list [text_parts] of
    [_extract_text_from_content]. *)
Lemma extract_text_flat_map (content : list StructuralElement) :
  _extract_text_from_content content
  = concat (flat_map
              (fun element =>
                 match kind element with
                 | paragraph p => [_extract_text_from_paragraph p]
                 | table t =>
                     flat_map (fun row =>
                                 (map (fun cell => (_extract_cell_text cell ++ tab)%string)
                                      (tableCells row) ++ [nl])%list) (tableRows t)
                 | otherKind => []
                 end) content).
Proof.
  unfold _extract_text_from_content. f_equal.
  rewrite (fold_left_list_append _
             (fun element =>
                match kind element with
                | paragraph p => [_extract_text_from_paragraph p]
                | table t =>
                    flat_map (fun row =>
                                (map (fun cell => (_extract_cell_text cell ++ tab)%string)
                                     (tableCells row) ++ [nl])%list) (tableRows t)
                | otherKind => []
                end)); [reflexivity|].
  intros acc e. destruct (kind e) as [p|t|].
  - reflexivity.
  - apply PlainText.table_fold.
  - now rewrite app_nil_r.
Qed.

Lemma extract_text_app (a b : list StructuralElement) :
  _extract_text_from_content (a ++ b)
  = _extract_text_from_content a ++ _extract_text_from_content b.
Proof. rewrite !extract_text_flat_map, flat_map_app. apply concat_app. Qed.

Lemma find_tables_flat_map (doc : DocContent) :
  Cli._find_tables doc
  = flat_map (fun element =>
                match kind element with
                | table t => [table_info_of element t]
                | _ => []
                end) (body_content doc).
Proof.
  unfold Cli._find_tables.
  rewrite (fold_left_list_append _
             (fun element =>
                match kind element with
                | table t => [table_info_of element t]
                | _ => []
                end)); [reflexivity|].
  intros acc e. destruct (kind e); try reflexivity; now rewrite app_nil_r.
Qed.

Lemma join_app (sep : string) (l1 l2 : list string) :
  l1 <> [] -> l2 <> [] ->
  join sep (l1 ++ l2) = join sep l1 ++ sep ++ join sep l2.
Proof.
  intros H1 H2. induction l1 as [|x l1 IH]; [contradiction|].
  destruct l1 as [|y l1].
  - simpl. destruct l2; [contradiction | reflexivity].
  - change ((x :: y :: l1) ++ l2)%list with (x :: (y :: l1) ++ l2)%list.
    change (join sep (x :: (y :: l1) ++ l2))
      with (x ++ sep ++ join sep ((y :: l1) ++ l2)).
    rewrite IH by discriminate.
    change (join sep (x :: y :: l1)) with (x ++ sep ++ join sep (y :: l1)).
    now rewrite !string_app_assoc.
Qed.

(** X9. A top-level element that is neither a paragraph nor a table (a
    section break, a table of contents) leaves no trace in the
    Markdown output, in the plain text, or in the list of tables. *)
Theorem other_elements_are_invisible :
  forall (pre post : list StructuralElement) (si ei : option Z) (title : option string),
    _content_to_markdown (pre ++ Element si ei otherKind :: post)
    = _content_to_markdown (pre ++ post)
    /\ _extract_text_from_content (pre ++ Element si ei otherKind :: post)
       = _extract_text_from_content (pre ++ post)
    /\ Cli._find_tables (mkDoc title (pre ++ Element si ei otherKind :: post))
       = Cli._find_tables (mkDoc title (pre ++ post)).
Proof.
  intros pre post si ei title. split; [|split].
  - unfold _content_to_markdown.
    now rewrite !content_to_markdown_parts_app, content_to_markdown_parts_cons.
  - rewrite !extract_text_app.
    change (Element si ei otherKind :: post)
      with ([Element si ei otherKind] ++ post)%list.
    now rewrite extract_text_app.
  - rewrite !find_tables_flat_map. simpl body_content.
    now rewrite !flat_map_app.
Qed.

(** X10. Both projections work element by element: the plain text of
    two bodies put one after the other is the plain text of the first
    followed by that of the second, the Markdown parts likewise, and
    when both bodies yield some Markdown the Markdown of the whole is
    the two outputs with one newline between them. *)
Theorem projections_compose :
  forall a b : list StructuralElement,
    _extract_text_from_content (a ++ b)
    = _extract_text_from_content a ++ _extract_text_from_content b
    /\ _content_to_markdown_parts (a ++ b)
       = (_content_to_markdown_parts a ++ _content_to_markdown_parts b)%list
    /\ (_content_to_markdown_parts a <> [] ->
        _content_to_markdown_parts b <> [] ->
        _content_to_markdown (a ++ b)
        = _content_to_markdown a ++ nl ++ _content_to_markdown b)
    /\ (_content_to_markdown_parts a = [] ->
        _content_to_markdown (a ++ b) = _content_to_markdown b).
Proof.
  intros a b. split; [apply extract_text_app|].
  split; [apply content_to_markdown_parts_app|]. split.
  - intros Ha Hb. unfold _content_to_markdown.
    rewrite content_to_markdown_parts_app. now apply join_app.
  - intros Ha. unfold _content_to_markdown.
    now rewrite content_to_markdown_parts_app, Ha.
Qed.

(** A heading followed by a plain paragraph. *)
Lemma projections_compose_witness :
  _content_to_markdown
    ([Examples.para (Some "HEADING_1") "Title"] ++ [Examples.para None "Body"])
  = ("# Title" ++ nl) ++ nl ++ ("Body" ++ nl).
Proof.
  destruct (projections_compose [Examples.para (Some "HEADING_1") "Title"]
                                [Examples.para None "Body"]) as (_ & _ & H & _).
  apply H; discriminate.
Defined.

(** X11. Only the paragraphs directly inside a cell contribute to its
    text: any other element of the cell, a nested table included, can
    be removed without changing what is extracted from the cell. *)
Theorem cell_text_ignores_nested_elements :
  forall (pre post : list StructuralElement) (si ei : option Z) (k : ElementKind),
    is_paragraph_kind k = false ->
    _extract_cell_text (mkTableCell (pre ++ Element si ei k :: post))
    = _extract_cell_text (mkTableCell (pre ++ post)).
Proof.
  intros pre post si ei k Hk.
  rewrite !extract_cell_text_spec. f_equal.
  unfold cell_paragraphs_text. simpl content.
  rewrite !map_app. rewrite map_cons. simpl kind.
  destruct k as [p|t|]; [discriminate| |];
    rewrite !concat_app, concat_cons; reflexivity.
Qed.

(** A cell holding a paragraph and a nested table. *)
Lemma cell_text_ignores_nested_elements_witness :
  _extract_cell_text
    (mkTableCell [Examples.para None ("A" ++ nl);
                  Element None None (table Examples.table_2x2)])
  = "A".
Proof.
  exact (eq_trans (@cell_text_ignores_nested_elements
                     [Examples.para None ("A" ++ nl)] [] None None
                     (table Examples.table_2x2) eq_refl)
                  eq_refl).
Defined.

Lemma table_to_markdown_nonempty (r c : option Z) (first : TableRow)
      (rest : list TableRow) :
  exists tail, _table_to_markdown (mkTable r c (first :: rest)) = "| " ++ tail.
Proof.
  unfold _table_to_markdown. simpl tableRows. cbv iota.
  unfold _table_to_markdown_rows, enumerate. simpl.
  rewrite MarkdownProjection.table_rows_tail by lia. simpl.
  rewrite string_app_assoc. eexists. reflexivity.
Qed.

(** X12. Every top-level table adds exactly one part to the Markdown
    output, its rendering between two newlines; the rendering is empty
    exactly when the table has no rows, so that a table without rows
    still adds a part of two newlines, whereas it adds nothing to the
    plain text. *)
Theorem table_markdown_part :
  forall (pre post : list StructuralElement) (si ei : option Z) (t : Table),
    _content_to_markdown_parts (pre ++ Element si ei (table t) :: post)
    = (_content_to_markdown_parts pre ++ [(nl ++ _table_to_markdown t ++ nl)%string]
         ++ _content_to_markdown_parts post)%list
    /\ (_table_to_markdown t = "" <-> tableRows t = [])
    /\ (tableRows t = [] ->
        _content_to_markdown_parts (pre ++ Element si ei (table t) :: post)
        = (_content_to_markdown_parts pre ++ [(nl ++ nl)%string]
             ++ _content_to_markdown_parts post)%list
        /\ _extract_text_from_content (pre ++ Element si ei (table t) :: post)
           = _extract_text_from_content (pre ++ post)).
Proof.
  intros pre post si ei t.
  assert (Hparts :
            _content_to_markdown_parts (pre ++ Element si ei (table t) :: post)
            = (_content_to_markdown_parts pre ++ [(nl ++ _table_to_markdown t ++ nl)%string]
                 ++ _content_to_markdown_parts post)%list).
  { now rewrite content_to_markdown_parts_app, content_to_markdown_parts_cons. }
  split; [exact Hparts|]. split.
  - destruct t as [r c trows]. simpl tableRows. split.
    + destruct trows as [|first rest]; [reflexivity|].
      destruct (table_to_markdown_nonempty r c first rest) as (tail & ->).
      discriminate.
    + intros ->. reflexivity.
  - intros Hrows. split.
    + rewrite Hparts. unfold _table_to_markdown. now rewrite Hrows.
    + rewrite !extract_text_app.
      change (Element si ei (table t) :: post)
        with ([Element si ei (table t)] ++ post)%list.
      rewrite extract_text_app. f_equal.
      rewrite extract_text_flat_map. simpl. now rewrite Hrows.
Qed.

(** A table without rows between two paragraphs. *)
Lemma table_markdown_part_witness :
  _content_to_markdown
    [Examples.para None "a"; Element None None (table (mkTable None None []));
     Examples.para None "b"]
  = "a" ++ nl ++ nl ++ nl ++ nl ++ nl ++ "b" ++ nl.
Proof.
  destruct (table_markdown_part [Examples.para None "a"] [Examples.para None "b"]
                                None None (mkTable None None [])) as (_ & _ & H).
  destruct (H eq_refl) as [Hparts _].
  unfold _content_to_markdown.
  change (_content_to_markdown_parts
            [Examples.para None "a"; Element None None (table (mkTable None None []));
             Examples.para None "b"])
    with (_content_to_markdown_parts
            ([Examples.para None "a"]
               ++ Element None None (table (mkTable None None []))
               :: [Examples.para None "b"])).
  rewrite Hparts. reflexivity.
Defined.

End ReaderMore.

(** ** More on the Table Locator and the table commands *)

Module TableMore.
Import PyStr RequestBuilder Cli Spec Vocabulary.
Local Open Scope Z_scope.

Lemma tables_follow_elements (content : list StructuralElement) :
  forall (k : nat) (e : StructuralElement),
    nth_error (filter is_table_element content) k = Some e ->
    exists t,
      kind e = table t
      /\ nth_error (flat_map (fun element =>
                                match kind element with
                                | table t => [table_info_of element t]
                                | _ => []
                                end) content) k
         = Some (table_info_of e t).
Proof.
  induction content as [|a content IH]; intros k e Hk; simpl in Hk.
  - destruct k; discriminate.
  - unfold is_table_element in Hk at 1. simpl flat_map.
    destruct (kind a) as [p|t|] eqn:Ha; simpl; try (now apply IH).
    destruct k as [|k]; simpl in Hk.
    + injection Hk as <-. exists t. split; [exact Ha | reflexivity].
    + now apply IH.
Qed.

Lemma table_elements_count (doc : DocContent) :
  length (table_elements doc) = table_count doc.
Proof. reflexivity. Qed.

(** X13. The Table Locator lists the top-level tables of a body in
    document order: there are as many entries as table elements, and
    the k-th entry carries the start and end index of the k-th table
    element, with its row and column counts (0 where the table has
    none). *)
Theorem find_tables_in_document_order :
  forall doc : DocContent,
    length (_find_tables doc) = length (table_elements doc)
    /\ (forall (k : nat) (e : StructuralElement),
           nth_error (table_elements doc) k = Some e ->
           exists t,
             kind e = table t
             /\ nth_error (_find_tables doc) k = Some (table_info_of e t)).
Proof.
  intros doc. split.
  - rewrite table_elements_count. apply TableCommands.find_tables_count.
  - intros k e Hk. rewrite ReaderMore.find_tables_flat_map.
    now apply tables_follow_elements.
Qed.

(** The second table of the two-table document starts at 40. *)
Lemma find_tables_in_document_order_witness :
  option_map start_index (nth_error (_find_tables Examples.two_table_doc) 1)
  = Some (Some 40).
Proof.
  destruct (proj2 (find_tables_in_document_order Examples.two_table_doc) 1%nat
                  (Element (Some 40) (Some 75) (table Examples.table_blank_A_B))
                  eq_refl) as (t & Hkind & Hnth).
  rewrite Hnth. reflexivity.
Defined.

(** X14. For a table index from 0 to the number of tables minus one,
    each table-relative command reads the document once and then
    submits exactly one batch of one descriptor, addressed to the start
    index of the table element at that position; the row or column
    number is passed on as given, without being compared with the size
    of the table. *)
Theorem table_index_within_range :
  forall (E : Env) (document_id : string) (table_index row column : Z)
         (flag : bool) (account : option string) (doc : DocContent),
    documents_get (remote E) 0 document_id = inr doc ->
    0 <= table_index < Z.of_nat (length (table_elements doc)) ->
    exists e : StructuralElement,
      nth_error (table_elements doc) (Z.to_nat table_index) = Some e
      /\ remote_calls
           (snd (run (add_row_command E document_id table_index row flag account)))
         = [GetDocumentContent document_id account;
            BatchUpdate document_id
              [insert_table_row_request (startIndex e) row (negb flag)] account]
      /\ remote_calls
           (snd (run (delete_row_command E document_id table_index row account)))
         = [GetDocumentContent document_id account;
            BatchUpdate document_id
              [delete_table_row_request (startIndex e) row] account]
      /\ remote_calls
           (snd (run (add_column_command E document_id table_index column flag account)))
         = [GetDocumentContent document_id account;
            BatchUpdate document_id
              [insert_table_column_request (startIndex e) column (negb flag)] account]
      /\ remote_calls
           (snd (run (delete_column_command E document_id table_index column account)))
         = [GetDocumentContent document_id account;
            BatchUpdate document_id
              [delete_table_column_request (startIndex e) column] account].
Proof.
  intros E document_id table_index row column flag account doc Hget Hin.
  destruct (nth_error (table_elements doc) (Z.to_nat table_index)) as [e|] eqn:He;
    [|apply nth_error_None in He; lia].
  exists e. split; [reflexivity|].
  destruct (tables_follow_elements _ _ He) as (t & Hkind & Hinfo).
  rewrite <- ReaderMore.find_tables_flat_map in Hinfo.
  assert (Hlen : Z.of_nat (length (_find_tables doc))
                 = Z.of_nat (length (table_elements doc))).
  { now rewrite TableCommands.find_tables_count, table_elements_count. }
  destruct (@Indexing.getitem_nonneg _ (_find_tables doc) table_index)
    as (info & Hitem & Hnth); [lia|].
  rewrite Hinfo in Hnth. injection Hnth as <-.
  assert (Hloc : run (locate_table E document_id table_index account)
                 = (inr (table_info_of e t), [GetDocumentContent document_id account])).
  { rewrite (@TableCommands.locate_table_run E document_id table_index account doc Hget).
    replace (table_index >=? Z.of_nat (length (_find_tables doc))) with false
      by (symmetry; destruct (table_index >=? _) eqn:Hc;
          [apply Z.geb_le in Hc; lia | reflexivity]).
    now rewrite Hitem. }
  repeat split; TableCommands.open_command; rewrite Hloc; cbv beta iota;
    unfold bind, batch_update, print_json, print_success, emit, list_append; simpl;
    destruct (documents_batchUpdate _ _ _ _); try destruct (json_mode E);
    reflexivity.
Qed.

(** Deleting row 7 of the first table of the two-table document. *)
Lemma table_index_within_range_witness :
  remote_calls
    (snd (run (delete_row_command (mkEnv (Examples.steady Examples.two_table_doc) true)
                                  "doc123" 0 7 None)))
  = [GetDocumentContent "doc123" None;
     BatchUpdate "doc123" [delete_table_row_request (Some 5) 7] None].
Proof.
  destruct (@table_index_within_range
              (mkEnv (Examples.steady Examples.two_table_doc) true)
              "doc123" 0 7 0 false None Examples.two_table_doc eq_refl)
    as (e & He & _ & Hdelete & _).
  - simpl. lia.
  - injection He as <-. exact Hdelete.
Defined.

Lemma combine_seq_nth (A : Type) (l : list A) :
  forall (start k : nat) (x : A),
    nth_error l k = Some x ->
    nth_error (combine (seq start (length l)) l) k = Some ((start + k)%nat, x).
Proof.
  induction l as [|a l IH]; intros start k x Hk.
  - destruct k; discriminate.
  - destruct k as [|k]; simpl in *.
    + injection Hk as <-. now rewrite Nat.add_0_r.
    + rewrite (IH (S start) k x Hk). f_equal. f_equal. lia.
Qed.

Lemma list_tables_rows_map (tables : list TableInfo) :
  MoreCommands.list_tables_rows tables
  = map (fun p : nat * TableInfo =>
           [of_int (Z.of_nat (fst p));
            MoreCommands.str_of_optional_int (start_index (snd p));
            (of_int (info_rows (snd p)) ++ "x" ++ of_int (info_columns (snd p)))%string])
        (Reader.enumerate tables).
Proof.
  unfold MoreCommands.list_tables_rows.
  rewrite (fold_left_list_append _
             (fun p : nat * TableInfo =>
                [[of_int (Z.of_nat (fst p));
                  MoreCommands.str_of_optional_int (start_index (snd p));
                  (of_int (info_rows (snd p)) ++ "x"
                     ++ of_int (info_columns (snd p)))%string]])).
  - simpl. induction (Reader.enumerate tables) as [|p l IH]; [reflexivity|].
    simpl. now rewrite IH.
  - intros acc [i t]. reflexivity.
Qed.

(** X15. In text mode [table list] prints one row per table of the
    body, in document order; the row of the k-th table shows k as its
    index and the table's start position; and that k, given to
    add-row against the same body, is accepted and addresses exactly
    that start position. *)
Theorem listed_indices_address_listed_tables :
  forall (L : MoreCommands.Env) (E : Env) (document_id : string)
         (account : option string) (doc : DocContent) (row : Z) (above : bool),
    MoreCommands.documents_get (MoreCommands.remote L) 0 document_id = inr doc ->
    MoreCommands.json_mode L = false ->
    documents_get (remote E) 0 document_id = inr doc ->
    table_elements doc <> [] ->
    exists rows : list (list string),
      MoreCommands.run (MoreCommands.list_tables_command L document_id account)
      = (inr tt,
         [MoreCommands.GetDocumentContent document_id account;
          MoreCommands.PrintTable "Tables" ["Index"; "Start Position"; "Size (RxC)"]
                                  rows])
      /\ length rows = length (table_elements doc)
      /\ (forall (k : nat) (e : StructuralElement),
             nth_error (table_elements doc) k = Some e ->
             (exists size,
                 nth_error rows k
                 = Some [of_int (Z.of_nat k);
                         MoreCommands.str_of_optional_int (startIndex e); size])
             /\ remote_calls
                  (snd (run (add_row_command E document_id (Z.of_nat k) row above
                                             account)))
                = [GetDocumentContent document_id account;
                   BatchUpdate document_id
                     [insert_table_row_request (startIndex e) row (negb above)]
                     account]).
Proof.
  intros L E document_id account doc row above HgetL Hjson HgetE Hsome.
  exists (MoreCommands.list_tables_rows (_find_tables doc)).
  assert (Hlen : length (_find_tables doc) = length (table_elements doc)).
  { now rewrite TableCommands.find_tables_count, table_elements_count. }
  split; [|split].
  - unfold MoreCommands.run, MoreCommands.list_tables_command, MoreCommands.bind,
      MoreCommands.get_document_content.
    simpl. rewrite HgetL, Hjson.
    destruct (_find_tables doc) as [|t ts] eqn:Ht; [|reflexivity].
    simpl in Hlen. destruct (table_elements doc); [contradiction | discriminate].
  - rewrite list_tables_rows_map, length_map. unfold Reader.enumerate.
    rewrite length_combine, length_seq, Nat.min_id. exact Hlen.
  - intros k e He.
    destruct (tables_follow_elements _ _ He) as (t & Hkind & Hinfo).
    rewrite <- ReaderMore.find_tables_flat_map in Hinfo.
    split.
    + eexists. rewrite list_tables_rows_map, nth_error_map.
      unfold Reader.enumerate. rewrite (combine_seq_nth _ 0 _ Hinfo). simpl.
      reflexivity.
    + assert (Hk : (k < length (table_elements doc))%nat)
        by (apply nth_error_Some; congruence).
      destruct (@Indexing.getitem_nonneg _ (_find_tables doc) (Z.of_nat k))
        as (info & Hitem & Hnth); [lia|].
      rewrite Nat2Z.id, Hinfo in Hnth. injection Hnth as <-.
      TableCommands.open_command.
      rewrite (@TableCommands.locate_table_run E document_id (Z.of_nat k) account doc
                 HgetE).
      replace (Z.of_nat k >=? Z.of_nat (length (_find_tables doc))) with false
        by (symmetry; destruct (Z.of_nat k >=? _) eqn:Hc;
            [apply Z.geb_le in Hc; lia | reflexivity]).
      rewrite Hitem. cbv beta iota.
      unfold bind, batch_update, print_json, print_success, emit, list_append; simpl.
      destruct (documents_batchUpdate _ _ _ _); try destruct (json_mode E);
        reflexivity.
Qed.

(** The listing of the two-table document. *)
Lemma listed_indices_address_listed_tables_witness :
  MoreCommands.run
    (MoreCommands.list_tables_command
       (MoreCommands.mkEnv
          (MoreExamples.steady Examples.two_table_doc (MoreCommands.mkBatchResponse []))
          false (fun _ => None))
       "doc123" None)
  = (inr tt,
     [MoreCommands.GetDocumentContent "doc123" None;
      MoreCommands.PrintTable "Tables" ["Index"; "Start Position"; "Size (RxC)"]
        [["0"; "5"; "0x0"]; ["1"; "40"; "0x0"]]]).
Proof.
  destruct (@listed_indices_address_listed_tables
              (MoreCommands.mkEnv
                 (MoreExamples.steady Examples.two_table_doc
                                      (MoreCommands.mkBatchResponse []))
                 false (fun _ => None))
              (mkEnv (Examples.steady Examples.two_table_doc) false)
              "doc123" None Examples.two_table_doc 0 false eq_refl eq_refl eq_refl)
    as (rows & Hrun & _).
  - discriminate.
  - injection Hrun as <-. reflexivity.
Defined.

End TableMore.

(** ** More on the content commands *)

Module ContentMore.
Import PyStr RequestBuilder Cli Spec Vocabulary.
Local Open Scope Z_scope.

(** X16. An append whose heading is absent or empty never reads the
    document: its only remote call is one batch holding the
    end-of-segment insert of the text plus a newline; if that batch
    fails its exception leaves the command and nothing is printed, and
    if it succeeds the command prints its one success line. *)
Theorem append_without_heading :
  forall (E : Env) (document_id T : string) (heading account : option string),
    not_supplied heading ->
    let batch := [insertText (endOfSegmentLocation None) (T ++ nl)] in
    run (append_command E document_id T heading account)
    = match documents_batchUpdate (remote E) 0 document_id batch with
      | Some e => (inl e, [BatchUpdate document_id batch account])
      | None =>
          (inr tt,
           [BatchUpdate document_id batch account;
            if json_mode E
            then PrintJson [("appended", JBool true); ("length", JInt (len T))]
            else PrintSuccess ("Appended " ++ of_int (len T) ++ " characters")])
      end.
Proof.
  intros E document_id T heading account Hno batch.
  unfold run, append_command.
  rewrite (AccountResolution.not_supplied_falsy Hno).
  unfold bind, batch_update, print_json, print_success, emit, list_append,
    insert_text_at_end_request, segment. simpl.
  fold batch.
  destruct (documents_batchUpdate (remote E) 0 document_id batch);
    [reflexivity|]. destruct (json_mode E); reflexivity.
Qed.

(** An append with an empty heading. *)
Lemma append_without_heading_witness :
  run (append_command (mkEnv (Examples.steady (Examples.doc_ending_at 12)) false)
                      "doc123" "More text" (Some "") None)
  = (inr tt,
     [BatchUpdate "doc123"
        [insertText (endOfSegmentLocation None) ("More text" ++ nl)] None;
      PrintSuccess "Appended 9 characters"]).
Proof.
  exact (@append_without_heading
           (mkEnv (Examples.steady (Examples.doc_ending_at 12)) false)
           "doc123" "More text" (Some "") None (or_intror eq_refl)).
Defined.



(** X18. An insert whose heading is absent or empty submits one batch
    and makes no other remote call: the insert-text descriptor for the
    text plus a newline at the index, followed by nothing else unless
    bold or italic is set; the command reports success, with the
    length of the text without the newline, exactly when the batch was
    accepted, and otherwise raises the batch's exception having
    printed nothing. *)
Theorem insert_without_heading :
  forall (E : Env) (document_id T : string) (I : Z) (heading : option string)
         (account : option string),
    not_supplied heading ->
    let batch := [insertText (location I None) (T ++ nl)] in
    run (insert_command E document_id T I heading false false account)
    = match documents_batchUpdate (remote E) 0 document_id batch with
      | Some e => (inl e, [BatchUpdate document_id batch account])
      | None =>
          (inr tt,
           [BatchUpdate document_id batch account;
            if json_mode E
            then PrintJson [("inserted", JBool true); ("index", JInt I);
                            ("length", JInt (len T))]
            else PrintSuccess ("Inserted " ++ of_int (len T)
                                 ++ " characters at index " ++ of_int I)])
      end.
Proof.
  intros E document_id T I heading account Hno batch.
  unfold run, insert_command.
  destruct Hno as [-> | ->]; simpl;
    unfold bind, ret, batch_update, print_json, print_success, emit, list_append,
      insert_text_request, segment; simpl; fold batch;
    (destruct (documents_batchUpdate (remote E) 0 document_id batch);
     [reflexivity|]; destruct (json_mode E); reflexivity).
Qed.

(** The insert of [test_content_insert_success]. *)
Lemma insert_without_heading_witness :
  run (insert_command (mkEnv (Examples.steady (Examples.doc_ending_at 12)) false)
                      "doc123" "Hello World" 1 None false false None)
  = (inr tt,
     [BatchUpdate "doc123" [insertText (location 1 None) ("Hello World" ++ nl)] None;
      PrintSuccess "Inserted 11 characters at index 1"]).
Proof.
  exact (@insert_without_heading
           (mkEnv (Examples.steady (Examples.doc_ending_at 12)) false)
           "doc123" "Hello World" 1 None None (or_introl eq_refl)).
Defined.

End ContentMore.

(** ** More on the accounts *)

Module AccountMore.
Import PyStr Auth AuthService Spec Vocabulary.

(** X19. Whatever the inputs, an account that [resolve_account] returns
    is one of the configured accounts; NoAccountConfigured is raised
    only when no account is configured, and AccountNotFound only for a
    name that was supplied explicitly or through the environment and
    is not configured, together with the configured list. *)
Theorem resolved_account_is_configured :
  forall (accounts : list string) (default env explicit : option string),
    let result := resolve_account accounts default env explicit in
    (forall a, result = inr a -> In a accounts)
    /\ (result = inl NoAccountConfiguredError -> accounts = [])
    /\ (forall name available,
           result = inl (AccountNotFoundError name available) ->
           available = accounts /\ ~ In name accounts
           /\ (supplied explicit name \/ supplied env name))
    /\ (forall e, result = inl e ->
                  e = NoAccountConfiguredError
                  \/ exists name, e = AccountNotFoundError name accounts).
Proof.
  intros accounts default env explicit result. unfold result, resolve_account.
  assert (Hsupp : forall o name,
             (if truthy_opt o then o else None) = Some name -> supplied o name).
  { intros [s|] name; simpl; [|discriminate].
    destruct (truthy s) eqn:Hs; [|discriminate].
    intros [= <-]. split; [reflexivity | now apply truthy_true_iff]. }
  destruct (if truthy_opt explicit then explicit else None) as [x|] eqn:Hx.
  { apply Hsupp in Hx.
    destruct (contains accounts x) eqn:Hc; simpl.
    - apply AccountResolution.contains_In in Hc.
      split; [|split; [|split]].
      + intros a [= <-]. exact Hc.
      + discriminate.
      + discriminate.
      + discriminate.
    - apply AccountResolution.contains_not_In in Hc.
      split; [|split; [|split]].
      + discriminate.
      + discriminate.
      + intros name available [= <- <-].
        split; [reflexivity|]. split; [exact Hc | now left].
      + intros e [= <-]. right. now exists x. }
  destruct (if truthy_opt env then env else None) as [v|] eqn:Hv.
  { apply Hsupp in Hv.
    destruct (contains accounts v) eqn:Hc; simpl.
    - apply AccountResolution.contains_In in Hc.
      split; [|split; [|split]].
      + intros a [= <-]. exact Hc.
      + discriminate.
      + discriminate.
      + discriminate.
    - apply AccountResolution.contains_not_In in Hc.
      split; [|split; [|split]].
      + discriminate.
      + discriminate.
      + intros name available [= <- <-].
        split; [reflexivity|]. split; [exact Hc | now right].
      + intros e [= <-]. right. now exists v. }
  cbv zeta.
  assert (Hfirst :
            let r : Raises string :=
              match accounts with
              | first :: _ => inr first
              | [] => inl NoAccountConfiguredError
              end in
            (forall a, r = inr a -> In a accounts)
            /\ (r = inl NoAccountConfiguredError -> accounts = [])
            /\ (forall name available,
                   r = inl (AccountNotFoundError name available) ->
                   available = accounts /\ ~ In name accounts
                   /\ (supplied explicit name \/ supplied env name))
            /\ (forall e, r = inl e ->
                          e = NoAccountConfiguredError
                          \/ exists name, e = AccountNotFoundError name accounts)).
  { destruct accounts as [|first rest]; cbv zeta;
      (split; [|split; [|split]]); try discriminate;
      try (intros _; reflexivity).
    - intros e [= <-]. now left.
    - intros a [= <-]. now left. }
  cbv zeta in Hfirst.
  destruct (if truthy_opt default then default else None) as [d|]; [|exact Hfirst].
  destruct (contains accounts d) eqn:Hc; [|exact Hfirst].
  apply AccountResolution.contains_In in Hc.
  split; [|split; [|split]]; try discriminate. intros a [= <-]. exact Hc.
Qed.

(** A stale default pointer: the first account is returned. *)
Lemma resolved_account_is_configured_witness :
  In "first@example.com" ["first@example.com"; "second@example.com"].
Proof.
  exact (proj1 (resolved_account_is_configured
                  ["first@example.com"; "second@example.com"]
                  (Some "gone@example.com") None None)
               "first@example.com" eq_refl).
Defined.

(** X20. Logging out: with [all_accounts] every listed account is
    returned and the store is cleared, whatever [account] is; with a
    non-empty [account] exactly that name is returned and its
    credentials deleted, without any check that it is configured;
    with neither, the resolved account is logged out, and when
    resolution fails nothing is deleted and the empty list is
    returned. *)
Theorem logout_behaviour :
  forall (S : Store) (account : option string),
    logout S account true = (list_accounts S, [clear_all_accounts])
    /\ (forall a, supplied account a ->
                  logout S account false = ([a], [delete_credentials a]))
    /\ (not_supplied account ->
        (forall a, resolve S None = inr a ->
                   logout S account false = ([a], [delete_credentials a])
                   /\ In a (list_accounts S))
        /\ (forall e, resolve S None = inl e -> logout S account false = ([], []))).
Proof.
  intros S account. split; [reflexivity|]. split.
  - intros a Ha. unfold logout.
    now rewrite (AccountResolution.supplied_truthy Ha).
  - intros Hno. unfold logout.
    rewrite (AccountResolution.not_supplied_falsy Hno). split.
    + intros a Hres. rewrite Hres. split; [reflexivity|].
      unfold resolve in Hres.
      destruct (contains (list_accounts S) a) eqn:Hc;
        [now apply AccountResolution.contains_In|].
      exfalso. apply AccountResolution.contains_not_In in Hc. apply Hc.
      revert Hres. unfold resolve_account. simpl.
      destruct (if truthy_opt (GDOCS_ACCOUNT S) then GDOCS_ACCOUNT S else None)
        as [v|].
      { destruct (contains (list_accounts S) v) eqn:Hv; simpl; [|discriminate].
        intros [= <-]. now apply AccountResolution.contains_In. }
      destruct (if truthy_opt (get_default_account S) then get_default_account S
                else None) as [d|].
      { destruct (contains (list_accounts S) d) eqn:Hd.
        - intros [= <-]. now apply AccountResolution.contains_In.
        - destruct (list_accounts S); [discriminate|]. intros [= <-]. now left. }
      destruct (list_accounts S); [discriminate|]. intros [= <-]. now left.
    + intros e Hres. now rewrite Hres.
Qed.

(** Logging out a name that is not configured, and the default. *)
Lemma logout_behaviour_witness :
  logout MoreExamples.two_accounts (Some "nobody@example.com") false
  = (["nobody@example.com"], [delete_credentials "nobody@example.com"])
  /\ logout MoreExamples.two_accounts None false
     = (["second@example.com"], [delete_credentials "second@example.com"]).
Proof.
  destruct (logout_behaviour MoreExamples.two_accounts (Some "nobody@example.com"))
    as (_ & Hnamed & _).
  destruct (logout_behaviour MoreExamples.two_accounts None) as (_ & _ & Hdefault).
  split.
  - apply Hnamed. split; [reflexivity | discriminate].
  - exact (proj1 (proj1 (Hdefault (or_introl eq_refl)) "second@example.com" eq_refl)).
Defined.

(** X21. [get_credentials] writes to the store at most once and only
    around a refresh, which it attempts only for stored credentials
    that are expired and have a refresh token: a successful refresh
    saves and returns the refreshed credentials, a failed one deletes
    the account's credentials and returns nothing; credentials that
    are not expired, or are expired without a refresh token, are
    returned as stored (still expired in the latter case) with no
    write; an account with no stored credentials gets nothing and no
    write; and when no account is given, the resolved account is
    used, and when none resolves nothing is loaded, written or
    returned. *)
Theorem get_credentials_behaviour :
  forall (S : Store) (account : string),
    (load_credentials S account = None ->
     get_credentials S (Some account) = (None, []))
    /\ (forall stored : Credentials,
           load_credentials S account = Some stored ->
           (expired stored = true /\ truthy_opt (refresh_token stored) = true ->
            (forall refreshed, refresh S stored = Some refreshed ->
                               get_credentials S (Some account)
                               = (Some refreshed, [save_credentials refreshed account]))
            /\ (refresh S stored = None ->
                get_credentials S (Some account) = (None, [delete_credentials account])))
           /\ (expired stored = false \/ truthy_opt (refresh_token stored) = false ->
               get_credentials S (Some account) = (Some stored, [])))
    /\ (forall e, resolve S None = inl e -> get_credentials S None = (None, []))
    /\ (forall a, resolve S None = inr a ->
                  get_credentials S None = get_credentials S (Some a))
    /\ (length (snd (get_credentials S (Some account))) <= 1)%nat.
Proof.
  intros S account. split; [|split; [|split; [|split]]].
  - intros Hload. unfold get_credentials, credentials_of. now rewrite Hload.
  - intros stored Hload. split.
    + intros [He Ht]. unfold get_credentials, credentials_of.
      rewrite Hload, He, Ht. simpl. split.
      * intros refreshed ->. reflexivity.
      * intros ->. reflexivity.
    + intros Hor. unfold get_credentials, credentials_of. rewrite Hload.
      destruct Hor as [-> | ->]; [reflexivity | now rewrite andb_false_r].
  - intros e Hres. unfold get_credentials. now rewrite Hres.
  - intros a Hres. unfold get_credentials. now rewrite Hres.
  - unfold get_credentials, credentials_of.
    destruct (load_credentials S account) as [stored|]; [|simpl; lia].
    destruct (expired stored && truthy_opt (refresh_token stored)); [|simpl; lia].
    destruct (refresh S stored); simpl; lia.
Qed.

(** The first account's refresh fails; the second needs none; an empty
    store has nothing to give, to a named account or to none. *)
Lemma get_credentials_behaviour_witness :
  get_credentials MoreExamples.two_accounts (Some "first@example.com")
  = (None, [delete_credentials "first@example.com"])
  /\ get_credentials MoreExamples.two_accounts (Some "second@example.com")
     = (Some (mkCredentials false (Some "r2") true), [])
  /\ get_credentials StoreExamples.empty_store (Some "nobody@example.com") = (None, [])
  /\ get_credentials StoreExamples.empty_store None = (None, []).
Proof.
  destruct (@get_credentials_behaviour MoreExamples.two_accounts "first@example.com")
    as (_ & H1 & _).
  destruct (@get_credentials_behaviour MoreExamples.two_accounts "second@example.com")
    as (_ & H2 & _).
  destruct (@get_credentials_behaviour StoreExamples.empty_store "nobody@example.com")
    as (H3 & _ & H4 & _).
  split; [|split; [|split]].
  - exact (proj2 (proj1 (H1 (mkCredentials true (Some "r1") false) eq_refl)
                        (conj eq_refl eq_refl)) eq_refl).
  - exact (proj2 (H2 (mkCredentials false (Some "r2") true) eq_refl) (or_introl eq_refl)).
  - exact (H3 eq_refl).
  - exact (H4 NoAccountConfiguredError eq_refl).
Defined.

(** X22. [refresh_credentials] never deletes anything: it returns True
    exactly when it has saved refreshed credentials, which happens
    exactly when the account's stored credentials have a refresh token
    and the refresh succeeds, whether or not they had expired; in every
    other case it returns False and leaves the store as it was, where
    [get_credentials] would have deleted the credentials after a
    failed refresh. *)
Theorem refresh_credentials_behaviour :
  forall (S : Store) (account : string),
    let '(ok, ops) := refresh_credentials S (Some account) in
    filter is_delete ops = []
    /\ (ok = true <->
        exists stored refreshed,
          load_credentials S account = Some stored
          /\ truthy_opt (refresh_token stored) = true
          /\ refresh S stored = Some refreshed
          /\ ops = [save_credentials refreshed account])
    /\ (ok = false -> ops = []).
Proof.
  intros S account. unfold refresh_credentials.
  destruct (load_credentials S account) as [stored|] eqn:Hload.
  - destruct (truthy_opt (refresh_token stored)) eqn:Ht; simpl.
    + destruct (refresh S stored) as [refreshed|] eqn:Hr.
      * repeat split; try discriminate.
        exists stored, refreshed. now repeat split.
      * repeat split; try discriminate.
        intros (s & r & [= <-] & _ & Hr' & _). congruence.
    + repeat split; try discriminate.
      intros (s & r & [= <-] & Ht' & _). congruence.
  - repeat split; try discriminate.
    intros (s & r & Hs & _). discriminate.
Qed.

(** The first account's refresh fails: nothing is deleted. *)
Lemma refresh_credentials_behaviour_witness :
  refresh_credentials MoreExamples.two_accounts (Some "first@example.com")
  = (false, []).
Proof.
  pose proof (refresh_credentials_behaviour MoreExamples.two_accounts
                                            "first@example.com") as H.
  destruct (refresh_credentials MoreExamples.two_accounts (Some "first@example.com"))
    as [ok ops] eqn:Hrun.
  destruct H as (_ & _ & Hfalse).
  injection Hrun as <- <-. reflexivity.
Defined.

End AccountMore.

(** ** The remaining commands *)

Module MoreCommandsFacts.
Import PyStr RequestBuilder Builders Reader Spec MoreCommands.
Local Open Scope Z_scope.

(** X23. [replace] submits one batch holding one replaceAllText
    descriptor whose matchCase is the flag as given, and on success
    reports the occurrencesChanged of the first reply's replaceAllText
    entry, or 0 when the response has no replies, the first reply has
    no such entry, or the entry has no count; when the batch fails its
    exception leaves the command and nothing is reported. *)
Theorem replace_reports_reply_count :
  forall (E : Env) (document_id find replace : string) (match_case : bool)
         (account : option string),
    let batch := [extended (replaceAllText find match_case replace)] in
    (forall e,
        documents_batchUpdate (remote E) 0 document_id batch = inl e ->
        run (replace_command E document_id find replace match_case account)
        = (inl e, [BatchUpdate document_id batch account]))
    /\ (forall response,
           documents_batchUpdate (remote E) 0 document_id batch = inr response ->
           exists count : Z,
             run (replace_command E document_id find replace match_case account)
             = (inr tt,
                [BatchUpdate document_id batch account;
                 if json_mode E
                 then PrintJson (JObject [("replaced", JBool true);
                                          ("occurrences", JInt count)])
                 else PrintSuccess ("Replaced " ++ of_int count ++ " occurrence(s)")])
             /\ (replies response = [] -> count = 0)
             /\ (forall first rest,
                    replies response = first :: rest ->
                    (reply_replaceAllText first = None -> count = 0)
                    /\ (forall r, reply_replaceAllText first = Some r ->
                                  (occurrencesChanged r = None -> count = 0)
                                  /\ (forall n, occurrencesChanged r = Some n ->
                                                count = n)))).
Proof.
  intros E document_id find replace match_case account batch. split.
  - intros e Hbatch.
    unfold run, replace_command, bind, batch_update, replace_all_text_request.
    simpl. fold batch. now rewrite Hbatch.
  - intros response Hbatch. exists (occurrences_of response). split; [|split].
    + unfold run, replace_command, bind, batch_update, replace_all_text_request,
        print_json, print_success, emit, list_append.
      simpl. fold batch. rewrite Hbatch. destruct (json_mode E); reflexivity.
    + intros Hnone. unfold occurrences_of. now rewrite Hnone.
    + intros first rest Hfirst. unfold occurrences_of. rewrite Hfirst. split.
      * intros ->. reflexivity.
      * intros r ->. split; [intros -> | intros n ->]; reflexivity.
Qed.

(** Three occurrences replaced, case ignored. *)
Lemma replace_reports_reply_count_witness :
  run (replace_command
         (mkEnv (MoreExamples.steady
                   (Examples.doc_ending_at 12)
                   (mkBatchResponse
                      [mkReply (Some (mkReplaceAllTextReply (Some 3)))]))
                false (fun _ => None))
         "doc123" "old" "new" false None)
  = (inr tt,
     [BatchUpdate "doc123" [extended (replaceAllText "old" false "new")] None;
      PrintSuccess "Replaced 3 occurrence(s)"]).
Proof.
  destruct (proj2 (replace_reports_reply_count
                     (mkEnv (MoreExamples.steady
                               (Examples.doc_ending_at 12)
                               (mkBatchResponse
                                  [mkReply (Some (mkReplaceAllTextReply (Some 3)))]))
                            false (fun _ => None))
                     "doc123" "old" "new" false None)
                  (mkBatchResponse [mkReply (Some (mkReplaceAllTextReply (Some 3)))])
                  eq_refl) as (count & Hrun & _ & Hcount).
  destruct (Hcount _ _ eq_refl) as [_ Hsome].
  destruct (Hsome _ eq_refl) as [_ Hn].
  rewrite (Hn 3 eq_refl) in Hrun. exact Hrun.
Defined.

(** X24. [from-file] makes no remote call for a path that does not
    exist: it prints the file-not-found message on the error stream
    and exits with status 1; a read that raises is passed on, again
    with no remote call; and the content of a file that is read is
    appended exactly as read, with no newline added, as the single
    end-of-segment insert of one batch. *)
Theorem from_file_behaviour :
  forall (E : Env) (document_id file_path : string) (account : option string),
    (files E file_path = None ->
     run (from_file_command E document_id file_path account)
     = (inl (Core (Exit 1)), [Echo ("File not found: " ++ file_path) true]))
    /\ (forall e,
           files E file_path = Some (inl e) ->
           run (from_file_command E document_id file_path account) = (inl e, []))
    /\ (forall content,
           files E file_path = Some (inr content) ->
           remote_calls (snd (run (from_file_command E document_id file_path account)))
           = [BatchUpdate document_id
                [basic (insertText (endOfSegmentLocation None) content)] account]).
Proof.
  intros E document_id file_path account. split; [|split].
  - intros Hfile. unfold run, from_file_command. now rewrite Hfile.
  - intros e Hfile. unfold run, from_file_command. now rewrite Hfile.
  - intros content Hfile. unfold run, from_file_command. rewrite Hfile.
    unfold bind, batch_update, print_json, print_success, emit, list_append,
      insert_text_at_end_request, segment. simpl.
    destruct (documents_batchUpdate _ _ _ _); [reflexivity|].
    destruct (json_mode E); reflexivity.
Qed.

(** A missing file and a file of two lines. *)
Lemma from_file_behaviour_witness :
  run (from_file_command
         (mkEnv (MoreExamples.steady (Examples.doc_ending_at 12) (mkBatchResponse []))
                false (MoreExamples.one_file "notes.txt" ("a" ++ nl ++ "b")))
         "doc123" "missing.txt" None)
  = (inl (Core (Exit 1)), [Echo "File not found: missing.txt" true])
  /\ remote_calls
       (snd (run (from_file_command
                    (mkEnv (MoreExamples.steady (Examples.doc_ending_at 12)
                                                (mkBatchResponse []))
                           false (MoreExamples.one_file "notes.txt" ("a" ++ nl ++ "b")))
                    "doc123" "notes.txt" None)))
     = [BatchUpdate "doc123"
          [basic (insertText (endOfSegmentLocation None) ("a" ++ nl ++ "b"))] None].
Proof.
  split.
  - exact (proj1 (from_file_behaviour
                    (mkEnv (MoreExamples.steady (Examples.doc_ending_at 12)
                                                (mkBatchResponse []))
                           false (MoreExamples.one_file "notes.txt" ("a" ++ nl ++ "b")))
                    "doc123" "missing.txt" None) eq_refl).
  - exact (proj2 (proj2 (from_file_behaviour
                    (mkEnv (MoreExamples.steady (Examples.doc_ending_at 12)
                                                (mkBatchResponse []))
                           false (MoreExamples.one_file "notes.txt" ("a" ++ nl ++ "b")))
                    "doc123" "notes.txt" None)) _ eq_refl).
Defined.

(** X25. [read] and [table list] only read: in every mode and for
    every outcome of the read, each makes exactly one remote call,
    the document read, and never a batch update.  When the read
    answers, [read] prints the response as received if [--raw] is
    given or JSON mode is on, whatever [--plain] says, and otherwise
    two lines: the title (or [Untitled]) as a heading and the plain
    text or the Markdown of the body. *)
Theorem read_commands_only_read :
  forall (E : Env) (document_id : string) (plain raw : bool) (account : option string),
    remote_calls (snd (run (read_command E document_id plain raw account)))
    = [GetDocumentContent document_id account]
    /\ remote_calls (snd (run (list_tables_command E document_id account)))
       = [GetDocumentContent document_id account]
    /\ (forall doc,
           documents_get (remote E) 0 document_id = inr doc ->
           run (read_command E document_id plain raw account)
           = (inr tt,
              GetDocumentContent document_id account
              :: (if raw || json_mode E then [PrintJson (JDocument doc)]
                  else [Echo ("# " ++ match title doc with
                                      | Some t => t
                                      | None => "Untitled"
                                      end ++ nl) false;
                        Echo (if plain
                              then _extract_text_from_content (body_content doc)
                              else _content_to_markdown (body_content doc)) false]))).
Proof.
  intros E document_id plain raw account. split; [|split].
  - unfold run, read_command, bind, get_document_content. simpl.
    destruct (documents_get (remote E) 0 document_id) as [e|doc]; [reflexivity|].
    destruct (raw || json_mode E), plain; reflexivity.
  - unfold run, list_tables_command, bind, get_document_content. simpl.
    destruct (documents_get (remote E) 0 document_id) as [e|doc]; [reflexivity|].
    destruct (json_mode E); [reflexivity|].
    destruct (Cli._find_tables doc); reflexivity.
  - intros doc Hget.
    unfold run, read_command, bind, get_document_content. simpl. rewrite Hget.
    destruct (raw || json_mode E), plain; reflexivity.
Qed.

(** Reading the two-table document as plain text, in JSON mode. *)
Lemma read_commands_only_read_witness :
  run (read_command
         (mkEnv (MoreExamples.steady Examples.two_table_doc (mkBatchResponse []))
                true (fun _ => None))
         "doc123" true false None)
  = (inr tt,
     [GetDocumentContent "doc123" None; PrintJson (JDocument Examples.two_table_doc)]).
Proof.
  exact (proj2 (proj2 (read_commands_only_read
                         (mkEnv (MoreExamples.steady Examples.two_table_doc
                                                     (mkBatchResponse []))
                                true (fun _ => None))
                         "doc123" true false None))
               Examples.two_table_doc eq_refl).
Defined.



End MoreCommandsFacts.
